(** * AutoHotkey.py: the window and clipboard facades over the host dispatch call

    A shallow embedding of [ahkpy/window.py] and [ahkpy/clipboard.py].
    Every operation of the binding marshals arguments, dispatches commands to
    the AutoHotkey host through [ahk_call] and reinterprets the reply.  The
    host is a parameter of the development: a function from the history of
    dispatched calls and the current call to a reply.  Operations run in a
    small monad that threads the trace of dispatched calls and propagates
    Python exceptions. *)

From Stdlib Require Import ZArith QArith Qabs List String Ascii Bool Lia.
From Stdlib Require Import DecimalString HexadecimalString.
Import ListNotations.
Open Scope string_scope.
Open Scope Z_scope.

(** ** Python values exchanged with the host *)

#[local] Set Warnings "-register-all".

Inductive PyVal : Type :=
| VNone
| VBool (b : bool)
| VInt (z : Z)
| VFloat (q : Q)
| VInf (positive : bool)
| VStr (s : string)
| VDict (items : list (string * PyVal)).

(** [bool(v)] *)
Definition truthy (v : PyVal) : bool :=
  match v with
  | VNone => false
  | VBool b => b
  | VInt z => negb (z =? 0)
  | VFloat q => negb (Qeq_bool q 0)
  | VInf _ => true
  | VStr s => negb (s =? "")%string
  | VDict items => match items with [] => false | _ :: _ => true end
  end.

(** [v is None] *)
Definition is_None (v : PyVal) : bool :=
  match v with VNone => true | _ => false end.

(** [v == ""]: only the empty [str] equals the empty string. *)
Definition eq_empty_str (v : PyVal) : bool :=
  match v with VStr s => (s =? "")%string | _ => false end.

(** [v == z] for an integer literal [z]; bools and floats compare by value. *)
Definition eq_int (v : PyVal) (z : Z) : bool :=
  match v with
  | VInt z' => z' =? z
  | VBool b => Z.b2z b =? z
  | VFloat q => Qeq_bool q (inject_Z z)
  | _ => false
  end.

(** [a or b] *)
Definition py_or (a b : PyVal) : PyVal := if truthy a then a else b.

(** Numbers a caller passes in (timeouts, coordinates, opacity).  A finite
    float is modelled by the rational it denotes; comparisons between ints and
    floats and truncation by [int()] are exact on those.  The value [VInf]
    is the infinite float that arithmetic on finite floats can overflow to. *)
Inductive PyNum : Type :=
| NInt (z : Z)
| NFloat (q : Q).

Definition num (n : PyNum) : PyVal :=
  match n with NInt z => VInt z | NFloat q => VFloat q end.

(** An optional number as the value handed to the host: [None] stays [None]. *)
Definition opt_num (t : option PyNum) : PyVal :=
  match t with None => VNone | Some n => num n end.

(** [int(n)]: truncation towards zero. *)
Definition int (n : PyNum) : Z :=
  match n with
  | NInt z => z
  | NFloat q => Z.quot (Qnum q) (Zpos (Qden q))
  end.


Definition to_Q (n : PyNum) : Q :=
  match n with NInt z => inject_Z z | NFloat q => q end.

(** [lo <= n <= hi] for integer literals [lo] and [hi]. *)
Definition between (lo : Z) (n : PyNum) (hi : Z) : bool :=
  Qle_bool (inject_Z lo) (to_Q n) && Qle_bool (to_Q n) (inject_Z hi).

(** [str(z)] for an int. *)
Definition str_int (z : Z) : string :=
  DecimalString.NilZero.string_of_int (Z.to_int z).

(** [sep.join(parts)] *)
Fixpoint join (sep : string) (parts : list string) : string :=
  match parts with
  | [] => ""
  | [p] => p
  | p :: rest => p ++ sep ++ join sep rest
  end.

(** [s.replace("-", "m")] *)
Fixpoint replace_dash (s : string) : string :=
  match s with
  | EmptyString => EmptyString
  | String c rest =>
      String (if Ascii.eqb c "-"%char then "m"%char else c) (replace_dash rest)
  end.

(** [s.lower()] on the ASCII letters.  The names of the match modes are ASCII
    and no other character lower-cases to one of their letters. *)
Definition lower_char (c : ascii) : ascii :=
  let n := nat_of_ascii c in
  if (Nat.leb 65 n && Nat.leb n 90)%bool then ascii_of_nat (n + 32) else c.

Fixpoint lower (s : string) : string :=
  match s with
  | EmptyString => EmptyString
  | String c rest => String (lower_char c) (lower rest)
  end.

(** ** The host boundary *)

(** One dispatch: [ahk_call(cmd, *args)]. *)
Record HostCall : Type := Call { call_cmd : string; call_args : list PyVal }.

(** The host either returns a value or raises [ahkpy.Error] with a message. *)
Inductive Reply : Type :=
| Returns (v : PyVal)
| Raises (message : PyVal).

Definition Trace : Type := list HostCall.

(** The host: its reply may depend on everything dispatched before. *)
Definition Host : Type := Trace -> HostCall -> Reply.

(** Python exceptions that the modelled code raises or lets through. *)
Inductive Exn : Type :=
| Error (message : PyVal)
| ValueError (msg : string)
| TypeError
| KeyError (key : string)
| AttributeError
| OverflowError
| RuntimeError (msg : string).

Inductive Res (A : Type) : Type :=
| Ok (a : A)
| Exc (e : Exn).
Arguments Ok {A} a.
Arguments Exc {A} e.

(** ** Float arithmetic

    [to_double] stands for the rounding of a rational to the nearest double,
    [None] when its magnitude is beyond the finite doubles. *)

(** [float(n)]: an int is rounded to a double and raises [OverflowError] when
    it is too large; a float is returned as it is. *)
Definition float (to_double : Q -> option Q) (n : PyNum) : Res PyNum :=
  match n with
  | NInt z =>
      match to_double (inject_Z z) with
      | Some q => Ok (NFloat q)
      | None => Exc OverflowError
      end
  | NFloat q => Ok (NFloat q)
  end.

(** [n * 1000]: exact on an int; on a float the rounded product, which is
    infinite when it overflows. *)
Definition times_1000 (to_double : Q -> option Q) (n : PyNum) : PyVal :=
  match n with
  | NInt z => VInt (z * 1000)
  | NFloat q =>
      match to_double (q * inject_Z 1000)%Q with
      | Some q' => VFloat q'
      | None => VInf (Qle_bool 0 q)
      end
  end.

(** [int(n * 1000)]: [int()] of an infinite float raises [OverflowError]. *)
Definition int_times_1000 (to_double : Q -> option Q) (n : PyNum) : Res Z :=
  match times_1000 to_double n with
  | VInt z => Ok z
  | VFloat q => Ok (int (NFloat q))
  | _ => Exc OverflowError
  end.

(** Computations that dispatch host calls: the trace of calls is threaded
    through, an exception aborts the rest but keeps what was dispatched. *)
Definition M (A : Type) : Type := Trace -> Res A * Trace.

Definition ret {A} (a : A) : M A := fun tr => (Ok a, tr).

Definition raise {A} (e : Exn) : M A := fun tr => (Exc e, tr).

Definition bind {A B} (m : M A) (k : A -> M B) : M B :=
  fun tr =>
    match m tr with
    | (Ok a, tr') => k a tr'
    | (Exc e, tr') => (Exc e, tr')
    end.

(** [try: m except ...: handler] *)
Definition catch {A} (m : M A) (handler : Exn -> M A) : M A :=
  fun tr =>
    match m tr with
    | (Ok a, tr') => (Ok a, tr')
    | (Exc e, tr') => handler e tr'
    end.

(** A pure step that may raise. *)
Definition lift {A} (r : Res A) : M A :=
  match r with Ok a => ret a | Exc e => raise e end.

Notation "x <- m ;; k" := (bind m (fun x => k))
  (at level 61, m at next level, right associativity).
Notation "m ;;; k" := (bind m (fun _ => k))
  (at level 61, right associativity).

(** [ahk_call(cmd, *args)]: the call is recorded, the host answers. *)
Definition ahk_call (host : Host) (c : string) (a : list PyVal) : M PyVal :=
  fun tr =>
    match host tr (Call c a) with
    | Returns v => (Ok v, (tr ++ [Call c a])%list)
    | Raises m => (Exc (Error m), (tr ++ [Call c a])%list)
    end.

(** Commands that only set the host's global search modes and delays, as
    opposed to the command an operation is about. *)
Definition is_setting (c : string) : bool :=
  ((c =? "DetectHiddenWindows") || (c =? "DetectHiddenText") ||
   (c =? "SetTitleMatchMode") || (c =? "SetWinDelay"))%string.

(** The queries and actions of a trace: everything but the settings. *)
Definition queries (tr : Trace) : Trace :=
  List.filter (fun c => negb (is_setting (call_cmd c))) tr.

(** The host accepts the mode-setting commands (it does not raise on them). *)
Definition settings_ok (host : Host) : Prop :=
  forall tr c, is_setting (call_cmd c) = true -> exists v, host tr c = Returns v.

(** ** Three-valued fields: unset, [None], or a value *)

Inductive Field (A : Type) : Type :=
| UNSET
| PyNone
| Val (a : A).
Arguments UNSET {A}.
Arguments PyNone {A}.
Arguments Val {A} a.

(** [x is UNSET] *)
Definition is_unset {A} (x : Field A) : bool :=
  match x with UNSET => true | _ => false end.

(** [x is None] *)
Definition is_none {A} (x : Field A) : bool :=
  match x with PyNone => true | _ => false end.

(** [str(x)] for a field that holds a string. *)
Definition str_field (x : Field string) : string :=
  match x with UNSET => "UNSET" | PyNone => "None" | Val s => s end.

(** [str(x)] for a field that holds an int. *)
Definition str_int_field (x : Field Z) : string :=
  match x with UNSET => "UNSET" | PyNone => "None" | Val z => str_int z end.

(** [bool(x)] for a flag field: the [UNSET] object is truthy. *)
Definition flag_truthy (x : Field bool) : bool :=
  match x with UNSET => true | PyNone => false | Val b => b end.

Module converters.

(** Modelled from the spec: [converters.default] is imported by [window.py]
    but is not among the sources.  [default(value, default_value, none=UNSET)]
    merges a given field over an existing one: an absent (unset) argument does
    not override, anything else (also [None]) wins. *)
Definition default {A} (value default_value : Field A) : Field A :=
  match value with
  | UNSET => default_value
  | _ => value
  end.

(** Modelled from the spec: the converting form
    [default(str, value, "", none=UNSET)], which formats a set field with
    [str] and yields the empty string for an unset one. *)
Definition default_str (value : Field string) : string :=
  match value with
  | UNSET => ""
  | _ => str_field value
  end.

(** Modelled from the spec: the converting form [default(int, value, "")],
    whose absent value is [None]: a coordinate that is not given is passed to
    the host as the empty string. *)
Definition default_int (value : option PyNum) : PyVal :=
  match value with
  | None => VStr ""
  | Some n => VInt (int n)
  end.

(** Modelled from the spec: the plain form [default(value, "")], whose absent
    value is [None]: a timeout that is not given is passed to the host as the
    empty string, a given one as it is. *)
Definition default_num (value : option PyNum) : PyVal :=
  match value with
  | None => VStr ""
  | Some n => num n
  end.

End converters.

(** ** Entity handles: [_Window], [Window] and [Control] *)

Module _Window.

(** The frozen dataclass with the single field [id: int]. *)
Record t : Type := Build { id : Z }.

(** [_Window(v)] for a value [v] the host replied.  The field is annotated
    [int]; a reply of another type is outside this model of handles and is
    reported as [TypeError]. *)
Definition of_reply (v : PyVal) : M t :=
  match v with
  | VInt z => ret (Build z)
  | _ => raise TypeError
  end.

Definition __bool__ (self : t) : bool := negb (id self =? 0).

(** The 2-tuple [(f"ahk_id {self.id}", win_text)]. *)
Definition _include (self : t) : string * string :=
  let win_text := "" in
  ("ahk_id " ++ str_int (id self), win_text).

(** [*pair]: a 2-tuple of strings spliced into an argument list. *)
Definition splat (p : string * string) : list PyVal :=
  [VStr (fst p); VStr (snd p)].

Section Dispatch.

(** [win_delay] stands for the value of
    [optional_ms(get_settings().win_delay)]. *)
Context (host : Host) (win_delay : PyVal).

Definition _call (self : t) (cmd : string) (args : list PyVal)
    (exclude_hidden_windows set_delay : bool) : M PyVal :=
  if id self =? 0 then ret VNone
  else
    (if exclude_hidden_windows
     then ahk_call host "DetectHiddenWindows" [VStr "Off"]
     else ahk_call host "DetectHiddenWindows" [VStr "On"]) ;;;
    (if set_delay then ahk_call host "SetWinDelay" [win_delay] else ret VNone) ;;;
    ahk_call host cmd args.

End Dispatch.

End _Window.

(** [d[key]] on a value the host replied. *)
Fixpoint lookup (key : string) (items : list (string * PyVal)) : option PyVal :=
  match items with
  | [] => None
  | (k, v) :: rest => if (k =? key)%string then Some v else lookup key rest
  end.

Definition getitem (d : PyVal) (key : string) : M PyVal :=
  match d with
  | VDict items =>
      match lookup key items with
      | Some v => ret v
      | None => raise (KeyError key)
      end
  | _ => raise TypeError
  end.

(** [IntFlag(v)], the constructor of [WindowStyle] and [ExWindowStyle]: an
    int that is not negative is kept with all its bits.  What the enum
    library makes of any other value (a negative int, a bool, a value that is
    no int) depends on its version: [flag_of_other] stands for it, the value
    of the resulting flag or the exception. *)
Definition IntFlag (flag_of_other : PyVal -> Res Z) (v : PyVal) : M PyVal :=
  match v with
  | VInt z =>
      if 0 <=? z then ret (VInt z)
      else z' <- lift (flag_of_other v) ;; ret (VInt z')
  | _ => z' <- lift (flag_of_other v) ;; ret (VInt z')
  end.

(** [flag in style]: membership in a flag value; in anything that is no flag
    value, such as [None], it is a [TypeError]. *)
Definition has_flag (flag : Z) (style : PyVal) : Res bool :=
  match style with
  | VInt z => Ok (Z.land z flag =? flag)
  | _ => Exc TypeError
  end.

(** [hex(v)]: "0x" and the lower-case hexadecimal digits, after the sign. *)
Definition hex_digits (z : Z) : string :=
  HexadecimalString.NilZero.string_of_uint (N.to_hex_uint (Z.to_N z)).

Definition hex (v : PyVal) : Res string :=
  match v with
  | VInt z => Ok (if z <? 0 then "-0x" ++ hex_digits (- z) else "0x" ++ hex_digits z)
  | VBool b => Ok ("0x" ++ hex_digits (Z.b2z b))
  | _ => Exc TypeError
  end.

(** [s[2:]] *)
Definition drop2 (s : string) : string :=
  match s with
  | String _ (String _ rest) => rest
  | _ => ""
  end.

Module WindowStyle.
Definition DISABLED : Z := 0x08000000.
Definition VISIBLE : Z := 0x10000000.
End WindowStyle.

Module ExWindowStyle.
Definition TOPMOST : Z := 0x00000008.
End ExWindowStyle.

Module Window.

Import _Window.

Section Operations.

(** [_set_key_delay] stands for [hotkeys._set_key_delay], which lives in
    another source file: whatever it dispatches, it runs before the send.
    [splitlines] stands for [str.splitlines], [int_base16] for
    [int(_, base=16)], [Color], [to_tuple] and [to_hex] for the colors of the
    module [colors] and its two conversions. *)
Context (host : Host) (win_delay : PyVal) (_set_key_delay : M PyVal)
        (flag_of_other : PyVal -> Res Z) (to_double : Q -> option Q)
        (splitlines : string -> list string) (int_base16 : string -> Res Z)
        (Color : Type) (to_tuple : string -> Res Color)
        (to_hex : PyNum -> PyNum -> PyNum -> Res string).

Abbreviation _call := (_Window._call host win_delay).

Definition none_if_empty (v : PyVal) : PyVal :=
  if negb (eq_empty_str v) then v else VNone.

Definition rect (self : t) : M (PyVal * PyVal * PyVal * PyVal) :=
  result <- _call self "WinGetPos" (splat (_include self)) false true ;;
  xywh <- (if negb (is_None result) then
             x <- getitem result "X" ;;
             y <- getitem result "Y" ;;
             width <- getitem result "Width" ;;
             height <- getitem result "Height" ;;
             ret (x, y, width, height)
           else ret (VNone, VNone, VNone, VNone)) ;;
  let '(x, y, width, height) := xywh in
  ret (none_if_empty x, none_if_empty y, none_if_empty width, none_if_empty height).

Definition move (self : t) (x y width height : option PyNum) : M PyVal :=
  _call self "WinMove"
    (splat (_include self) ++
     [converters.default_int x; converters.default_int y;
      converters.default_int width; converters.default_int height])%list
    false true ;;;
  ret VNone.

Definition set_rect (self : t)
    (new_rect : option PyNum * option PyNum * option PyNum * option PyNum) : M PyVal :=
  let '(x, y, width, height) := new_rect in
  move self x y width height.

Definition position (self : t) : M (PyVal * PyVal) :=
  r <- rect self ;;
  let '(x, y, _, _) := r in
  ret (x, y).

Definition set_position (self : t) (new_position : option PyNum * option PyNum) : M PyVal :=
  let '(x, y) := new_position in
  move self x y None None.

Definition x (self : t) : M PyVal :=
  r <- rect self ;; let '(x, _, _, _) := r in ret x.

Definition set_x (self : t) (new_x : option PyNum) : M PyVal :=
  move self new_x None None None.

Definition y (self : t) : M PyVal :=
  r <- rect self ;; let '(_, y, _, _) := r in ret y.

Definition set_y (self : t) (new_y : option PyNum) : M PyVal :=
  move self None new_y None None.

Definition width (self : t) : M PyVal :=
  r <- rect self ;; let '(_, _, width, _) := r in ret width.

Definition set_width (self : t) (new_width : option PyNum) : M PyVal :=
  move self None None new_width None.

Definition height (self : t) : M PyVal :=
  r <- rect self ;; let '(_, _, _, height) := r in ret height.

Definition set_height (self : t) (new_height : option PyNum) : M PyVal :=
  move self None None None new_height.

Definition is_active (self : t) : M bool :=
  r <- _call self "WinActive" (splat (_include self)) false true ;;
  ret (truthy r).

Definition exists_ (self : t) : M bool :=
  r <- _call self "WinExist" (splat (_include self)) false true ;;
  ret (truthy r).

Definition class_name (self : t) : M PyVal :=
  class_name <- _call self "WinGetClass" (splat (_include self)) false true ;;
  if negb (eq_empty_str class_name) then ret class_name else ret VNone.

Definition text (self : t) : M PyVal :=
  catch (_call self "WinGetText" (splat (_include self)) false true)
    (fun err =>
       match err with
       | Error message => if eq_int message 1 then ret VNone else raise err
       | _ => raise err
       end).

Definition title (self : t) : M PyVal :=
  title <- _call self "WinGetTitle" (splat (_include self)) false true ;;
  ex <- exists_ self ;;
  if ex then ret title else ret VNone.

Definition set_title (self : t) (new_title : string) : M PyVal :=
  _call self "WinSetTitle" (splat (_include self) ++ [VStr new_title])%list false true ;;;
  ret VNone.

Definition _get (self : t) (subcmd : string) : M PyVal :=
  result <- _call self "WinGet" (VStr subcmd :: splat (_include self)) false true ;;
  if negb (eq_empty_str result) then ret result else ret VNone.

Definition _set (self : t) (subcmd : string) (value : PyVal) : M PyVal :=
  _call self "WinSet" (VStr subcmd :: value :: splat (_include self)) false true.

Definition pid (self : t) : M PyVal := _get self "PID".

Definition process_name (self : t) : M PyVal := _get self "ProcessName".

Definition process_path (self : t) : M PyVal := _get self "ProcessPath".

Definition maximize (self : t) : M PyVal :=
  _call self "WinMaximize" (splat (_include self)) false true ;;; ret VNone.

Definition minimize (self : t) : M PyVal :=
  _call self "WinMinimize" (splat (_include self)) false true ;;; ret VNone.

Definition restore (self : t) : M PyVal :=
  _call self "WinRestore" (splat (_include self)) false true ;;; ret VNone.

Definition is_minimized (self : t) : M PyVal :=
  min_max <- _get self "MinMax" ;;
  if negb (is_None min_max) then ret (VBool (eq_int min_max (-1))) else ret VNone.

Definition set_is_minimized (self : t) (value : bool) : M PyVal :=
  if value then minimize self else restore self.

Definition toggle_minimized (self : t) : M PyVal :=
  is_minimized <- is_minimized self ;;
  if negb (is_None is_minimized)
  then set_is_minimized self (negb (truthy is_minimized))
  else ret VNone.

Definition is_restored (self : t) : M PyVal :=
  min_max <- _get self "MinMax" ;;
  if negb (is_None min_max) then ret (VBool (eq_int min_max 0)) else ret VNone.

Definition is_maximized (self : t) : M PyVal :=
  min_max <- _get self "MinMax" ;;
  if negb (is_None min_max) then ret (VBool (eq_int min_max 1)) else ret VNone.

Definition set_is_maximized (self : t) (value : bool) : M PyVal :=
  if value then maximize self else restore self.

Definition toggle_maximized (self : t) : M PyVal :=
  is_maximized <- is_maximized self ;;
  if negb (is_None is_maximized)
  then set_is_maximized self (negb (truthy is_maximized))
  else ret VNone.

(** Returns a [Control] or [None]. *)
Definition get_control (self : t) (class_name : string) : M (option t) :=
  ex <- exists_ self ;;
  if negb ex then ret None
  else
    catch
      (control_id <- _call self "ControlGet"
                       ([VStr "Hwnd"; VStr ""; VStr class_name] ++ splat (_include self))%list
                       false true ;;
       c <- of_reply control_id ;;
       ret (Some c))
      (fun err =>
         match err with
         | Error message => if eq_int message 1 then ret None else raise err
         | _ => raise err
         end).

Definition style (self : t) : M PyVal :=
  style <- _get self "Style" ;;
  if negb (is_None style) then IntFlag flag_of_other style else ret VNone.

Definition set_style (self : t) (value : PyNum) : M PyVal :=
  _set self "Style" (VInt (int value)) ;;; ret VNone.

Definition ex_style (self : t) : M PyVal :=
  ex_style <- _get self "ExStyle" ;;
  if negb (is_None ex_style) then IntFlag flag_of_other ex_style else ret VNone.

Definition set_ex_style (self : t) (value : PyNum) : M PyVal :=
  _set self "ExStyle" (VInt (int value)) ;;; ret VNone.

Definition always_on_top (self : t) : M PyVal :=
  s <- ex_style self ;;
  if negb (is_None s) then
    s' <- ex_style self ;;
    b <- lift (has_flag ExWindowStyle.TOPMOST s') ;;
    ret (VBool b)
  else ret VNone.

Definition pin_to_top (self : t) : M PyVal :=
  _set self "AlwaysOnTop" (VStr "On") ;;; ret VNone.

Definition unpin_from_top (self : t) : M PyVal :=
  _set self "AlwaysOnTop" (VStr "Off") ;;; ret VNone.

Definition set_always_on_top (self : t) (value : bool) : M PyVal :=
  if value then pin_to_top self else unpin_from_top self.

Definition toggle_always_on_top (self : t) : M PyVal :=
  _set self "AlwaysOnTop" (VStr "Toggle") ;;; ret VNone.

Definition send_to_bottom (self : t) : M PyVal :=
  _set self "Bottom" (VStr "") ;;; ret VNone.

Definition bring_to_top (self : t) : M PyVal :=
  _set self "Top" (VStr "") ;;; ret VNone.

Definition disable (self : t) : M PyVal :=
  _set self "Disable" (VStr "") ;;; ret VNone.

Definition enable (self : t) : M PyVal :=
  _set self "Enable" (VStr "") ;;; ret VNone.

Definition is_enabled (self : t) : M PyVal :=
  style <- style self ;;
  if negb (is_None style)
  then b <- lift (has_flag WindowStyle.DISABLED style) ;; ret (VBool (negb b))
  else ret VNone.

Definition set_is_enabled (self : t) (value : bool) : M PyVal :=
  if value then enable self else disable self.

Definition redraw (self : t) : M PyVal :=
  _set self "Redraw" (VStr "") ;;; ret VNone.

Definition set_region (self : t) (options : string) : M PyVal :=
  _set self "Region" (VStr options) ;;; ret VNone.

Definition reset_region (self : t) : M PyVal :=
  _set self "Region" (VStr "") ;;; ret VNone.

Definition opacity (self : t) : M PyVal := _get self "Transparent".

Definition set_opacity (self : t) (value : option PyNum) : M PyVal :=
  ahk_value <- match value with
               | None => ret (VStr "Off")
               | Some v =>
                   if negb (between 0 v 255)
                   then raise (ValueError "opacity value must be between 0 and 255")
                   else ret (VInt (int v))
               end ;;
  _set self "Transparent" ahk_value ;;;
  ret VNone.

Definition hide (self : t) : M PyVal :=
  _call self "WinHide" (splat (_include self)) false true ;;; ret VNone.

Definition show (self : t) : M PyVal :=
  _call self "WinShow" (splat (_include self)) false true ;;; ret VNone.

Definition is_visible (self : t) : M PyVal :=
  style <- style self ;;
  if negb (is_None style)
  then b <- lift (has_flag WindowStyle.VISIBLE style) ;; ret (VBool b)
  else ret VNone.

Definition set_is_visible (self : t) (value : bool) : M PyVal :=
  if value then show self else hide self.

Definition wait_active (self : t) (timeout : option PyNum) : M bool :=
  timed_out <- _call self "WinWaitActive"
                 (splat (_include self) ++ [opt_num timeout])%list false true ;;
  if is_None timed_out then ret false else ret (negb (truthy timed_out)).

Definition wait_inactive (self : t) (timeout : option PyNum) : M bool :=
  timed_out <- _call self "WinWaitNotActive"
                 (splat (_include self) ++ [opt_num timeout])%list false true ;;
  if is_None timed_out then ret true else ret (negb (truthy timed_out)).

Definition wait_hidden (self : t) (timeout : option PyNum) : M bool :=
  timed_out <- _call self "WinWaitClose"
                 (splat (_include self) ++ [opt_num timeout])%list true true ;;
  if is_None timed_out then ret true else ret (negb (truthy timed_out)).

Definition wait_close (self : t) (timeout : option PyNum) : M bool :=
  timed_out <- _call self "WinWaitClose"
                 (splat (_include self) ++ [opt_num timeout])%list false true ;;
  if is_None timed_out then ret true else ret (negb (truthy timed_out)).

Definition activate (self : t) (timeout : option PyNum) : M PyVal :=
  _call self "WinActivate" (splat (_include self)) false true ;;;
  match timeout with
  | Some _ => b <- wait_active self timeout ;; ret (VBool b)
  | None => ret VNone
  end.

Definition _status_bar_exists (self : t) : M bool :=
  status_bar <- get_control self "msctls_statusbar321" ;;
  ret (match status_bar with Some _ => true | None => false end).

Definition get_status_bar_text (self : t) (part : PyNum) : M PyVal :=
  sb <- _status_bar_exists self ;;
  if negb sb then ret VNone
  else
    catch
      (_call self "StatusBarGetText" (VInt (int part) :: splat (_include self)) false true)
      (fun err =>
         match err with
         | Error message =>
             if eq_int message 1
             then raise (Error (VStr "status bar cannot be accessed"))
             else raise err
         | _ => raise err
         end).

Definition close (self : t) (timeout : option PyNum) : M PyVal :=
  _call self "WinClose" (splat (_include self) ++ [opt_num timeout])%list false true ;;;
  match timeout with
  | Some _ => ex <- exists_ self ;; ret (VBool (negb ex))
  | None => ret VNone
  end.

Definition kill (self : t) (timeout : option PyNum) : M PyVal :=
  _call self "WinKill" (splat (_include self) ++ [opt_num timeout])%list false true ;;;
  match timeout with
  | Some _ => ex <- exists_ self ;; ret (VBool (negb ex))
  | None => ret VNone
  end.

Definition send (self : t) (keys : string) : M PyVal :=
  _set_key_delay ;;;
  let control := "" in
  _call self "ControlSend" ([VStr control; VStr keys] ++ splat (_include self))%list
    false true ;;;
  ret VNone.

Definition post_message (self : t) (msg w_param l_param : PyNum) : M bool :=
  let control := "" in
  err <- _call self "PostMessage"
           ([VInt (int msg); VInt (int w_param); VInt (int l_param); VStr control] ++
            splat (_include self))%list
           false true ;;
  ret (negb (truthy err)).

(** [names.splitlines()] on a value the host replied. *)
Definition py_splitlines (v : PyVal) : M (list string) :=
  match v with
  | VStr s => ret (splitlines s)
  | _ => raise AttributeError
  end.

(** Returns a list of names or [None]. *)
Definition control_class_names (self : t) : M (option (list string)) :=
  names <- _get self "ControlList" ;;
  if negb (is_None names) then
    lines <- py_splitlines names ;;
    ret (Some lines)
  else ret None.

(** [[Control(int(hwnd, base=16)) for hwnd in hwnds]] *)
Fixpoint controls_of (hwnds : list string) : M (list t) :=
  match hwnds with
  | [] => ret []
  | hwnd :: rest =>
      z <- lift (int_base16 hwnd) ;;
      cs <- controls_of rest ;;
      ret (Build z :: cs)
  end.

(** Returns a list of controls or [None]. *)
Definition controls (self : t) : M (option (list t)) :=
  handles <- _get self "ControlListHwnd" ;;
  if is_None handles then ret None
  else
    hwnds <- py_splitlines handles ;;
    cs <- controls_of hwnds ;;
    ret (Some cs).

(** Returns a color or [None]. *)
Definition transparent_color (self : t) : M (option Color) :=
  result <- _get self "TransColor" ;;
  if negb (is_None result) then
    h <- lift (hex result) ;;
    let hex_color := drop2 h in
    c <- lift (to_tuple hex_color) ;;
    ret (Some c)
  else ret None.

Definition set_transparent_color (self : t) (value : option (PyNum * PyNum * PyNum))
    : M PyVal :=
  ahk_value <- match value with
               | None => ret (VStr "Off")
               | Some (r, g, b) => h <- lift (to_hex r g b) ;; ret (VStr h)
               end ;;
  _set self "TransColor" ahk_value ;;;
  ret VNone.

Definition wait_status_bar (self : t) (bar_text : string) (timeout : option PyNum)
    (part interval : PyNum) : M PyVal :=
  sb <- _status_bar_exists self ;;
  if negb sb then ret VNone
  else
    catch
      (timed_out <- _call self "StatusBarWait"
                      ([VStr bar_text; converters.default_num timeout; num part] ++
                       splat (_include self) ++ [times_1000 to_double interval])%list
                      false true ;;
       ret (VBool (negb (truthy timed_out))))
      (fun err =>
         match err with
         | Error message =>
             if eq_int message 2
             then raise (Error (VStr "status bar cannot be accessed"))
             else raise err
         | _ => raise err
         end).

Definition send_message (self : t) (msg w_param l_param timeout : PyNum) : M PyVal :=
  let control := "" in
  let exclude_title := "" in
  let exclude_text := "" in
  catch
    (ms <- lift (int_times_1000 to_double timeout) ;;
     _call self "SendMessage"
       ([VInt (int msg); VInt (int w_param); VInt (int l_param); VStr control] ++
        splat (_include self) ++ [VStr exclude_title; VStr exclude_text; VInt ms])%list
       false true)
    (fun err =>
       match err with
       | Error _ =>
           raise (RuntimeError
                    "there was a problem sending message or response timed out")
       | _ => raise err
       end).

End Operations.

End Window.

Module Control.

Import _Window.

Section Operations.

Context (host : Host) (win_delay : PyVal).

Abbreviation _call := (_Window._call host win_delay).

Definition text (self : t) : M PyVal :=
  _call self "ControlGetText" (VStr "" :: splat (_include self)) false true.

Definition set_text (self : t) (value : string) : M PyVal :=
  _call self "ControlSetText" (VStr "" :: VStr value :: splat (_include self)) false true ;;;
  ret VNone.

Definition _get (self : t) (subcmd : string) (value : PyVal) : M PyVal :=
  result <- _call self "ControlGet"
              (VStr subcmd :: value :: VStr "" :: splat (_include self)) false true ;;
  if negb (eq_empty_str result) then ret result else ret VNone.

End Operations.

End Control.

(** ** The query filter [Windows] *)

Inductive TitleMatchMode : Type := STARTSWITH | CONTAINS | EXACT | REGEX.

Inductive TextMatchMode : Type := FAST | SLOW.

(** [TitleMatchMode(value)]: the member with that value, or [ValueError]. *)
Definition TitleMatchMode_of_value (value : string) : Res TitleMatchMode :=
  if (value =? "startswith")%string then Ok STARTSWITH
  else if (value =? "contains")%string then Ok CONTAINS
  else if (value =? "exact")%string then Ok EXACT
  else if (value =? "regex")%string then Ok REGEX
  else Exc (ValueError ("'" ++ value ++ "' is not a valid TitleMatchMode")).

(** What a caller may pass as [match]: a mode name or a mode. *)
Inductive Match : Type :=
| MStr (s : string)
| MMode (m : TitleMatchMode).

(** A field value as an object, for the tuple that the dataclass compares and
    hashes. *)
Inductive Obj : Type :=
| OUnset
| ONone
| OStr (s : string)
| OInt (z : Z)
| OBool (b : bool)
| OTitleMode (m : TitleMatchMode)
| OTextMode (m : TextMatchMode).

Definition obj {A} (inj : A -> Obj) (x : Field A) : Obj :=
  match x with UNSET => OUnset | PyNone => ONone | Val a => inj a end.

Definition TitleMatchMode_eqb (a b : TitleMatchMode) : bool :=
  match a, b with
  | STARTSWITH, STARTSWITH | CONTAINS, CONTAINS | EXACT, EXACT | REGEX, REGEX => true
  | _, _ => false
  end.

Definition TextMatchMode_eqb (a b : TextMatchMode) : bool :=
  match a, b with
  | FAST, FAST | SLOW, SLOW => true
  | _, _ => false
  end.

(** [a == b] on field values of one field. *)
Definition Obj_eqb (a b : Obj) : bool :=
  match a, b with
  | OUnset, OUnset => true
  | ONone, ONone => true
  | OStr s, OStr s' => (s =? s')%string
  | OInt z, OInt z' => z =? z'
  | OBool b, OBool b' => Bool.eqb b b'
  | OTitleMode m, OTitleMode m' => TitleMatchMode_eqb m m'
  | OTextMode m, OTextMode m' => TextMatchMode_eqb m m'
  | _, _ => false
  end.

(** Tuple equality: same length and equal items. *)
Fixpoint tuple_eqb (a b : list Obj) : bool :=
  match a, b with
  | [], [] => true
  | x :: a', y :: b' => Obj_eqb x y && tuple_eqb a' b'
  | _, _ => false
  end.

Module Windows.

Record t : Type := Build {
  title : Field string;
  class_name : Field string;
  id : Field Z;
  pid : Field Z;
  exe : Field string;
  text : Field string;
  exclude_title : Field string;
  exclude_text : Field string;
  exclude_hidden_windows : Field bool;
  exclude_hidden_text : Field bool;
  title_mode : Field TitleMatchMode;
  text_mode : Field TextMatchMode
}.

(** [windows = visible_windows = Windows()] *)
Definition windows : t :=
  Build UNSET UNSET UNSET UNSET UNSET UNSET UNSET UNSET UNSET UNSET UNSET UNSET.

Definition visible_windows : t := windows.

(** [all_windows = Windows(exclude_hidden_windows=False)] *)
Definition all_windows : t :=
  Build UNSET UNSET UNSET UNSET UNSET UNSET UNSET UNSET (Val false) UNSET UNSET UNSET.

(** The tuple of field values, in the order of declaration. *)
Definition astuple (self : t) : list Obj :=
  [obj OStr (title self); obj OStr (class_name self); obj OInt (id self);
   obj OInt (pid self); obj OStr (exe self); obj OStr (text self);
   obj OStr (exclude_title self); obj OStr (exclude_text self);
   obj OBool (exclude_hidden_windows self); obj OBool (exclude_hidden_text self);
   obj OTitleMode (title_mode self); obj OTextMode (text_mode self)].

(** The [__eq__] that the dataclass generates: the field tuples compare equal. *)
Definition __eq__ (self other : t) : bool :=
  tuple_eqb (astuple self) (astuple other).

(** The arguments that [filter] and every filtering method take. *)
Record Args : Type := {
  arg_title : Field string;
  arg_class_name : Field string;
  arg_id : Field Z;
  arg_pid : Field Z;
  arg_exe : Field string;
  arg_text : Field string;
  arg_match : Field Match
}.

(** A call that leaves every argument at its default [UNSET]. *)
Definition no_args : Args :=
  {| arg_title := UNSET; arg_class_name := UNSET; arg_id := UNSET; arg_pid := UNSET;
     arg_exe := UNSET; arg_text := UNSET; arg_match := UNSET |}.

(** [if isinstance(match, str): match = TitleMatchMode(match.lower())] *)
Definition convert_match (m : Field Match) : Res (Field TitleMatchMode) :=
  match m with
  | Val (MStr s) =>
      match TitleMatchMode_of_value (lower s) with
      | Ok mode => Ok (Val mode)
      | Exc e => Exc e
      end
  | Val (MMode mode) => Ok (Val mode)
  | PyNone => Ok PyNone
  | UNSET => Ok UNSET
  end.

Definition filter (self : t) (a : Args) : Res t :=
  if is_unset (arg_title a) && is_unset (arg_class_name a) && is_unset (arg_id a) &&
     is_unset (arg_pid a) && is_unset (arg_exe a) && is_unset (arg_text a) &&
     is_unset (arg_match a)
  then Ok self
  else
    match convert_match (arg_match a) with
    | Exc e => Exc e
    | Ok match_ =>
        Ok {| title := converters.default (arg_title a) (title self);
              class_name := converters.default (arg_class_name a) (class_name self);
              id := converters.default (arg_id a) (id self);
              pid := converters.default (arg_pid a) (pid self);
              exe := converters.default (arg_exe a) (exe self);
              text := converters.default (arg_text a) (text self);
              exclude_title := exclude_title self;
              exclude_text := exclude_text self;
              exclude_hidden_windows := exclude_hidden_windows self;
              exclude_hidden_text := exclude_hidden_text self;
              title_mode := converters.default match_ (title_mode self);
              text_mode := text_mode self |}
    end.

Definition exclude (self : t) (title_ text_ : Field string)
    (hidden_windows hidden_text : Field bool) : t :=
  if is_unset title_ && is_unset text_ && is_unset hidden_windows && is_unset hidden_text
  then self
  else
    {| title := title self;
       class_name := class_name self;
       id := id self;
       pid := pid self;
       exe := exe self;
       text := text self;
       exclude_title := converters.default title_ (exclude_title self);
       exclude_text := converters.default text_ (exclude_text self);
       exclude_hidden_windows := converters.default hidden_windows (exclude_hidden_windows self);
       exclude_hidden_text := converters.default hidden_text (exclude_hidden_text self);
       title_mode := title_mode self;
       text_mode := text_mode self |}.

Definition match_text_slow (self : t) (is_slow : bool) : t :=
  {| title := title self;
     class_name := class_name self;
     id := id self;
     pid := pid self;
     exe := exe self;
     text := text self;
     exclude_title := exclude_title self;
     exclude_text := exclude_text self;
     exclude_hidden_windows := exclude_hidden_windows self;
     exclude_hidden_text := exclude_hidden_text self;
     title_mode := title_mode self;
     text_mode := if is_slow then Val SLOW else Val FAST |}.

Definition _include (self : t) : string * string :=
  let parts := [] in
  let parts := if negb (is_unset (title self))
               then (parts ++ [str_field (title self)])%list else parts in
  let parts := if negb (is_unset (class_name self))
               then (parts ++ [("ahk_class " ++ str_field (class_name self))%string])%list else parts in
  let parts := if negb (is_unset (id self))
               then (parts ++ [("ahk_id " ++ str_int_field (id self))%string])%list else parts in
  let parts := if negb (is_unset (pid self))
               then (parts ++ [("ahk_pid " ++ str_int_field (pid self))%string])%list else parts in
  let parts := if negb (is_unset (exe self))
               then (parts ++ [("ahk_exe " ++ str_field (exe self))%string])%list else parts in
  (join " " parts, converters.default_str (text self)).

Definition _exclude (self : t) : string * string :=
  (converters.default_str (exclude_title self),
   converters.default_str (exclude_text self)).

(** The 4-tuple made of [self._include()] followed by [self._exclude()]. *)
Definition _query (self : t) : string * string * string * string :=
  let '(a, b) := _include self in
  let '(c, d) := _exclude self in
  (a, b, c, d).

(** [*query]: a 4-tuple of strings spliced into an argument list. *)
Definition splat4 (q : string * string * string * string) : list PyVal :=
  let '(a, b, c, d) := q in [VStr a; VStr b; VStr c; VStr d].

(** Some include field is explicitly [None]. *)
Definition has_none (self : t) : bool :=
  is_none (title self) || is_none (class_name self) || is_none (id self) ||
  is_none (pid self) || is_none (exe self) || is_none (text self).

Section Operations.

(** [win_delay] stands for the value of [optional_ms(get_settings().win_delay)],
    [_set_key_delay] for [hotkeys._set_key_delay] and [hash] for the
    interpreter's hash of a tuple of field values. *)
Context (host : Host) (win_delay : PyVal) (_set_key_delay : M PyVal)
        (hash : list Obj -> Z).

(** The [__hash__] that the frozen dataclass generates: the hash of the field
    tuple. *)
Definition __hash__ (self : t) : Z := hash (astuple self).

Definition _call (self : t) (cmd : string) (args : list PyVal) (set_delay : bool)
    : M PyVal :=
  if is_none (title self) || is_none (class_name self) || is_none (id self) ||
     is_none (pid self) || is_none (exe self) || is_none (text self)
  then ret VNone
  else
    (if flag_truthy (exclude_hidden_windows self)
     then ahk_call host "DetectHiddenWindows" [VStr "Off"]
     else ahk_call host "DetectHiddenWindows" [VStr "On"]) ;;;
    (if negb (is_unset (text self)) then
       if flag_truthy (exclude_hidden_text self)
       then ahk_call host "DetectHiddenText" [VStr "Off"]
       else ahk_call host "DetectHiddenText" [VStr "On"]
     else ret VNone) ;;;
    match title_mode self with
    | Val STARTSWITH | UNSET => ahk_call host "SetTitleMatchMode" [VInt 1]
    | Val CONTAINS => ahk_call host "SetTitleMatchMode" [VInt 2]
    | Val EXACT => ahk_call host "SetTitleMatchMode" [VInt 3]
    | Val REGEX => ahk_call host "SetTitleMatchMode" [VStr "regex"]
    | PyNone => raise (ValueError "unknown title match mode: None")
    end ;;;
    match text_mode self with
    | Val FAST | UNSET => ahk_call host "SetTitleMatchMode" [VStr "fast"]
    | Val SLOW => ahk_call host "SetTitleMatchMode" [VStr "slow"]
    | PyNone => raise (ValueError "unknown text match mode: None")
    end ;;;
    (if set_delay then ahk_call host "SetWinDelay" [win_delay] else ret VNone) ;;;
    ahk_call host cmd args.

(** The decorator [filtering]: narrow by the given arguments, then run. *)
Definition filtering {A} (func : t -> M A) (self : t) (a : Args) : M A :=
  self <- lift (filter self a) ;;
  func self.

Definition exist : t -> Args -> M _Window.t :=
  filtering (fun self =>
    win_id <- _call self "WinExist" (splat4 (_query self)) false ;;
    _Window.of_reply (py_or win_id (VInt 0))).

Definition first := exist.

Definition top := exist.

Definition last : t -> Args -> M _Window.t :=
  filtering (fun self =>
    win_id <- _call self "WinGet" (VStr "IDLast" :: splat4 (_query self)) false ;;
    _Window.of_reply (py_or win_id (VInt 0))).

Definition bottom := last.

Definition get_active : t -> Args -> M _Window.t :=
  filtering (fun self =>
    let query := _query self in
    let query :=
      match query with
      | (EmptyString, EmptyString, EmptyString, EmptyString) => ("A", "", "", "")
      | _ => query
      end in
    win_id <- _call self "WinActive" (splat4 query) false ;;
    _Window.of_reply (py_or win_id (VInt 0))).

(** [timeout or ""] *)
Definition timeout_or_empty (timeout : option PyNum) : PyVal :=
  py_or (opt_num timeout) (VStr "").

Definition _wait (self : t) (cmd : string) (timeout : option PyNum) : M _Window.t :=
  timed_out <- _call self cmd
                 (_Window.splat (_include self) ++ [timeout_or_empty timeout] ++
                  _Window.splat (_exclude self))%list true ;;
  if is_None timed_out || truthy timed_out
  then ret (_Window.Build 0)
  else first windows no_args.

Definition wait (self : t) (a : Args) (timeout : option PyNum) : M _Window.t :=
  filtering (fun self => _wait self "WinWait" timeout) self a.

Definition wait_active (self : t) (a : Args) (timeout : option PyNum) : M _Window.t :=
  filtering (fun self => _wait self "WinWaitActive" timeout) self a.

Definition wait_inactive (self : t) (a : Args) (timeout : option PyNum) : M _Window.t :=
  filtering (fun self => _wait self "WinWaitNotActive" timeout) self a.

Definition wait_close (self : t) (a : Args) (timeout : option PyNum) : M bool :=
  filtering (fun self =>
    timed_out <- _call self "WinWaitClose"
                   (_Window.splat (_include self) ++ [timeout_or_empty timeout] ++
                    _Window.splat (_exclude self))%list true ;;
    ret (negb (truthy timed_out))) self a.

(** Returns [None], or the window that [wait_active] returns. *)
Definition activate (self : t) (a : Args) (timeout : option PyNum)
    : M (option _Window.t) :=
  filtering (fun self =>
    _call self "WinActivate" (splat4 (_query self)) true ;;;
    match timeout with
    | Some _ => w <- wait_active self no_args timeout ;; ret (Some w)
    | None => ret None
    end) self a.

Definition close (self : t) (a : Args) (timeout : option PyNum) : M PyVal :=
  filtering (fun self =>
    _call self "WinClose"
      (_Window.splat (_include self) ++ [opt_num timeout] ++
       _Window.splat (_exclude self))%list true ;;;
    ret VNone) self a.

Definition hide : t -> Args -> M PyVal :=
  filtering (fun self =>
    _call self "WinHide" (splat4 (_query self)) true ;;; ret VNone).

Definition kill (self : t) (a : Args) (timeout : option PyNum) : M PyVal :=
  filtering (fun self =>
    _call self "WinKill"
      (_Window.splat (_include self) ++ [opt_num timeout] ++
       _Window.splat (_exclude self))%list true ;;;
    ret VNone) self a.

Definition maximize : t -> Args -> M PyVal :=
  filtering (fun self =>
    _call self "WinMaximize" (splat4 (_query self)) true ;;; ret VNone).

Definition minimize : t -> Args -> M PyVal :=
  filtering (fun self =>
    _call self "WinMinimize" (splat4 (_query self)) true ;;; ret VNone).

Definition restore : t -> Args -> M PyVal :=
  filtering (fun self =>
    _call self "WinRestore" (splat4 (_query self)) true ;;; ret VNone).

Definition show : t -> Args -> M PyVal :=
  filtering (fun self =>
    _call self "WinShow" (splat4 (_query self)) true ;;; ret VNone).

(** The [WinSet] family: [pin_to_top], [unpin_from_top],
    [toggle_always_on_top], [bring_to_top], [send_to_bottom], [disable],
    [enable] and [redraw] differ in the two leading arguments only. *)
Definition win_set (subcmd value : string) : t -> Args -> M PyVal :=
  filtering (fun self =>
    _call self "WinSet" (VStr subcmd :: VStr value :: splat4 (_query self)) false ;;;
    ret VNone).

Definition pin_to_top := win_set "AlwaysOnTop" "On".
Definition unpin_from_top := win_set "AlwaysOnTop" "Off".
Definition toggle_always_on_top := win_set "AlwaysOnTop" "Toggle".
Definition bring_to_top := win_set "Top" "".
Definition send_to_bottom := win_set "Bottom" "".
Definition disable := win_set "Disable" "".
Definition enable := win_set "Enable" "".
Definition redraw := win_set "Redraw" "".

(** The name of the temporary host group of a filter:
    [str(hash(self)).replace("-", "m")]. *)
Definition group_name (self : t) : string :=
  replace_dash (str_int (__hash__ self)).

Definition _group_action (self : t) (cmd : string) (timeout : option PyNum)
    : M PyVal :=
  if __eq__ self windows && (cmd =? "WinMinimize")%string then
    _call self "WinMinimizeAll" [] true ;;;
    ret VNone
  else
    let query_hash_str := group_name self in
    let label := "" in
    _call self "GroupAdd"
      (VStr query_hash_str :: _Window.splat (_include self) ++ [VStr label] ++
       _Window.splat (_exclude self))%list false ;;;
    _call self cmd
      [VStr ("ahk_group " ++ query_hash_str); VStr ""; opt_num timeout] true ;;;
    match timeout with
    | Some _ => w <- exist self no_args ;; ret (VBool (negb (_Window.__bool__ w)))
    | None => ret VNone
    end.

Definition close_all (self : t) (a : Args) (timeout : option PyNum) : M PyVal :=
  filtering (fun self => _group_action self "WinClose" timeout) self a.

Definition hide_all : t -> Args -> M PyVal :=
  filtering (fun self => _group_action self "WinHide" None).

Definition kill_all (self : t) (a : Args) (timeout : option PyNum) : M PyVal :=
  filtering (fun self => _group_action self "WinKill" timeout) self a.

Definition maximize_all : t -> Args -> M PyVal :=
  filtering (fun self => _group_action self "WinMaximize" None).

Definition minimize_all : t -> Args -> M PyVal :=
  filtering (fun self => _group_action self "WinMinimize" None).

Definition restore_all : t -> Args -> M PyVal :=
  filtering (fun self => _group_action self "WinRestore" None ;;; ret VNone).

Definition show_all : t -> Args -> M PyVal :=
  filtering (fun self => _group_action self "WinShow" None ;;; ret VNone).

Definition send (self : t) (keys : string) (a : Args) : M PyVal :=
  self <- lift (filter self a) ;;
  _set_key_delay ;;;
  let control := "" in
  _call self "ControlSend" (VStr control :: VStr keys :: splat4 (_query self)) false ;;;
  ret VNone.

(** [d.values()] on a value the host replied. *)
Definition values (d : PyVal) : M (list PyVal) :=
  match d with
  | VDict items => ret (List.map snd items)
  | _ => raise AttributeError
  end.

Fixpoint handles (ids : list PyVal) : M (list _Window.t) :=
  match ids with
  | [] => ret []
  | win_id :: rest =>
      w <- _Window.of_reply win_id ;;
      ws <- handles rest ;;
      ret (w :: ws)
  end.

(** The windows that iterating the filter yields, from top to bottom. *)
Definition __iter__ (self : t) : M (list _Window.t) :=
  win_ids <- _call self "WinGet" (VStr "List" :: splat4 (_query self)) false ;;
  if is_None win_ids then ret []
  else
    ids <- values win_ids ;;
    handles ids.

Definition __len__ (self : t) : M PyVal :=
  n <- _call self "WinGet" (VStr "Count" :: splat4 (_query self)) false ;;
  ret (py_or n (VInt 0)).

End Operations.

End Windows.

(** ** The clipboard facade *)

Module clipboard.

Section Operations.

Context (host : Host) (to_double : Q -> option Q).

Definition get_clipboard : M PyVal :=
  ahk_call host "GetVar" [VStr "Clipboard"].

Definition set_clipboard (value : string) : M PyVal :=
  ahk_call host "SetVar" [VStr "Clipboard"; VStr value].

Definition wait_clipboard (timeout : option PyNum) : M PyVal :=
  timeout <- match timeout with
             | Some t => t' <- lift (float to_double t) ;; ret (Some t')
             | None => ret None
             end ;;
  ok <- ahk_call host "ClipWait" [opt_num timeout] ;;
  if negb (truthy ok) then ret (VStr "")
  else get_clipboard.

(** The callback [func] may itself dispatch host calls or raise. *)
Definition _bare_clipboard_handler (func : M PyVal) : M PyVal :=
  r <- func ;;
  ret (VBool (truthy r)).

Definition _clipboard_handler (func : PyVal -> M PyVal) (typ : PyVal) : M PyVal :=
  if eq_int typ 0 then
    r <- func (VStr "") ;;
    ret (VBool (truthy r))
  else if eq_int typ 1 then
    text <- get_clipboard ;;
    r <- func text ;;
    ret (VBool (truthy r))
  else if eq_int typ 2 then
    text <- get_clipboard ;;
    r <- func text ;;
    ret (VBool (truthy r))
  else ret VNone.

End Operations.

End clipboard.

(** ** Derived notions used in the statements *)

(** The settings that [_Window._call] dispatches before its command. *)
Definition window_settings (win_delay : PyVal) (exclude_hidden_windows set_delay : bool)
    : Trace :=
  (Call "DetectHiddenWindows" [VStr (if exclude_hidden_windows then "Off" else "On")]
   :: (if set_delay then [Call "SetWinDelay" [win_delay]] else []))%list.

(** The host code of a title-match mode. *)
Definition title_mode_code (m : TitleMatchMode) : PyVal :=
  match m with
  | STARTSWITH => VInt 1
  | CONTAINS => VInt 2
  | EXACT => VInt 3
  | REGEX => VStr "regex"
  end.

(** The settings that [Windows._call] dispatches before its command, for a
    filter whose match modes are not [None]. *)
Definition filter_settings (win_delay : PyVal) (f : Windows.t) (set_delay : bool)
    : Trace :=
  ([Call "DetectHiddenWindows"
      [VStr (if flag_truthy (Windows.exclude_hidden_windows f) then "Off" else "On")]] ++
   (if is_unset (Windows.text f) then []
    else [Call "DetectHiddenText"
            [VStr (if flag_truthy (Windows.exclude_hidden_text f) then "Off" else "On")]]) ++
   [Call "SetTitleMatchMode"
      [match Windows.title_mode f with Val m => title_mode_code m | _ => VInt 1 end]] ++
   [Call "SetTitleMatchMode"
      [VStr (match Windows.text_mode f with Val SLOW => "slow" | _ => "fast" end)]] ++
   (if set_delay then [Call "SetWinDelay" [win_delay]] else []))%list.

(** Both match modes of a filter are usable: neither is [None]. *)
Definition modes_valid (f : Windows.t) : bool :=
  negb (is_none (Windows.title_mode f)) && negb (is_none (Windows.text_mode f)).

(** The string holds the character that the host refuses in group names. *)
Fixpoint has_dash (s : string) : bool :=
  match s with
  | EmptyString => false
  | String c rest => Ascii.eqb c "-"%char || has_dash rest
  end.

(** A computation only ever appends to the trace of dispatched calls. *)
Definition extends {A} (m : M A) : Prop :=
  forall tr, exists rest, snd (m tr) = (tr ++ rest)%list.

(** A computation returns [v] and dispatches nothing. *)
Definition returns_without_dispatch {A} (m : M A) (v : A) : Prop :=
  forall tr, m tr = (Ok v, tr).

(** A computation dispatches nothing, whatever it returns or raises. *)
Definition quiet {A} (m : M A) : Prop :=
  forall tr, snd (m tr) = tr.


(** A computation dispatches exactly one query, [q], besides settings. *)
Definition one_query {A} (m : M A) (q : HostCall) : Prop :=
  forall tr, queries (snd (m tr)) = (queries tr ++ [q])%list.

(** A trace registers a host group when it holds a [GroupAdd]. *)
Definition registers_group (tr : Trace) : bool :=
  existsb (fun c => (call_cmd c =? "GroupAdd")%string) tr.

(** The arguments of a call with [match] replaced. *)
Definition with_match (a : Windows.Args) (m : Field Match) : Windows.Args :=
  {| Windows.arg_title := Windows.arg_title a;
     Windows.arg_class_name := Windows.arg_class_name a;
     Windows.arg_id := Windows.arg_id a;
     Windows.arg_pid := Windows.arg_pid a;
     Windows.arg_exe := Windows.arg_exe a;
     Windows.arg_text := Windows.arg_text a;
     Windows.arg_match := m |}.





(** Two characters are the same letter, whatever their case: they are
    equal, or one is an upper-case ASCII letter and the other the letter 32
    places further. *)
Definition is_upper (c : ascii) : bool :=
  (Nat.leb 65 (nat_of_ascii c) && Nat.leb (nat_of_ascii c) 90)%bool.

Definition same_char_nocase (c1 c2 : ascii) : bool :=
  (Ascii.eqb c1 c2
   || (is_upper c1 && Nat.eqb (nat_of_ascii c1 + 32) (nat_of_ascii c2))
   || (is_upper c2 && Nat.eqb (nat_of_ascii c2 + 32) (nat_of_ascii c1)))%bool.

(** Two strings differ in the case of their ASCII letters only. *)
Fixpoint same_nocase (s1 s2 : string) : bool :=
  match s1, s2 with
  | EmptyString, EmptyString => true
  | String c1 r1, String c2 r2 => same_char_nocase c1 c2 && same_nocase r1 r2
  | _, _ => false
  end.

(** The names of the title-match modes and the modes they stand for. *)
Definition title_mode_names : list (string * TitleMatchMode) :=
  [("startswith", STARTSWITH); ("contains", CONTAINS); ("exact", EXACT);
   ("regex", REGEX)].

(** The first of the keys that a mapping lacks. *)
Fixpoint first_missing (items : list (string * PyVal)) (keys : list string)
    : option string :=
  match keys with
  | [] => None
  | key :: rest =>
      match lookup key items with
      | Some _ => first_missing items rest
      | None => Some key
      end
  end.

(** The keys of the position that the host reports. *)
Definition rect_keys : list string := ["X"; "Y"; "Width"; "Height"].

(** The timeout of [wait_clipboard] after [float()]: [None] stays [None]. *)
Definition float_timeout (to_double : Q -> option Q) (timeout : option PyNum)
    : Res (option PyNum) :=
  match timeout with
  | Some t =>
      match float to_double t with
      | Ok t' => Ok (Some t')
      | Exc e => Exc e
      end
  | None => Ok None
  end.

(** A rounding for examples: exact below 2^1024 in magnitude, as the doubles
    are on the numbers the examples use, and out of range from there. *)
Definition bounded_double : Q -> option Q :=
  fun q => if Qle_bool (Qabs q) (inject_Z (2 ^ 1024)) then Some q else None.

(** A host on which no window exists and the clipboard is empty: it answers
    the empty string to everything. *)
Definition silent_host : Host := fun _ _ => Returns (VStr "").

(** A host with one window, handle 1, and text in the clipboard. *)
Definition sample_host : Host :=
  fun _ c =>
    let name := call_cmd c in
    if (name =? "WinGetPos")%string then
      Returns (VDict [("X", VInt 10); ("Y", VStr ""); ("Width", VInt 640);
                      ("Height", VInt 480)])
    else if (name =? "WinExist")%string then Returns (VInt 1)
    else if (name =? "ClipWait")%string then Returns (VInt 1)
    else if (name =? "GetVar")%string then Returns (VStr "copied text")
    else if (name =? "WinGetText")%string then Raises (VInt 1)
    else Returns (VStr "").

(** Example filters and calls. *)

(** [Windows(title=None)] *)
Definition none_title : Windows.t :=
  Windows.Build PyNone UNSET UNSET UNSET UNSET UNSET UNSET UNSET UNSET UNSET UNSET UNSET.

(** [Windows(title="Untitled")] *)
Definition untitled : Windows.t :=
  Windows.Build (Val "Untitled") UNSET UNSET UNSET UNSET UNSET
    UNSET UNSET UNSET UNSET UNSET UNSET.

(** [title="Untitled"] *)
Definition by_title : Windows.Args :=
  {| Windows.arg_title := Val "Untitled"; Windows.arg_class_name := UNSET;
     Windows.arg_id := UNSET; Windows.arg_pid := UNSET;
     Windows.arg_exe := UNSET; Windows.arg_text := UNSET;
     Windows.arg_match := UNSET |}.

(** [class_name="Notepad", match="Exact"] *)
Definition by_class : Windows.Args :=
  {| Windows.arg_title := UNSET; Windows.arg_class_name := Val "Notepad";
     Windows.arg_id := UNSET; Windows.arg_pid := UNSET;
     Windows.arg_exe := UNSET; Windows.arg_text := UNSET;
     Windows.arg_match := Val (MStr "Exact") |}.

(** [title="Untitled", class_name="Notepad", match=TitleMatchMode.EXACT] *)
Definition by_both : Windows.Args :=
  {| Windows.arg_title := Val "Untitled"; Windows.arg_class_name := Val "Notepad";
     Windows.arg_id := UNSET; Windows.arg_pid := UNSET;
     Windows.arg_exe := UNSET; Windows.arg_text := UNSET;
     Windows.arg_match := Val (MMode EXACT) |}.

(** [class_name=None] *)
Definition by_none_class : Windows.Args :=
  {| Windows.arg_title := UNSET; Windows.arg_class_name := PyNone;
     Windows.arg_id := UNSET; Windows.arg_pid := UNSET;
     Windows.arg_exe := UNSET; Windows.arg_text := UNSET;
     Windows.arg_match := UNSET |}.

(** [Windows(title="Untitled", class_name=None, title_mode=TitleMatchMode.REGEX)] *)
Definition untitled_none_class : Windows.t :=
  Windows.Build (Val "Untitled") PyNone UNSET UNSET UNSET UNSET
    UNSET UNSET UNSET UNSET (Val REGEX) UNSET.


(** The filter that both example chains end in. *)
Definition untitled_notepad : Windows.t :=
  Windows.Build (Val "Untitled") (Val "Notepad") UNSET UNSET UNSET UNSET
    UNSET UNSET (Val false) UNSET (Val EXACT) UNSET.

(** A tuple hash for examples: negative, so that the group name needs the
    substitution. *)
Definition sample_hash : list Obj -> Z := fun t => - Z.of_nat (List.length t) - 30.

(** ** Further derived notions *)

(** Two calls of [filter] in a row, as one: an argument of the second call
    wins over the same argument of the first. *)
Definition merge_args (a b : Windows.Args) : Windows.Args :=
  {| Windows.arg_title := converters.default (Windows.arg_title b) (Windows.arg_title a);
     Windows.arg_class_name :=
       converters.default (Windows.arg_class_name b) (Windows.arg_class_name a);
     Windows.arg_id := converters.default (Windows.arg_id b) (Windows.arg_id a);
     Windows.arg_pid := converters.default (Windows.arg_pid b) (Windows.arg_pid a);
     Windows.arg_exe := converters.default (Windows.arg_exe b) (Windows.arg_exe a);
     Windows.arg_text := converters.default (Windows.arg_text b) (Windows.arg_text a);
     Windows.arg_match := converters.default (Windows.arg_match b) (Windows.arg_match a) |}.

(** The record that [filter] builds with [dc.replace], given the converted
    match mode. *)
Definition narrow (f : Windows.t) (a : Windows.Args) (mode : Field TitleMatchMode)
    : Windows.t :=
  {| Windows.title := converters.default (Windows.arg_title a) (Windows.title f);
     Windows.class_name :=
       converters.default (Windows.arg_class_name a) (Windows.class_name f);
     Windows.id := converters.default (Windows.arg_id a) (Windows.id f);
     Windows.pid := converters.default (Windows.arg_pid a) (Windows.pid f);
     Windows.exe := converters.default (Windows.arg_exe a) (Windows.exe f);
     Windows.text := converters.default (Windows.arg_text a) (Windows.text f);
     Windows.exclude_title := Windows.exclude_title f;
     Windows.exclude_text := Windows.exclude_text f;
     Windows.exclude_hidden_windows := Windows.exclude_hidden_windows f;
     Windows.exclude_hidden_text := Windows.exclude_hidden_text f;
     Windows.title_mode := converters.default mode (Windows.title_mode f);
     Windows.text_mode := Windows.text_mode f |}.

(** The names that [TitleMatchMode] accepts. *)
Definition mode_names : list string := ["startswith"; "contains"; "exact"; "regex"].

(** The settings of the hidden-window and hidden-text modes, which
    [Windows._call] dispatches first. *)
Definition hidden_settings (f : Windows.t) : Trace :=
  ([Call "DetectHiddenWindows"
      [VStr (if flag_truthy (Windows.exclude_hidden_windows f) then "Off" else "On")]] ++
   (if is_unset (Windows.text f) then []
    else [Call "DetectHiddenText"
            [VStr (if flag_truthy (Windows.exclude_hidden_text f) then "Off" else "On")]]))%list.

(** A host that answers by the name of the command alone, the empty string
    where the script has no answer. *)
Fixpoint scripted (script : list (string * Reply)) (name : string) : Reply :=
  match script with
  | [] => Returns (VStr "")
  | (n, r) :: rest => if (n =? name)%string then r else scripted rest name
  end.

Definition scripted_host (script : list (string * Reply)) : Host :=
  fun _ c => scripted script (call_cmd c).

(** A clipboard callback that dispatches nothing and reports whether it was
    given text. *)
Definition has_text : PyVal -> M PyVal := fun text => ret (VBool (truthy text)).

(** An example of [flag_of_other]: no value other than a word is a flag. *)
Definition no_other_flag (v : PyVal) : Res Z :=
  Exc (ValueError "not a valid flag").

(** * Properties *)

Open Scope list_scope.

(** ** The monad and the host call *)

Lemma bind_ok {A B} (m : M A) (k : A -> M B) tr a tr' :
  m tr = (Ok a, tr') -> bind m k tr = k a tr'.
Proof. intros H. unfold bind. rewrite H. reflexivity. Qed.

Lemma bind_exc {A B} (m : M A) (k : A -> M B) tr e tr' :
  m tr = (Exc e, tr') -> bind m k tr = (Exc e, tr').
Proof. intros H. unfold bind. rewrite H. reflexivity. Qed.

Lemma ahk_call_trace host c a tr :
  snd (ahk_call host c a tr) = (tr ++ [Call c a])%list.
Proof. unfold ahk_call. destruct (host tr (Call c a)); reflexivity. Qed.

Lemma ahk_call_returns host c a tr v :
  host tr (Call c a) = Returns v ->
  ahk_call host c a tr = (Ok v, (tr ++ [Call c a])%list).
Proof. intros H. unfold ahk_call. rewrite H. reflexivity. Qed.

Lemma ahk_call_raises host c a tr m :
  host tr (Call c a) = Raises m ->
  ahk_call host c a tr = (Exc (Error m), (tr ++ [Call c a])%list).
Proof. intros H. unfold ahk_call. rewrite H. reflexivity. Qed.

Lemma ahk_call_setting host c a tr :
  settings_ok host -> is_setting c = true ->
  exists v, ahk_call host c a tr = (Ok v, (tr ++ [Call c a])%list).
Proof.
  intros Hs Hc. destruct (Hs tr (Call c a) Hc) as [v Hv].
  exists v. now apply ahk_call_returns.
Qed.

(** A setting followed by more work: the setting is recorded and its reply
    dropped. *)
Lemma setting_then {B} host c a (k : M B) tr :
  settings_ok host -> is_setting c = true ->
  (ahk_call host c a ;;; k) tr = k (tr ++ [Call c a])%list.
Proof.
  intros Hs Hc. destruct (ahk_call_setting host c a tr Hs Hc) as [v Hv].
  now rewrite (bind_ok _ _ _ _ _ Hv).
Qed.

Lemma queries_app tr1 tr2 : queries (tr1 ++ tr2) = (queries tr1 ++ queries tr2)%list.
Proof. unfold queries. apply filter_app. Qed.

Lemma queries_query c a : is_setting c = false -> queries [Call c a] = [Call c a].
Proof. intros H. unfold queries. cbn. now rewrite H. Qed.

Lemma silent_host_settings_ok : settings_ok silent_host.
Proof. intros tr c _. exists (VStr ""). reflexivity. Qed.

Lemma sample_host_settings_ok : settings_ok sample_host.
Proof.
  intros tr [c a] H. unfold sample_host. cbn [call_cmd] in *.
  unfold is_setting in H.
  repeat match goal with
         | |- context [if (?x =? ?y)%string then _ else _] =>
             destruct (String.eqb_spec x y) as [->|_]; [discriminate H|]
         end.
  eexists. reflexivity.
Qed.

Lemma scripted_host_settings_ok script :
  forallb (fun p => negb (is_setting (fst p))) script = true ->
  settings_ok (scripted_host script).
Proof.
  intros H tr [c a] Hc. unfold scripted_host. cbn [call_cmd] in *.
  induction script as [|[n r] script IH]; cbn.
  - now exists (VStr "").
  - cbn in H. apply andb_true_iff in H as [Hn H].
    destruct (String.eqb_spec n c) as [->|_].
    + rewrite Hc in Hn. discriminate Hn.
    + now apply IH.
Qed.

(** ** The filter as a value *)

Lemma Obj_eqb_refl o : Obj_eqb o o = true.
Proof.
  destruct o as [| |s|z|b|m|m]; cbn;
    auto using String.eqb_refl, Z.eqb_refl, Bool.eqb_reflx;
    destruct m; reflexivity.
Qed.

Lemma tuple_eqb_refl t : tuple_eqb t t = true.
Proof.
  induction t as [|o t IH]; cbn; [reflexivity|].
  now rewrite Obj_eqb_refl, IH.
Qed.

Lemma obj_inj {A} (inj : A -> Obj) (x y : Field A) :
  (forall a b, inj a = inj b -> a = b) ->
  (forall a, inj a <> OUnset) -> (forall a, inj a <> ONone) ->
  obj inj x = obj inj y -> x = y.
Proof.
  intros Hinj Hu Hn.
  destruct x as [| |a], y as [| |b]; cbn; intros H;
    try reflexivity; try discriminate H;
    try (exfalso; eapply Hu; (exact H || (symmetry; exact H)));
    try (exfalso; eapply Hn; (exact H || (symmetry; exact H))).
  f_equal. now apply Hinj.
Qed.

(** Filters with the same field values are the same filter. *)
Lemma astuple_inj f g : Windows.astuple f = Windows.astuple g -> f = g.
Proof.
  destruct f, g. unfold Windows.astuple. cbn [Windows.title Windows.class_name
    Windows.id Windows.pid Windows.exe Windows.text Windows.exclude_title
    Windows.exclude_text Windows.exclude_hidden_windows Windows.exclude_hidden_text
    Windows.title_mode Windows.text_mode].
  intros H. injection H as H1 H2 H3 H4 H5 H6 H7 H8 H9 H10 H11 H12.
  f_equal;
    (eapply obj_inj; [| | |eassumption];
     [intros ? ? E; now injection E | intros ?; discriminate | intros ?; discriminate]).
Qed.

Lemma Obj_eqb_eq a b : Obj_eqb a b = true -> a = b.
Proof.
  destruct a, b; cbn; intros H; try discriminate H; try reflexivity; f_equal.
  - now apply String.eqb_eq.
  - now apply Z.eqb_eq.
  - now apply Bool.eqb_prop.
  - destruct m, m0; (reflexivity || discriminate H).
  - destruct m, m0; (reflexivity || discriminate H).
Qed.

Lemma tuple_eqb_eq a b : tuple_eqb a b = true -> a = b.
Proof.
  revert b. induction a as [|x a IH]; destruct b as [|y b]; cbn; intros H;
    try discriminate H; [reflexivity|].
  apply andb_true_iff in H as [H1 H2].
  f_equal; [now apply Obj_eqb_eq | now apply IH].
Qed.

(** The generated [__eq__] decides equality of filters. *)
Lemma Windows_eq_iff f g : Windows.__eq__ f g = true <-> f = g.
Proof.
  unfold Windows.__eq__. split.
  - intros H. apply astuple_inj. now apply tuple_eqb_eq.
  - intros ->. apply tuple_eqb_refl.
Qed.

(** [filter] keeps every field whose argument is left unset, and never touches
    the exclusions or the text mode. *)
Lemma filter_keeps_unset_fields f a f' :
  Windows.filter f a = Ok f' ->
  (Windows.arg_title a = UNSET -> Windows.title f' = Windows.title f) /\
  (Windows.arg_class_name a = UNSET -> Windows.class_name f' = Windows.class_name f) /\
  (Windows.arg_id a = UNSET -> Windows.id f' = Windows.id f) /\
  (Windows.arg_pid a = UNSET -> Windows.pid f' = Windows.pid f) /\
  (Windows.arg_exe a = UNSET -> Windows.exe f' = Windows.exe f) /\
  (Windows.arg_text a = UNSET -> Windows.text f' = Windows.text f) /\
  (Windows.arg_match a = UNSET -> Windows.title_mode f' = Windows.title_mode f) /\
  Windows.exclude_title f' = Windows.exclude_title f /\
  Windows.exclude_text f' = Windows.exclude_text f /\
  Windows.exclude_hidden_windows f' = Windows.exclude_hidden_windows f /\
  Windows.exclude_hidden_text f' = Windows.exclude_hidden_text f /\
  Windows.text_mode f' = Windows.text_mode f.
Proof.
  unfold Windows.filter.
  destruct (_ && _) eqn:Hall.
  - intros H. injection H as <-. repeat split; reflexivity.
  - destruct (Windows.convert_match (Windows.arg_match a)) as [m|e] eqn:Hm;
      [|discriminate].
    intros H. injection H as <-. cbn.
    repeat split; try (intros ->; reflexivity).
    intros Hu. rewrite Hu in Hm. cbn in Hm. injection Hm as <-. reflexivity.
Qed.

(** C4: for every filter [f], [f.filter()] with every argument left unset
    returns [f] unchanged (the identity law); and in any call of [filter] an
    argument that is left unset does not override the field that [f] has. *)
Theorem filter_identity (f : Windows.t) :
  Windows.filter f Windows.no_args = Ok f /\
  (forall a f',
      Windows.filter f a = Ok f' ->
      (Windows.arg_title a = UNSET -> Windows.title f' = Windows.title f) /\
      (Windows.arg_class_name a = UNSET -> Windows.class_name f' = Windows.class_name f) /\
      (Windows.arg_id a = UNSET -> Windows.id f' = Windows.id f) /\
      (Windows.arg_pid a = UNSET -> Windows.pid f' = Windows.pid f) /\
      (Windows.arg_exe a = UNSET -> Windows.exe f' = Windows.exe f) /\
      (Windows.arg_text a = UNSET -> Windows.text f' = Windows.text f) /\
      (Windows.arg_match a = UNSET -> Windows.title_mode f' = Windows.title_mode f)).
Proof.
  split; [reflexivity|].
  intros a f' H.
  destruct (filter_keeps_unset_fields f a f' H)
    as (H1 & H2 & H3 & H4 & H5 & H6 & H7 & _).
  repeat split; assumption.
Qed.

Lemma filter_identity_witness :
  Windows.filter untitled Windows.no_args = Ok untitled /\
  Windows.filter untitled by_class =
  Ok (Windows.Build (Val "Untitled") (Val "Notepad") UNSET UNSET UNSET UNSET
        UNSET UNSET UNSET UNSET (Val EXACT) UNSET) /\
  Windows.arg_title by_class = UNSET /\
  Windows.title
    (Windows.Build (Val "Untitled") (Val "Notepad") UNSET UNSET UNSET UNSET
       UNSET UNSET UNSET UNSET (Val EXACT) UNSET) = Windows.title untitled.
Proof.
  pose proof (filter_identity untitled) as [Hid Hkeep].
  split; [exact Hid|]. split; [reflexivity|]. split; [reflexivity|].
  exact (proj1 (Hkeep by_class _ eq_refl) eq_refl).
Defined.

(** ** Dispatch through [Windows._call] *)

Lemma ret_then {A B} (a : A) (k : M B) tr : (ret a ;;; k) tr = k tr.
Proof. reflexivity. Qed.

Ltac setting := rewrite setting_then by (assumption || reflexivity).

(** A filter with a [None] include field dispatches nothing. *)
Lemma Windows_call_none host wd f cmd args sd tr :
  Windows.has_none f = true ->
  Windows._call host wd f cmd args sd tr = (Ok VNone, tr).
Proof.
  intros H. unfold Windows._call. unfold Windows.has_none in H.
  rewrite H. reflexivity.
Qed.

(** Any other filter with usable modes sets the modes, then dispatches. *)
Lemma Windows_call_dispatch host wd f cmd args sd tr :
  settings_ok host -> Windows.has_none f = false -> modes_valid f = true ->
  Windows._call host wd f cmd args sd tr =
  ahk_call host cmd args (tr ++ filter_settings wd f sd).
Proof.
  intros Hs Hn Hm. unfold Windows._call. unfold Windows.has_none in Hn.
  rewrite Hn. unfold modes_valid in Hm. apply andb_true_iff in Hm as [Hm1 Hm2].
  unfold filter_settings.
  destruct (flag_truthy (Windows.exclude_hidden_windows f)); setting;
    (destruct (is_unset (Windows.text f)); cbn [negb];
     [rewrite ret_then
     |destruct (flag_truthy (Windows.exclude_hidden_text f)); setting]);
    (destruct (Windows.title_mode f) as [| |[]]; [|discriminate Hm1|..]; setting);
    (destruct (Windows.text_mode f) as [| |[]]; [|discriminate Hm2|..]; setting);
    (destruct sd; [setting|rewrite ret_then]);
    cbn [title_mode_code app]; repeat rewrite <- app_assoc; reflexivity.
Qed.


Lemma filtering_ok {A} (func : Windows.t -> M A) f a f' tr :
  Windows.filter f a = Ok f' -> Windows.filtering func f a tr = func f' tr.
Proof. intros H. unfold Windows.filtering. rewrite H. reflexivity. Qed.

(** What a command dispatched through [Windows._call] leaves in the trace. *)
Lemma Windows_call_trace host wd f cmd args sd tr :
  settings_ok host -> Windows.has_none f = false -> modes_valid f = true ->
  snd (Windows._call host wd f cmd args sd tr) =
  tr ++ filter_settings wd f sd ++ [Call cmd args].
Proof.
  intros Hs Hn Hm. rewrite Windows_call_dispatch by assumption.
  rewrite ahk_call_trace. now rewrite <- app_assoc.
Qed.

(** C3: when some include field (title, class_name, id, pid, exe or text) of
    the filter that is queried, that is the filter narrowed by the arguments
    of the call, is explicitly [None], the query abandons the dispatch: no
    host call is made (the trace is unchanged) and the result is the "not
    found" one, returned normally and not as a host error: the window with
    id 0 for [exist], [first], [last], [get_active], [wait], [wait_active]
    and [wait_inactive], [True] for [wait_close], no window for the
    iteration and 0 for [len]. *)
Theorem none_field_abandons_dispatch
    (host : Host) (wd : PyVal) (f : Windows.t) (a : Windows.Args)
    (queried : Windows.t) (tr : Trace) :
  Windows.filter f a = Ok queried ->
  Windows.has_none queried = true ->
  (forall cmd args sd, Windows._call host wd queried cmd args sd tr = (Ok VNone, tr)) /\
  Windows.exist host wd f a tr = (Ok (_Window.Build 0), tr) /\
  Windows.first host wd f a tr = (Ok (_Window.Build 0), tr) /\
  Windows.last host wd f a tr = (Ok (_Window.Build 0), tr) /\
  Windows.get_active host wd f a tr = (Ok (_Window.Build 0), tr) /\
  (forall timeout,
      Windows.wait host wd f a timeout tr = (Ok (_Window.Build 0), tr)) /\
  (forall timeout,
      Windows.wait_active host wd f a timeout tr = (Ok (_Window.Build 0), tr)) /\
  (forall timeout,
      Windows.wait_inactive host wd f a timeout tr = (Ok (_Window.Build 0), tr)) /\
  (forall timeout,
      Windows.wait_close host wd f a timeout tr = (Ok true, tr)) /\
  Windows.__iter__ host wd queried tr = (Ok [], tr) /\
  Windows.__len__ host wd queried tr = (Ok (VInt 0), tr).
Proof.
  intros Hf H.
  assert (Hc : forall cmd args sd,
             Windows._call host wd queried cmd args sd tr = (Ok VNone, tr))
    by (intros; now apply Windows_call_none).
  split; [exact Hc|].
  unfold Windows.first, Windows.exist, Windows.last, Windows.get_active,
    Windows.wait, Windows.wait_active, Windows.wait_inactive, Windows.wait_close,
    Windows.__iter__, Windows.__len__, Windows._wait.
  repeat split; intros; rewrite ?(filtering_ok _ _ _ _ _ Hf);
    erewrite bind_ok by apply Hc; reflexivity.
Qed.

Lemma none_field_abandons_dispatch_witness :
  Windows.filter none_title Windows.no_args = Ok none_title /\
  Windows.has_none none_title = true /\
  Windows.exist sample_host VNone none_title Windows.no_args [] =
  (Ok (_Window.Build 0), []) /\
  Windows.filter untitled (with_match by_none_class (Val (MStr "regex")))
  = Ok untitled_none_class /\
  Windows.has_none untitled_none_class = true /\
  Windows.wait_close sample_host VNone untitled
    (with_match by_none_class (Val (MStr "regex"))) (Some (NInt 2)) [] = (Ok true, []).
Proof.
  pose proof (none_field_abandons_dispatch sample_host VNone none_title
                Windows.no_args none_title [] eq_refl eq_refl)
    as (_ & He & _).
  pose proof (none_field_abandons_dispatch sample_host VNone untitled
                (with_match by_none_class (Val (MStr "regex")))
                untitled_none_class [] eq_refl eq_refl)
    as (_ & _ & _ & _ & _ & _ & _ & _ & Hw & _).
  split; [reflexivity|]. split; [reflexivity|]. split; [exact He|].
  split; [reflexivity|]. split; [reflexivity|]. exact (Hw (Some (NInt 2))).
Defined.

(** ** Computations only append to the trace *)

Lemma extends_ret {A} (a : A) : extends (ret a).
Proof. intros tr. exists []. cbn. now rewrite app_nil_r. Qed.

Lemma extends_raise {A} e : extends (@raise A e).
Proof. intros tr. exists []. cbn. now rewrite app_nil_r. Qed.

Lemma extends_ahk_call host c a : extends (ahk_call host c a).
Proof. intros tr. exists [Call c a]. apply ahk_call_trace. Qed.

Lemma extends_bind {A B} (m : M A) (k : A -> M B) :
  extends m -> (forall a, extends (k a)) -> extends (bind m k).
Proof.
  intros Hm Hk tr. destruct (Hm tr) as [r1 H1]. unfold bind.
  destruct (m tr) as [[a|e] tr'] eqn:E; cbn in H1; subst tr'.
  - destruct (Hk a (tr ++ r1)) as [r2 H2]. exists (r1 ++ r2).
    now rewrite H2, app_assoc.
  - now exists r1.
Qed.

Lemma extends_lift {A} (r : Res A) : extends (lift r).
Proof. destruct r; [apply extends_ret | apply extends_raise]. Qed.

Lemma extends_if {A} (b : bool) (m1 m2 : M A) :
  extends m1 -> extends m2 -> extends (if b then m1 else m2).
Proof. now destruct b. Qed.

Create HintDb extends.
#[local] Hint Resolve extends_ret extends_raise extends_ahk_call extends_lift
  extends_if : extends.
#[local] Hint Extern 2 (extends (bind _ _)) =>
  apply extends_bind; [|intros ?] : extends.

Lemma extends_Windows_call host wd f cmd args sd :
  extends (Windows._call host wd f cmd args sd).
Proof.
  unfold Windows._call.
  destruct (Windows.title_mode f) as [| |[]], (Windows.text_mode f) as [| |[]];
    auto 12 with extends.
Qed.
#[local] Hint Resolve extends_Windows_call : extends.

Lemma extends_of_reply v : extends (_Window.of_reply v).
Proof. destruct v; cbn; auto with extends. Qed.
#[local] Hint Resolve extends_of_reply : extends.

Lemma extends_exist host wd f a : extends (Windows.exist host wd f a).
Proof. unfold Windows.exist, Windows.filtering. auto 8 with extends. Qed.
#[local] Hint Resolve extends_exist : extends.

Lemma replace_dash_has_no_dash s : has_dash (replace_dash s) = false.
Proof.
  induction s as [|c s IH]; [reflexivity|]. cbn.
  rewrite IH, orb_false_r.
  destruct (Ascii.eqb c "-") eqn:E; [reflexivity|exact E].
Qed.

(** ** Group actions *)

Lemma snd_bind_ret {A B} (m : M A) (b : B) tr :
  snd ((m ;;; ret b) tr) = snd (m tr).
Proof. unfold bind. destruct (m tr) as [[a|e] tr']; reflexivity. Qed.

Lemma extends_group_tail host wd f (timeout : option PyNum) :
  extends (match timeout with
           | Some _ =>
               w <- Windows.exist host wd f Windows.no_args ;;
               ret (VBool (negb (_Window.__bool__ w)))
           | None => ret VNone
           end).
Proof. destruct timeout; auto 8 with extends. Qed.

(** A group action outside the special case, step by step: the modes, the
    registration and, if the host accepts it, the modes again and the action. *)
Lemma group_action_steps host wd hash f cmd (timeout : option PyNum) tr :
  settings_ok host ->
  Windows.__eq__ f Windows.windows && (cmd =? "WinMinimize")%string = false ->
  Windows.has_none f = false -> modes_valid f = true ->
  let add := Call "GroupAdd"
               (VStr (Windows.group_name hash f) ::
                _Window.splat (Windows._include f) ++ [VStr ""] ++
                _Window.splat (Windows._exclude f)) in
  let act := Call cmd [VStr ("ahk_group " ++ Windows.group_name hash f)%string;
                       VStr ""; opt_num timeout] in
  let tail := match timeout with
              | Some _ =>
                  w <- Windows.exist host wd f Windows.no_args ;;
                  ret (VBool (negb (_Window.__bool__ w)))
              | None => ret VNone
              end in
  let tr1 := tr ++ filter_settings wd f false ++ [add] in
  let tr2 := tr1 ++ filter_settings wd f true ++ [act] in
  Windows._group_action host wd hash f cmd timeout tr =
  match host (tr ++ filter_settings wd f false) add with
  | Raises m => (Exc (Error m), tr1)
  | Returns _ =>
      match host (tr1 ++ filter_settings wd f true) act with
      | Raises m => (Exc (Error m), tr2)
      | Returns _ => tail tr2
      end
  end.
Proof.
  intros Hs Hc Hn Hm add act tail tr1 tr2.
  unfold Windows._group_action. rewrite Hc. cbv zeta.
  unfold bind at 1. rewrite Windows_call_dispatch by assumption.
  unfold ahk_call at 1. fold add.
  replace ((tr ++ filter_settings wd f false) ++ [add]) with tr1
    by (unfold tr1; now rewrite <- app_assoc).
  destruct (host (tr ++ filter_settings wd f false) add) as [v|m];
    [|reflexivity].
  unfold bind at 1. rewrite Windows_call_dispatch by assumption.
  unfold ahk_call at 1. fold act.
  replace ((tr1 ++ filter_settings wd f true) ++ [act]) with tr2
    by (unfold tr2; now rewrite <- app_assoc).
  destruct (host (tr1 ++ filter_settings wd f true) act) as [v'|m];
    reflexivity.
Qed.

(** What that leaves in the trace: the registration under the name of the
    group and, once the host has accepted it, the action on the group. *)
Lemma group_action_trace host wd hash f cmd (timeout : option PyNum) tr :
  settings_ok host ->
  Windows.__eq__ f Windows.windows && (cmd =? "WinMinimize")%string = false ->
  Windows.has_none f = false -> modes_valid f = true ->
  let add := Call "GroupAdd"
               (VStr (Windows.group_name hash f) ::
                _Window.splat (Windows._include f) ++ [VStr ""] ++
                _Window.splat (Windows._exclude f)) in
  let act := Call cmd [VStr ("ahk_group " ++ Windows.group_name hash f)%string;
                       VStr ""; opt_num timeout] in
  (exists rest,
      snd (Windows._group_action host wd hash f cmd timeout tr) =
      tr ++ filter_settings wd f false ++ [add] ++ rest) /\
  (forall v,
      host (tr ++ filter_settings wd f false) add = Returns v ->
      exists rest,
        snd (Windows._group_action host wd hash f cmd timeout tr) =
        tr ++ filter_settings wd f false ++ [add] ++
        filter_settings wd f true ++ [act] ++ rest).
Proof.
  intros Hs Hc Hn Hm add act.
  rewrite (group_action_steps host wd hash f cmd timeout tr Hs Hc Hn Hm).
  cbv zeta. fold add act.
  destruct (host (tr ++ filter_settings wd f false) add) as [v|m].
  - assert (Hb : exists rest,
               snd (match host ((tr ++ filter_settings wd f false ++ [add]) ++
                                 filter_settings wd f true) act with
                    | Returns _ =>
                        match timeout with
                        | Some _ =>
                            w <- Windows.exist host wd f Windows.no_args ;;
                            ret (VBool (negb (_Window.__bool__ w)))
                        | None => ret VNone
                        end ((tr ++ filter_settings wd f false ++ [add]) ++
                             filter_settings wd f true ++ [act])
                    | Raises m =>
                        (Exc (Error m),
                         (tr ++ filter_settings wd f false ++ [add]) ++
                         filter_settings wd f true ++ [act])
                    end) =
               tr ++ filter_settings wd f false ++ [add] ++
               filter_settings wd f true ++ [act] ++ rest).
    { destruct (host _ act).
      - destruct (extends_group_tail host wd f timeout
                    ((tr ++ filter_settings wd f false ++ [add]) ++
                     filter_settings wd f true ++ [act])) as [rest Hr].
        exists rest. rewrite Hr. now rewrite <- !app_assoc.
      - exists []. cbn [snd]. now rewrite <- !app_assoc. }
    destruct Hb as [rest Hr]. split.
    + exists (filter_settings wd f true ++ [act] ++ rest). exact Hr.
    + intros v' _. exists rest. exact Hr.
  - split.
    + exists []. cbn [snd]. now rewrite app_nil_r.
    + intros v. discriminate.
Qed.

(** A filter with a [None] include field is not the unconstrained one. *)
Lemma has_none_not_windows f :
  Windows.has_none f = true -> Windows.__eq__ f Windows.windows = false.
Proof.
  intros H. destruct (Windows.__eq__ f Windows.windows) eqn:E; [|reflexivity].
  apply Windows_eq_iff in E. subst f. discriminate H.
Qed.

(** A group action on a filter with a [None] include field dispatches
    nothing. *)
Lemma group_action_none host wd hash f cmd (timeout : option PyNum) tr :
  Windows.has_none f = true ->
  Windows._group_action host wd hash f cmd timeout tr =
  (Ok (match timeout with Some _ => VBool true | None => VNone end), tr).
Proof.
  intros H. unfold Windows._group_action.
  rewrite (has_none_not_windows f H). cbn [andb].
  rewrite (bind_ok _ _ _ _ _ (Windows_call_none host wd f _ _ _ tr H)).
  rewrite (bind_ok _ _ _ _ _ (Windows_call_none host wd f _ _ _ tr H)).
  destruct timeout; [|reflexivity].
  assert (He : Windows.exist host wd f Windows.no_args tr = (Ok (_Window.Build 0), tr)).
  { unfold Windows.exist. rewrite (filtering_ok _ f Windows.no_args f tr eq_refl).
    now rewrite (bind_ok _ _ _ _ _ (Windows_call_none host wd f _ _ _ tr H)). }
  now rewrite (bind_ok _ _ _ _ _ He).
Qed.



(** C8, as the code has it: the name of the temporary host group is the
    filter's hash in decimal with every "-" replaced, so it holds no "-".
    [minimize_all] on the unconstrained filter (equal to [Windows()]) sets the
    modes, dispatches the host's [WinMinimizeAll] and registers no group.
    Every other group action, on a filter that has no [None] include field and
    usable match modes, sets the modes and registers the group under that
    name; once the host has accepted the registration, the action is
    dispatched on that group.  A group action on a filter with a [None]
    include field dispatches nothing and registers no group: it returns
    [None], or [True] when a timeout is given.  [close_all], [kill_all],
    [hide_all], [maximize_all], [minimize_all], [restore_all] and [show_all]
    are this group action on the filter narrowed by their arguments. *)
Theorem group_action_registers_group
    (host : Host) (wd : PyVal) (hash : list Obj -> Z) (f : Windows.t)
    (cmd : string) (timeout : option PyNum) (tr : Trace) :
  settings_ok host ->
  Windows.group_name hash f = replace_dash (str_int (Windows.__hash__ hash f)) /\
  has_dash (Windows.group_name hash f) = false /\
  (forall f0 a,
      Windows.filter f0 a = Ok f ->
      Windows.close_all host wd hash f0 a timeout tr =
      Windows._group_action host wd hash f "WinClose" timeout tr /\
      Windows.kill_all host wd hash f0 a timeout tr =
      Windows._group_action host wd hash f "WinKill" timeout tr /\
      Windows.hide_all host wd hash f0 a tr =
      Windows._group_action host wd hash f "WinHide" None tr /\
      Windows.maximize_all host wd hash f0 a tr =
      Windows._group_action host wd hash f "WinMaximize" None tr /\
      Windows.minimize_all host wd hash f0 a tr =
      Windows._group_action host wd hash f "WinMinimize" None tr /\
      snd (Windows.restore_all host wd hash f0 a tr) =
      snd (Windows._group_action host wd hash f "WinRestore" None tr) /\
      snd (Windows.show_all host wd hash f0 a tr) =
      snd (Windows._group_action host wd hash f "WinShow" None tr)) /\
  (Windows.__eq__ f Windows.windows && (cmd =? "WinMinimize")%string = true ->
   snd (Windows._group_action host wd hash f cmd timeout tr) =
   tr ++ filter_settings wd f true ++ [Call "WinMinimizeAll" []] /\
   registers_group (filter_settings wd f true ++ [Call "WinMinimizeAll" []]) = false) /\
  (Windows.__eq__ f Windows.windows && (cmd =? "WinMinimize")%string = false ->
   Windows.has_none f = false -> modes_valid f = true ->
   let add := Call "GroupAdd"
                (VStr (Windows.group_name hash f) ::
                 _Window.splat (Windows._include f) ++ [VStr ""] ++
                 _Window.splat (Windows._exclude f)) in
   let act := Call cmd [VStr ("ahk_group " ++ Windows.group_name hash f)%string;
                        VStr ""; opt_num timeout] in
   (exists rest,
       snd (Windows._group_action host wd hash f cmd timeout tr) =
       tr ++ filter_settings wd f false ++ [add] ++ rest) /\
   (forall v,
       host (tr ++ filter_settings wd f false) add = Returns v ->
       exists rest,
         snd (Windows._group_action host wd hash f cmd timeout tr) =
         tr ++ filter_settings wd f false ++ [add] ++
         filter_settings wd f true ++ [act] ++ rest)) /\
  (Windows.has_none f = true ->
   Windows.__eq__ f Windows.windows = false /\
   Windows._group_action host wd hash f cmd timeout tr =
   (Ok (match timeout with Some _ => VBool true | None => VNone end), tr) /\
   (forall f0 a,
       Windows.filter f0 a = Ok f ->
       Windows.close_all host wd hash f0 a timeout tr =
       (Ok (match timeout with Some _ => VBool true | None => VNone end), tr) /\
       Windows.kill_all host wd hash f0 a timeout tr =
       (Ok (match timeout with Some _ => VBool true | None => VNone end), tr) /\
       Windows.hide_all host wd hash f0 a tr = (Ok VNone, tr) /\
       Windows.maximize_all host wd hash f0 a tr = (Ok VNone, tr) /\
       Windows.minimize_all host wd hash f0 a tr = (Ok VNone, tr) /\
       Windows.restore_all host wd hash f0 a tr = (Ok VNone, tr) /\
       Windows.show_all host wd hash f0 a tr = (Ok VNone, tr))).
Proof.
  intros Hs. split; [reflexivity|]. split; [apply replace_dash_has_no_dash|].
  split; [|split; [|split]].
  - intros f0 a Hf.
    unfold Windows.close_all, Windows.kill_all, Windows.hide_all,
      Windows.maximize_all, Windows.minimize_all, Windows.restore_all,
      Windows.show_all.
    rewrite !(filtering_ok _ _ _ _ _ Hf), !snd_bind_ret.
    repeat split.
  - intros Hc. unfold Windows._group_action. rewrite Hc.
    apply andb_true_iff in Hc as [Hw _]. apply Windows_eq_iff in Hw. subst f.
    split; [|reflexivity].
    rewrite snd_bind_ret. now apply Windows_call_trace.
  - intros Hc Hn Hm.
    exact (group_action_trace host wd hash f cmd timeout tr Hs Hc Hn Hm).
  - intros Hn. split; [now apply has_none_not_windows|].
    split; [now apply group_action_none|].
    intros f0 a Hf.
    unfold Windows.close_all, Windows.kill_all, Windows.hide_all,
      Windows.maximize_all, Windows.minimize_all, Windows.restore_all,
      Windows.show_all.
    rewrite !(filtering_ok _ _ _ _ _ Hf).
    repeat split; try (now apply group_action_none);
      now rewrite (bind_ok _ _ _ _ _ (group_action_none host wd hash f _ None tr Hn)).
Qed.

Lemma group_action_registers_group_witness :
  settings_ok silent_host /\
  Windows.__eq__ untitled Windows.windows && ("WinClose" =? "WinMinimize")%string = false /\
  Windows.has_none untitled = false /\
  modes_valid untitled = true /\
  (exists rest,
      snd (Windows._group_action silent_host VNone sample_hash untitled "WinClose" None [])
      = [] ++ filter_settings VNone untitled false ++
        [Call "GroupAdd" [VStr "m42"; VStr "Untitled"; VStr ""; VStr ""; VStr ""; VStr ""]] ++
        rest) /\
  Windows.has_none none_title = true /\
  Windows._group_action silent_host VNone sample_hash none_title "WinClose"
    (Some (NInt 1)) [] = (Ok (VBool true), []).
Proof.
  pose proof (group_action_registers_group silent_host VNone sample_hash untitled
                "WinClose" None [] silent_host_settings_ok)
    as (_ & _ & _ & _ & Hadd & _).
  pose proof (group_action_registers_group silent_host VNone sample_hash none_title
                "WinClose" (Some (NInt 1)) [] silent_host_settings_ok)
    as (_ & _ & _ & _ & _ & Hnone).
  split; [exact silent_host_settings_ok|].
  split; [reflexivity|]. split; [reflexivity|]. split; [reflexivity|].
  split; [exact (proj1 (Hadd eq_refl eq_refl eq_refl))|].
  split; [reflexivity|].
  exact (proj1 (proj2 (Hnone eq_refl))).
Defined.

(** Against C8 as stated: a group action on a filter with a [None] include
    field registers no group: it dispatches nothing, although the filter is
    not the unconstrained one. *)
Lemma group_action_on_none_field_registers_nothing :
  Windows.__eq__ none_title Windows.windows = false /\
  Windows.close_all silent_host VNone sample_hash none_title Windows.no_args None []
  = (Ok VNone, []) /\
  registers_group
    (snd (Windows.close_all silent_host VNone sample_hash none_title
            Windows.no_args None [])) = false.
Proof. repeat split. Qed.

(** ** Title-match modes *)

Lemma filter_with_match f a m :
  is_unset m = false ->
  Windows.filter f (with_match a m) =
  match Windows.convert_match m with
  | Exc e => Exc e
  | Ok match_ =>
      Ok {| Windows.title := converters.default (Windows.arg_title a) (Windows.title f);
            Windows.class_name :=
              converters.default (Windows.arg_class_name a) (Windows.class_name f);
            Windows.id := converters.default (Windows.arg_id a) (Windows.id f);
            Windows.pid := converters.default (Windows.arg_pid a) (Windows.pid f);
            Windows.exe := converters.default (Windows.arg_exe a) (Windows.exe f);
            Windows.text := converters.default (Windows.arg_text a) (Windows.text f);
            Windows.exclude_title := Windows.exclude_title f;
            Windows.exclude_text := Windows.exclude_text f;
            Windows.exclude_hidden_windows := Windows.exclude_hidden_windows f;
            Windows.exclude_hidden_text := Windows.exclude_hidden_text f;
            Windows.title_mode := converters.default match_ (Windows.title_mode f);
            Windows.text_mode := Windows.text_mode f |}
  end.
Proof.
  intros Hm. unfold Windows.filter, with_match.
  cbn [Windows.arg_title Windows.arg_class_name Windows.arg_id Windows.arg_pid
       Windows.arg_exe Windows.arg_text Windows.arg_match].
  rewrite Hm, andb_false_r. reflexivity.
Qed.

(** Letters that differ in case only have the same lower-case form. *)
Lemma same_char_nocase_lower c1 c2 :
  same_char_nocase c1 c2 = true -> lower_char c1 = lower_char c2.
Proof.
  assert (Hup : forall a b : ascii,
             is_upper a = true -> (nat_of_ascii a + 32 = nat_of_ascii b)%nat ->
             lower_char a = lower_char b).
  { intros a b Ha Hab. unfold lower_char, is_upper in *. cbv zeta.
    rewrite Ha. apply andb_true_iff in Ha as [Ha1 Ha2].
    apply Nat.leb_le in Ha1, Ha2.
    replace (Nat.leb (nat_of_ascii b) 90) with false
      by (symmetry; apply Nat.leb_gt; lia).
    rewrite andb_false_r, Hab. apply ascii_nat_embedding. }
  unfold same_char_nocase. intros H.
  apply orb_true_iff in H as [H|H]; [apply orb_true_iff in H as [H|H]|].
  - apply Ascii.eqb_eq in H. now subst.
  - apply andb_true_iff in H as [Hu He]. apply Nat.eqb_eq in He. now apply Hup.
  - apply andb_true_iff in H as [Hu He]. apply Nat.eqb_eq in He.
    symmetry. now apply Hup.
Qed.

Lemma same_nocase_lower s1 s2 :
  same_nocase s1 s2 = true -> lower s1 = lower s2.
Proof.
  revert s2. induction s1 as [|c1 r1 IH]; intros [|c2 r2] H; cbn in H |- *;
    try discriminate; [reflexivity|].
  apply andb_true_iff in H as [Hc Hr].
  now rewrite (same_char_nocase_lower _ _ Hc), (IH _ Hr).
Qed.

(** A name that is, but for the case, the name of a mode gives that mode. *)
Lemma mode_of_name s name mode :
  In (name, mode) title_mode_names ->
  same_nocase s name = true ->
  Windows.convert_match (Val (MStr s)) = Ok (Val mode).
Proof.
  intros Hin Hs. apply same_nocase_lower in Hs.
  cbn [Windows.convert_match]. rewrite Hs.
  destruct Hin as [E|[E|[E|[E|[]]]]]; injection E as <- <-; reflexivity.
Qed.

(** The settings that come before a command carry the code of the filter's
    title-match mode. *)
Lemma title_mode_code_sent host wd f mode cmd args sd tr :
  settings_ok host ->
  Windows.has_none f = false ->
  Windows.text_mode f <> PyNone ->
  Windows.title_mode f = Val mode ->
  exists pre post,
    snd (Windows._call host wd f cmd args sd tr) =
    tr ++ pre ++ [Call "SetTitleMatchMode" [title_mode_code mode]] ++ post ++
    [Call cmd args] /\
    queries pre = [] /\ queries post = [] /\
    forallb (fun c => negb (call_cmd c =? "SetTitleMatchMode")%string) pre = true.
Proof.
  intros Hs Hn Htm Hmode.
  assert (Hv : modes_valid f = true).
  { unfold modes_valid. rewrite Hmode.
    destruct (Windows.text_mode f); [reflexivity|congruence|reflexivity]. }
  rewrite Windows_call_trace by assumption.
  unfold filter_settings. rewrite Hmode.
  exists ([Call "DetectHiddenWindows"
             [VStr (if flag_truthy (Windows.exclude_hidden_windows f)
                    then "Off" else "On")]] ++
          (if is_unset (Windows.text f) then []
           else [Call "DetectHiddenText"
                   [VStr (if flag_truthy (Windows.exclude_hidden_text f)
                          then "Off" else "On")]])).
  exists ([Call "SetTitleMatchMode"
             [VStr (match Windows.text_mode f with Val SLOW => "slow" | _ => "fast" end)]] ++
          (if sd then [Call "SetWinDelay" [wd]] else [])).
  split; [|split; [|split]].
  - now rewrite <- !app_assoc.
  - destruct (is_unset (Windows.text f)); reflexivity.
  - destruct sd; reflexivity.
  - destruct (is_unset (Windows.text f)); reflexivity.
Qed.

(** C9: the name of a title-match mode given to [filter(match=...)] is read
    case-insensitively.  Two names that differ in the case of their letters
    only give the same result; "EXACT" and "exact" give the same filter; a
    name that is, but for the case, "startswith", "contains", "exact" or
    "regex" gives a filter in the mode [STARTSWITH], [CONTAINS], [EXACT] or
    [REGEX], and these are four different modes.  Before every command that
    [Windows._call] dispatches, the mode [EXACT] is sent to the host as
    [SetTitleMatchMode] with the code 3 and [CONTAINS] with the code 2: so a
    filter narrowed with the name "exact" has 3 sent before its commands, one
    narrowed with "contains" has 2. *)
Theorem title_match_mode_names_and_codes :
  (* names, whatever their case *)
  (forall f a s1 s2,
      same_nocase s1 s2 = true ->
      Windows.filter f (with_match a (Val (MStr s1))) =
      Windows.filter f (with_match a (Val (MStr s2)))) /\
  (forall f a,
      same_nocase "EXACT" "exact" = true /\
      Windows.filter f (with_match a (Val (MStr "EXACT"))) =
      Windows.filter f (with_match a (Val (MStr "exact"))) /\
      exists f',
        Windows.filter f (with_match a (Val (MStr "EXACT"))) = Ok f' /\
        Windows.title_mode f' = Val EXACT) /\
  (* from the name to the mode *)
  (forall f a s name mode,
      In (name, mode) title_mode_names ->
      same_nocase s name = true ->
      exists g,
        Windows.filter f (with_match a (Val (MStr s))) = Ok g /\
        Windows.title_mode g = Val mode /\
        Windows.filter f (with_match a (Val (MMode mode))) = Ok g) /\
  (TitleMatchMode_of_value "startswith" = Ok STARTSWITH /\
   TitleMatchMode_of_value "contains" = Ok CONTAINS /\
   TitleMatchMode_of_value "exact" = Ok EXACT /\
   TitleMatchMode_of_value "regex" = Ok REGEX) /\
  (* from the mode to the code *)
  (forall host wd f mode code cmd args sd tr,
      settings_ok host ->
      Windows.has_none f = false ->
      Windows.text_mode f <> PyNone ->
      Windows.title_mode f = Val mode ->
      (mode = EXACT /\ code = 3) \/ (mode = CONTAINS /\ code = 2) ->
      exists pre post,
        snd (Windows._call host wd f cmd args sd tr) =
        tr ++ pre ++ [Call "SetTitleMatchMode" [VInt code]] ++ post ++ [Call cmd args] /\
        queries pre = [] /\ queries post = [] /\
        forallb (fun c => negb (call_cmd c =? "SetTitleMatchMode")%string) pre = true) /\
  (* from the name to the code *)
  (forall host wd f a s g name code cmd args sd tr,
      settings_ok host ->
      (name = "exact" /\ code = 3) \/ (name = "contains" /\ code = 2) ->
      same_nocase s name = true ->
      Windows.filter f (with_match a (Val (MStr s))) = Ok g ->
      Windows.has_none g = false ->
      Windows.text_mode g <> PyNone ->
      exists pre post,
        snd (Windows._call host wd g cmd args sd tr) =
        tr ++ pre ++ [Call "SetTitleMatchMode" [VInt code]] ++ post ++ [Call cmd args] /\
        queries pre = [] /\ queries post = [] /\
        forallb (fun c => negb (call_cmd c =? "SetTitleMatchMode")%string) pre = true).
Proof.
  split; [|split; [|split; [|split; [|split]]]].
  - intros f a s1 s2 H. rewrite !filter_with_match by reflexivity.
    cbn [Windows.convert_match]. now rewrite (same_nocase_lower _ _ H).
  - intros f a. split; [reflexivity|]. rewrite !filter_with_match by reflexivity.
    split; [reflexivity|]. eexists. split; reflexivity.
  - intros f a s name mode Hin Hs. rewrite !filter_with_match by reflexivity.
    rewrite (mode_of_name s name mode Hin Hs). cbn [Windows.convert_match].
    eexists. split; [reflexivity|]. split; reflexivity.
  - repeat split.
  - intros host wd f mode code cmd args sd tr Hs Hn Htm Hmode Hcode.
    destruct (title_mode_code_sent host wd f mode cmd args sd tr Hs Hn Htm Hmode)
      as (pre & post & H).
    exists pre, post. destruct Hcode as [[-> ->]|[-> ->]]; exact H.
  - intros host wd f a s g name code cmd args sd tr Hs Hcode Hname Hf Hn Htm.
    assert (Hmode : exists mode,
               Windows.title_mode g = Val mode /\ title_mode_code mode = VInt code).
    { rewrite filter_with_match in Hf by reflexivity.
      destruct Hcode as [[-> ->]|[-> ->]].
      - rewrite (mode_of_name s "exact" EXACT) in Hf by (cbn; tauto).
        injection Hf as <-. exists EXACT. split; reflexivity.
      - rewrite (mode_of_name s "contains" CONTAINS) in Hf by (cbn; tauto).
        injection Hf as <-. exists CONTAINS. split; reflexivity. }
    destruct Hmode as (mode & Hmode & Hc).
    destruct (title_mode_code_sent host wd g mode cmd args sd tr Hs Hn Htm Hmode)
      as (pre & post & H).
    exists pre, post. now rewrite <- Hc.
Qed.

Lemma title_match_mode_names_and_codes_witness :
  same_nocase "Contains" "CONTAINS" = true /\
  Windows.filter untitled (with_match Windows.no_args (Val (MStr "Contains"))) =
  Windows.filter untitled (with_match Windows.no_args (Val (MStr "CONTAINS"))) /\
  settings_ok silent_host /\
  same_nocase "Contains" "contains" = true /\
  Windows.filter untitled (with_match Windows.no_args (Val (MStr "Contains"))) =
  Ok (narrow untitled Windows.no_args (Val CONTAINS)) /\
  exists pre post,
    snd (Windows._call silent_host VNone
           (narrow untitled Windows.no_args (Val CONTAINS)) "WinExist" [] false []) =
    [] ++ pre ++ [Call "SetTitleMatchMode" [VInt 2]] ++ post ++ [Call "WinExist" []] /\
    queries pre = [] /\ queries post = [] /\
    forallb (fun c => negb (call_cmd c =? "SetTitleMatchMode")%string) pre = true.
Proof.
  pose proof title_match_mode_names_and_codes as (H1 & _ & _ & _ & _ & H6).
  split; [reflexivity|].
  split; [exact (H1 untitled Windows.no_args "Contains" "CONTAINS" eq_refl)|].
  split; [exact silent_host_settings_ok|].
  split; [reflexivity|]. split; [reflexivity|].
  exact (H6 silent_host VNone untitled Windows.no_args "Contains"
            (narrow untitled Windows.no_args (Val CONTAINS)) "contains" 2
            "WinExist" [] false []
            silent_host_settings_ok (or_intror (conj eq_refl eq_refl)) eq_refl eq_refl
            eq_refl
            (fun E => match E in _ = x return
                              match x with PyNone => False | _ => True end
                      with eq_refl => I end)).
Defined.

(** ** Dispatch through [_Window._call] *)

(** The zero handle dispatches nothing. *)
Lemma Window_call_zero host wd w cmd args ehw sd tr :
  _Window.id w = 0 ->
  _Window._call host wd w cmd args ehw sd tr = (Ok VNone, tr).
Proof. intros H. unfold _Window._call. rewrite H. reflexivity. Qed.

(** Any other handle sets the hidden-window mode and the delay, then
    dispatches. *)
Lemma Window_call_dispatch host wd w cmd args ehw sd tr :
  settings_ok host -> _Window.id w <> 0 ->
  _Window._call host wd w cmd args ehw sd tr =
  ahk_call host cmd args (tr ++ window_settings wd ehw sd).
Proof.
  intros Hs Hw. unfold _Window._call.
  apply Z.eqb_neq in Hw. rewrite Hw. unfold window_settings.
  destruct ehw; setting; (destruct sd; [setting|rewrite ret_then]);
    cbn [app]; rewrite <- ?app_assoc; reflexivity.
Qed.

(** What an operation sees: the host's reply to its command, after the
    settings. *)
Lemma call_returns host wd w (Hs : settings_ok host) (Hw : _Window.id w <> 0)
    cmd args ehw sd tr v :
  host (tr ++ window_settings wd ehw sd) (Call cmd args) = Returns v ->
  _Window._call host wd w cmd args ehw sd tr =
  (Ok v, tr ++ window_settings wd ehw sd ++ [Call cmd args]).
Proof.
  intros H. rewrite Window_call_dispatch by assumption.
  rewrite (ahk_call_returns _ _ _ _ _ H). now rewrite <- app_assoc.
Qed.

Lemma call_raises host wd w (Hs : settings_ok host) (Hw : _Window.id w <> 0)
    cmd args ehw sd tr m :
  host (tr ++ window_settings wd ehw sd) (Call cmd args) = Raises m ->
  _Window._call host wd w cmd args ehw sd tr =
  (Exc (Error m), tr ++ window_settings wd ehw sd ++ [Call cmd args]).
Proof.
  intros H. rewrite Window_call_dispatch by assumption.
  rewrite (ahk_call_raises _ _ _ _ _ H). now rewrite <- app_assoc.
Qed.

Lemma Window_call_trace host wd w cmd args ehw sd tr :
  settings_ok host -> _Window.id w <> 0 ->
  snd (_Window._call host wd w cmd args ehw sd tr) =
  tr ++ window_settings wd ehw sd ++ [Call cmd args].
Proof.
  intros Hs Hw. rewrite Window_call_dispatch by assumption.
  rewrite ahk_call_trace. now rewrite <- app_assoc.
Qed.

Lemma get_returns host wd w subcmd tr v :
  settings_ok host -> _Window.id w <> 0 ->
  host (tr ++ window_settings wd false true)
    (Call "WinGet" (VStr subcmd :: _Window.splat (_Window._include w))) = Returns v ->
  Window._get host wd w subcmd tr =
  (Ok (if eq_empty_str v then VNone else v),
   tr ++ window_settings wd false true ++
   [Call "WinGet" (VStr subcmd :: _Window.splat (_Window._include w))]).
Proof.
  intros Hs Hw Hv. unfold Window._get.
  rewrite (bind_ok _ _ _ _ _
             (call_returns host wd w Hs Hw "WinGet" _ false true tr v Hv)).
  now destruct (eq_empty_str v).
Qed.

Lemma window_settings_are_settings wd ehw sd :
  queries (window_settings wd ehw sd) = [].
Proof. destruct ehw, sd; reflexivity. Qed.

(** ** The clipboard *)

(** C6: [wait_clipboard] converts a given timeout with [float()] (an int too
    large for a double raises [OverflowError] before anything is dispatched)
    and dispatches the host's [ClipWait] with it.  When the host reports
    success (a truthy reply) it reads the clipboard again with
    [get_clipboard] and returns what that read returns; when the host reports
    failure (a falsy reply, the clipboard still empty after the timeout) it
    returns the empty string and reads nothing. *)
Theorem wait_clipboard_result
    (host : Host) (to_double : Q -> option Q) (timeout : option PyNum) (tr : Trace) :
  let read := Call "GetVar" [VStr "Clipboard"] in
  (forall e,
      float_timeout to_double timeout = Exc e ->
      clipboard.wait_clipboard host to_double timeout tr = (Exc e, tr)) /\
  (forall sent ok,
      float_timeout to_double timeout = Ok sent ->
      let wait := Call "ClipWait" [opt_num sent] in
      host tr wait = Returns ok ->
      (truthy ok = true ->
       clipboard.wait_clipboard host to_double timeout tr =
       clipboard.get_clipboard host (tr ++ [wait]) /\
       forall text,
         host (tr ++ [wait]) read = Returns text ->
         clipboard.wait_clipboard host to_double timeout tr =
         (Ok text, tr ++ [wait; read])) /\
      (truthy ok = false ->
       clipboard.wait_clipboard host to_double timeout tr =
       (Ok (VStr ""), tr ++ [wait]))) /\
  float_timeout to_double None = Ok None /\
  (forall q, float_timeout to_double (Some (NFloat q)) = Ok (Some (NFloat q))) /\
  (forall z,
      float_timeout to_double (Some (NInt z)) =
      match to_double (inject_Z z) with
      | Some q => Ok (Some (NFloat q))
      | None => Exc OverflowError
      end).
Proof.
  intros read.
  split; [|split; [|split; [reflexivity|split; [reflexivity|]]]].
  - intros e He. unfold clipboard.wait_clipboard, float_timeout in *.
    destruct timeout as [t|]; [|discriminate].
    destruct (float to_double t) as [t'|e']; [discriminate|].
    injection He as ->. reflexivity.
  - intros sent ok Hsent wait Hw.
    assert (Hrun : clipboard.wait_clipboard host to_double timeout tr =
                   (if negb (truthy ok) then ret (VStr "")
                    else clipboard.get_clipboard host) (tr ++ [wait])).
    { unfold clipboard.wait_clipboard, float_timeout in *.
      destruct timeout as [t|].
      - destruct (float to_double t) as [t'|e']; [|discriminate].
        injection Hsent as <-. cbn [lift].
        unfold bind at 1. cbn [ret]. unfold bind at 1. cbn [ret].
        erewrite bind_ok by (apply ahk_call_returns; exact Hw). reflexivity.
      - injection Hsent as <-. unfold bind at 1. cbn [ret].
        erewrite bind_ok by (apply ahk_call_returns; exact Hw). reflexivity. }
    split; intros Ht; rewrite Hrun, Ht; cbn [negb].
    + split; [reflexivity|]. intros text Hr.
      unfold clipboard.get_clipboard. rewrite (ahk_call_returns _ _ _ _ _ Hr).
      now rewrite <- app_assoc.
    + reflexivity.
  - intros z. unfold float_timeout, float.
    now destruct (to_double (inject_Z z)).
Qed.

Lemma wait_clipboard_result_witness :
  float_timeout bounded_double None = Ok None /\
  sample_host [] (Call "ClipWait" [VNone]) = Returns (VInt 1) /\
  clipboard.wait_clipboard sample_host bounded_double None [] =
  (Ok (VStr "copied text"),
   [Call "ClipWait" [VNone]; Call "GetVar" [VStr "Clipboard"]]) /\
  float_timeout bounded_double (Some (NInt 1)) = Ok (Some (NFloat (inject_Z 1))) /\
  silent_host [] (Call "ClipWait" [VFloat (inject_Z 1)]) = Returns (VStr "") /\
  clipboard.wait_clipboard silent_host bounded_double (Some (NInt 1)) [] =
  (Ok (VStr ""), [Call "ClipWait" [VFloat (inject_Z 1)]]) /\
  float_timeout bounded_double (Some (NInt (2 ^ 1030))) = Exc OverflowError /\
  clipboard.wait_clipboard silent_host bounded_double (Some (NInt (2 ^ 1030))) [] =
  (Exc OverflowError, []).
Proof.
  pose proof (wait_clipboard_result sample_host bounded_double None [])
    as (_ & Hsample & _).
  pose proof (wait_clipboard_result silent_host bounded_double (Some (NInt 1)) [])
    as (_ & Hsilent & _).
  pose proof (wait_clipboard_result silent_host bounded_double
                (Some (NInt (2 ^ 1030))) [])
    as (Hover & _).
  assert (Hbig : float_timeout bounded_double (Some (NInt (2 ^ 1030)))
                 = Exc OverflowError) by (vm_compute; reflexivity).
  split; [reflexivity|]. split; [reflexivity|].
  split; [exact (proj2 (proj1 (Hsample None (VInt 1) eq_refl eq_refl) eq_refl)
                   (VStr "copied text") eq_refl)|].
  split; [reflexivity|]. split; [reflexivity|].
  split; [exact (proj2 (Hsilent (Some (NFloat (inject_Z 1))) (VStr "") eq_refl eq_refl)
                   eq_refl)|].
  split; [exact Hbig|]. exact (Hover _ Hbig).
Defined.

(** ** Geometry *)

Lemma none_if_empty_other v : v <> VStr "" -> Window.none_if_empty v = v.
Proof.
  intros H. unfold Window.none_if_empty.
  destruct v as [| | | | |s|]; try reflexivity. cbn.
  destruct (String.eqb_spec s "") as [->|_]; [congruence|reflexivity].
Qed.

(** C7, as the code has it: the [rect] getter returns four fields when the
    host's reply to [WinGetPos] is [None] or a mapping that holds "X", "Y",
    "Width" and "Height".  On [None], and for the zero handle, which
    dispatches nothing, all four are [None]; on such a mapping each field the
    host reports as the empty string is turned into [None] and every other
    field is returned as reported.  On a mapping that lacks one of the keys
    it raises [KeyError] for the first one missing, on any other reply
    [TypeError], and an error of the host goes through. *)
Theorem rect_returns_four_fields
    (host : Host) (wd : PyVal) (w : _Window.t) (tr : Trace) :
  (_Window.id w = 0 ->
   Window.rect host wd w tr = (Ok (VNone, VNone, VNone, VNone), tr)) /\
  (settings_ok host -> _Window.id w <> 0 ->
   let q := Call "WinGetPos" (_Window.splat (_Window._include w)) in
   let tr' := tr ++ window_settings wd false true ++ [q] in
   (host (tr ++ window_settings wd false true) q = Returns VNone ->
    Window.rect host wd w tr = (Ok (VNone, VNone, VNone, VNone), tr')) /\
   (forall items x y width height,
       host (tr ++ window_settings wd false true) q = Returns (VDict items) ->
       lookup "X" items = Some x -> lookup "Y" items = Some y ->
       lookup "Width" items = Some width -> lookup "Height" items = Some height ->
       Window.rect host wd w tr =
       (Ok (Window.none_if_empty x, Window.none_if_empty y,
            Window.none_if_empty width, Window.none_if_empty height), tr')) /\
   (forall items key,
       host (tr ++ window_settings wd false true) q = Returns (VDict items) ->
       first_missing items rect_keys = Some key ->
       Window.rect host wd w tr = (Exc (KeyError key), tr')) /\
   (forall v,
       host (tr ++ window_settings wd false true) q = Returns v ->
       v <> VNone -> (forall items, v <> VDict items) ->
       Window.rect host wd w tr = (Exc TypeError, tr')) /\
   (forall m,
       host (tr ++ window_settings wd false true) q = Raises m ->
       Window.rect host wd w tr = (Exc (Error m), tr'))) /\
  Window.none_if_empty (VStr "") = VNone /\
  (forall v, v <> VStr "" -> Window.none_if_empty v = v).
Proof.
  split; [|split; [|split; [reflexivity|exact none_if_empty_other]]].
  - intros Hz. unfold Window.rect.
    now rewrite (bind_ok _ _ _ _ _ (Window_call_zero host wd w _ _ _ _ tr Hz)).
  - intros Hs Hw q tr'. unfold Window.rect.
    split; [|split; [|split; [|split]]].
    + intros Hv.
      now rewrite (bind_ok _ _ _ _ _
                     (call_returns host wd w Hs Hw "WinGetPos" _ false true tr _ Hv)).
    + intros items x y width height Hv Hx Hy Hwi Hh.
      rewrite (bind_ok _ _ _ _ _
                 (call_returns host wd w Hs Hw "WinGetPos" _ false true tr _ Hv)).
      cbn [is_None negb]. unfold getitem, bind, ret.
      now rewrite Hx, Hy, Hwi, Hh.
    + intros items key Hv Hk.
      rewrite (bind_ok _ _ _ _ _
                 (call_returns host wd w Hs Hw "WinGetPos" _ false true tr _ Hv)).
      cbn [is_None negb]. unfold getitem, bind, ret, raise.
      unfold rect_keys in Hk. cbn [first_missing] in Hk.
      destruct (lookup "X" items); [|now injection Hk as <-].
      destruct (lookup "Y" items); [|now injection Hk as <-].
      destruct (lookup "Width" items); [|now injection Hk as <-].
      destruct (lookup "Height" items); [discriminate|now injection Hk as <-].
    + intros v Hv Hnone Hdict.
      rewrite (bind_ok _ _ _ _ _
                 (call_returns host wd w Hs Hw "WinGetPos" _ false true tr _ Hv)).
      destruct v; try reflexivity; [congruence|].
      now elim (Hdict items).
    + intros m Hm.
      now rewrite (bind_exc _ _ _ _ _
                     (call_raises host wd w Hs Hw "WinGetPos" _ false true tr _ Hm)).
Qed.

Lemma rect_returns_four_fields_witness :
  _Window.id (_Window.Build 0) = 0 /\
  Window.rect sample_host VNone (_Window.Build 0) [] =
  (Ok (VNone, VNone, VNone, VNone), []) /\
  settings_ok sample_host /\
  _Window.id (_Window.Build 1) <> 0 /\
  Window.rect sample_host VNone (_Window.Build 1) [] =
  (Ok (VInt 10, VNone, VInt 640, VInt 480),
   [Call "DetectHiddenWindows" [VStr "On"]; Call "SetWinDelay" [VNone];
    Call "WinGetPos" [VStr "ahk_id 1"; VStr ""]]).
Proof.
  assert (Hid : _Window.id (_Window.Build 1) <> 0) by discriminate.
  pose proof (rect_returns_four_fields sample_host VNone (_Window.Build 0) [])
    as (H0 & _).
  pose proof (rect_returns_four_fields sample_host VNone (_Window.Build 1) [])
    as (_ & H1 & _).
  split; [reflexivity|]. split; [exact (H0 eq_refl)|].
  split; [exact sample_host_settings_ok|]. split; [exact Hid|].
  exact (proj1 (proj2 (H1 sample_host_settings_ok Hid))
           _ (VInt 10) (VStr "") (VInt 640) (VInt 480)
           eq_refl eq_refl eq_refl eq_refl eq_refl).
Defined.

(** Against C7 as stated: on a handle that is not zero, when the host replies
    a mapping without "Y", [rect] raises [KeyError] and returns no tuple. *)
Lemma rect_raises_on_incomplete_reply :
  _Window.id (_Window.Build 7) <> 0 /\
  Window.rect (scripted_host [("WinGetPos", Returns (VDict [("X", VInt 10)]))]) VNone
    (_Window.Build 7) [] =
  (Exc (KeyError "Y"),
   [Call "DetectHiddenWindows" [VStr "On"]; Call "SetWinDelay" [VNone];
    Call "WinGetPos" [VStr "ahk_id 7"; VStr ""]]) /\
  ~ (exists fields,
        fst (Window.rect
               (scripted_host [("WinGetPos", Returns (VDict [("X", VInt 10)]))])
               VNone (_Window.Build 7) []) = Ok fields).
Proof.
  split; [discriminate|]. split; [reflexivity|].
  intros [fields H]. discriminate H.
Qed.

(** ** Opacity *)

Lemma between_iff lo n hi :
  between lo n hi = true <-> (inject_Z lo <= to_Q n /\ to_Q n <= inject_Z hi)%Q.
Proof.
  unfold between. rewrite andb_true_iff, !Qle_bool_iff. reflexivity.
Qed.

(** [int()] truncates: on a value that is not negative it is the floor. *)
Lemma int_truncates n :
  (0 <= to_Q n)%Q ->
  (inject_Z (int n) <= to_Q n /\ to_Q n < inject_Z (int n) + 1)%Q.
Proof.
  destruct n as [z|[a d]]; cbn [to_Q int Qnum Qden].
  - intros _. split; [apply Qle_refl|].
    unfold Qlt. cbn. lia.
  - unfold Qle, Qlt. cbn. intros Ha.
    assert (Hq : Z.quot a (Z.pos d) = a / Z.pos d) by (apply Z.quot_div_nonneg; lia).
    rewrite Hq.
    assert (Hd : 0 < Z.pos d) by lia.
    pose proof (Z.mul_div_le a (Z.pos d) Hd).
    pose proof (Z.mul_succ_div_gt a (Z.pos d) Hd).
    split; nia.
Qed.

Lemma int_in_range n :
  between 0 n 255 = true -> 0 <= int n <= 255.
Proof.
  intros H. apply between_iff in H as [H0 H255].
  destruct (int_truncates n H0) as [Hl Hu].
  split.
  - destruct n as [z|[a d]]; cbn [to_Q int Qnum Qden] in *.
    + rewrite Zle_Qle. exact H0.
    + unfold Qle in H0. cbn in H0. apply Z.quot_pos; lia.
  - rewrite Zle_Qle. eapply Qle_trans; eassumption.
Qed.

Lemma Window_set_trace host wd w subcmd value tr :
  settings_ok host -> _Window.id w <> 0 ->
  snd ((Window._set host wd w subcmd value ;;; ret VNone) tr) =
  tr ++ window_settings wd false true ++
  [Call "WinSet" (VStr subcmd :: value :: _Window.splat (_Window._include w))].
Proof.
  intros Hs Hw. rewrite snd_bind_ret. unfold Window._set.
  rewrite Window_call_dispatch by assumption.
  rewrite ahk_call_trace. now rewrite <- app_assoc.
Qed.

(** C10: setting [opacity] to a number outside 0..255 raises [ValueError]
    and dispatches nothing; setting it to [None] sends the host the token
    "Off"; a number within the range is truncated to an int, which is what
    the host is sent. *)
Theorem set_opacity_checks_range
    (host : Host) (wd : PyVal) (w : _Window.t) (tr : Trace) :
  (forall v,
      ~ (0 <= to_Q v /\ to_Q v <= 255)%Q ->
      Window.set_opacity host wd w (Some v) tr =
      (Exc (ValueError "opacity value must be between 0 and 255"), tr)) /\
  (Window.set_opacity host wd w None tr =
   (Window._set host wd w "Transparent" (VStr "Off") ;;; ret VNone) tr) /\
  (forall v,
      (0 <= to_Q v /\ to_Q v <= 255)%Q ->
      Window.set_opacity host wd w (Some v) tr =
      (Window._set host wd w "Transparent" (VInt (int v)) ;;; ret VNone) tr /\
      (inject_Z (int v) <= to_Q v /\ to_Q v < inject_Z (int v) + 1)%Q /\
      0 <= int v <= 255) /\
  (settings_ok host -> _Window.id w <> 0 ->
   forall ahk_value,
     snd ((Window._set host wd w "Transparent" ahk_value ;;; ret VNone) tr) =
     tr ++ [Call "DetectHiddenWindows" [VStr "On"]; Call "SetWinDelay" [wd];
            Call "WinSet" [VStr "Transparent"; ahk_value;
                           VStr ("ahk_id " ++ str_int (_Window.id w))%string; VStr ""]]).
Proof.
  split; [|split; [reflexivity|split]].
  - intros v Hv. unfold Window.set_opacity.
    destruct (between 0 v 255) eqn:E.
    + exfalso. apply Hv. now apply between_iff in E.
    + reflexivity.
  - intros v Hv.
    assert (E : between 0 v 255 = true) by now apply between_iff.
    split; [|split].
    + unfold Window.set_opacity. rewrite E. reflexivity.
    + apply int_truncates. apply Hv.
    + now apply int_in_range.
  - intros Hs Hw ahk_value. now rewrite Window_set_trace.
Qed.

Lemma set_opacity_checks_range_witness :
  ~ (0 <= to_Q (NInt 300) /\ to_Q (NInt 300) <= 255)%Q /\
  Window.set_opacity sample_host VNone (_Window.Build 1) (Some (NInt 300)) [] =
  (Exc (ValueError "opacity value must be between 0 and 255"), []) /\
  (0 <= to_Q (NFloat (255 # 2)) /\ to_Q (NFloat (255 # 2)) <= 255)%Q /\
  Window.set_opacity sample_host VNone (_Window.Build 1) (Some (NFloat (255 # 2))) [] =
  (Window._set sample_host VNone (_Window.Build 1) "Transparent" (VInt 127) ;;; ret VNone) [] /\
  settings_ok sample_host /\
  _Window.id (_Window.Build 1) <> 0 /\
  snd ((Window._set sample_host VNone (_Window.Build 1) "Transparent" (VInt 127) ;;;
        ret VNone) []) =
  [Call "DetectHiddenWindows" [VStr "On"]; Call "SetWinDelay" [VNone];
   Call "WinSet" [VStr "Transparent"; VInt 127; VStr "ahk_id 1"; VStr ""]].
Proof.
  pose proof (set_opacity_checks_range sample_host VNone (_Window.Build 1) [])
    as (Hout & _ & Hin & Htr).
  assert (H300 : ~ (0 <= to_Q (NInt 300) /\ to_Q (NInt 300) <= 255)%Q)
    by (intros [_ H]; exact (H eq_refl)).
  assert (H127 : (0 <= to_Q (NFloat (255 # 2)) /\ to_Q (NFloat (255 # 2)) <= 255)%Q)
    by (split; discriminate).
  assert (Hid : _Window.id (_Window.Build 1) <> 0) by discriminate.
  split; [exact H300|]. split; [exact (Hout _ H300)|].
  split; [exact H127|]. split; [exact (proj1 (Hin _ H127))|].
  split; [exact sample_host_settings_ok|]. split; [exact Hid|].
  exact (Htr sample_host_settings_ok Hid (VInt 127)).
Defined.

(** ** The zero handle *)

(** C1, as the code has it: a [Window] or [Control] whose id is 0 is falsy,
    and no operation on it other than [send] dispatches a host call.  Every
    operation returns [None] or a falsy value, with these exceptions: [rect]
    returns a tuple of four [None] and [position] a pair of [None];
    [wait_inactive], [wait_hidden], [wait_close], [post_message] and, with a
    timeout, [close] and [kill] return [True]; and an operation that rejects
    its argument before it looks at the handle raises (the opacity setter
    outside 0..255, [send_message] on a timeout that overflows, the
    transparent-color setter on a color that [colors.to_hex] rejects).
    [send] returns [None]. *)
Theorem zero_handle_is_inert
    (host : Host) (wd : PyVal) (_set_key_delay : M PyVal)
    (flag_of_other : PyVal -> Res Z) (to_double : Q -> option Q)
    (splitlines : string -> list string) (int_base16 : string -> Res Z)
    (Color : Type) (to_tuple : string -> Res Color)
    (to_hex : PyNum -> PyNum -> PyNum -> Res string) (w : _Window.t) :
  _Window.id w = 0 ->
  _Window.__bool__ w = false /\
  (forall cmd args ehw sd,
      returns_without_dispatch (_Window._call host wd w cmd args ehw sd) VNone) /\
  (* getters and other queries *)
  (returns_without_dispatch (Window.class_name host wd w) VNone /\
   returns_without_dispatch (Window.text host wd w) VNone /\
   returns_without_dispatch (Window.title host wd w) VNone /\
   returns_without_dispatch (Window.pid host wd w) VNone /\
   returns_without_dispatch (Window.process_name host wd w) VNone /\
   returns_without_dispatch (Window.process_path host wd w) VNone /\
   returns_without_dispatch (Window.is_minimized host wd w) VNone /\
   returns_without_dispatch (Window.is_restored host wd w) VNone /\
   returns_without_dispatch (Window.is_maximized host wd w) VNone /\
   returns_without_dispatch (Window.style host wd flag_of_other w) VNone /\
   returns_without_dispatch (Window.ex_style host wd flag_of_other w) VNone /\
   returns_without_dispatch (Window.opacity host wd w) VNone /\
   returns_without_dispatch (Window.transparent_color host wd Color to_tuple w) None /\
   returns_without_dispatch (Window.always_on_top host wd flag_of_other w) VNone /\
   returns_without_dispatch (Window.is_enabled host wd flag_of_other w) VNone /\
   returns_without_dispatch (Window.is_visible host wd flag_of_other w) VNone /\
   returns_without_dispatch (Window.x host wd w) VNone /\
   returns_without_dispatch (Window.y host wd w) VNone /\
   returns_without_dispatch (Window.width host wd w) VNone /\
   returns_without_dispatch (Window.height host wd w) VNone /\
   returns_without_dispatch (Window.is_active host wd w) false /\
   returns_without_dispatch (Window.exists_ host wd w) false /\
   returns_without_dispatch (Window.control_class_names host wd splitlines w) None /\
   returns_without_dispatch (Window.controls host wd splitlines int_base16 w) None /\
   (forall class_name,
       returns_without_dispatch (Window.get_control host wd w class_name) None) /\
   (forall part,
       returns_without_dispatch (Window.get_status_bar_text host wd w part) VNone) /\
   (forall bar_text timeout part interval,
       returns_without_dispatch
         (Window.wait_status_bar host wd to_double w bar_text timeout part interval)
         VNone) /\
   returns_without_dispatch (Window._status_bar_exists host wd w) false /\
   (forall subcmd, returns_without_dispatch (Window._get host wd w subcmd) VNone) /\
   (forall subcmd value,
       returns_without_dispatch (Window._set host wd w subcmd value) VNone) /\
   returns_without_dispatch (Control.text host wd w) VNone /\
   (forall subcmd value,
       returns_without_dispatch (Control._get host wd w subcmd value) VNone)) /\
  (* setters and actions *)
  ((forall x y width height,
       returns_without_dispatch (Window.move host wd w x y width height) VNone) /\
   (forall new_rect, returns_without_dispatch (Window.set_rect host wd w new_rect) VNone) /\
   (forall new_position,
       returns_without_dispatch (Window.set_position host wd w new_position) VNone) /\
   (forall v, returns_without_dispatch (Window.set_x host wd w v) VNone) /\
   (forall v, returns_without_dispatch (Window.set_y host wd w v) VNone) /\
   (forall v, returns_without_dispatch (Window.set_width host wd w v) VNone) /\
   (forall v, returns_without_dispatch (Window.set_height host wd w v) VNone) /\
   (forall new_title, returns_without_dispatch (Window.set_title host wd w new_title) VNone) /\
   (forall value, returns_without_dispatch (Window.set_is_minimized host wd w value) VNone) /\
   (forall value, returns_without_dispatch (Window.set_is_maximized host wd w value) VNone) /\
   returns_without_dispatch (Window.toggle_minimized host wd w) VNone /\
   returns_without_dispatch (Window.toggle_maximized host wd w) VNone /\
   (forall value, returns_without_dispatch (Window.set_always_on_top host wd w value) VNone) /\
   returns_without_dispatch (Window.pin_to_top host wd w) VNone /\
   returns_without_dispatch (Window.unpin_from_top host wd w) VNone /\
   returns_without_dispatch (Window.toggle_always_on_top host wd w) VNone /\
   returns_without_dispatch (Window.send_to_bottom host wd w) VNone /\
   returns_without_dispatch (Window.bring_to_top host wd w) VNone /\
   returns_without_dispatch (Window.disable host wd w) VNone /\
   returns_without_dispatch (Window.enable host wd w) VNone /\
   (forall value, returns_without_dispatch (Window.set_is_enabled host wd w value) VNone) /\
   returns_without_dispatch (Window.redraw host wd w) VNone /\
   (forall options, returns_without_dispatch (Window.set_region host wd w options) VNone) /\
   returns_without_dispatch (Window.reset_region host wd w) VNone /\
   (forall value, returns_without_dispatch (Window.set_style host wd w value) VNone) /\
   (forall value, returns_without_dispatch (Window.set_ex_style host wd w value) VNone) /\
   returns_without_dispatch (Window.set_opacity host wd w None) VNone /\
   (forall value,
       between 0 value 255 = true ->
       returns_without_dispatch (Window.set_opacity host wd w (Some value)) VNone) /\
   returns_without_dispatch (Window.set_transparent_color host wd to_hex w None) VNone /\
   (forall r g b h,
       to_hex r g b = Ok h ->
       returns_without_dispatch
         (Window.set_transparent_color host wd to_hex w (Some (r, g, b))) VNone) /\
   returns_without_dispatch (Window.hide host wd w) VNone /\
   returns_without_dispatch (Window.show host wd w) VNone /\
   (forall value, returns_without_dispatch (Window.set_is_visible host wd w value) VNone) /\
   returns_without_dispatch (Window.maximize host wd w) VNone /\
   returns_without_dispatch (Window.minimize host wd w) VNone /\
   returns_without_dispatch (Window.restore host wd w) VNone /\
   returns_without_dispatch (Window.activate host wd w None) VNone /\
   (forall t, returns_without_dispatch (Window.activate host wd w (Some t)) (VBool false)) /\
   returns_without_dispatch (Window.close host wd w None) VNone /\
   returns_without_dispatch (Window.kill host wd w None) VNone /\
   (forall timeout, returns_without_dispatch (Window.wait_active host wd w timeout) false) /\
   (forall msg w_param l_param timeout ms,
       int_times_1000 to_double timeout = Ok ms ->
       returns_without_dispatch
         (Window.send_message host wd to_double w msg w_param l_param timeout) VNone) /\
   (forall value, returns_without_dispatch (Control.set_text host wd w value) VNone)) /\
  (* results that are neither None nor falsy *)
  (returns_without_dispatch (Window.rect host wd w) (VNone, VNone, VNone, VNone) /\
   returns_without_dispatch (Window.position host wd w) (VNone, VNone) /\
   (forall timeout, returns_without_dispatch (Window.wait_inactive host wd w timeout) true) /\
   (forall timeout, returns_without_dispatch (Window.wait_hidden host wd w timeout) true) /\
   (forall timeout, returns_without_dispatch (Window.wait_close host wd w timeout) true) /\
   (forall msg w_param l_param,
       returns_without_dispatch (Window.post_message host wd w msg w_param l_param) true) /\
   (forall t, returns_without_dispatch (Window.close host wd w (Some t)) (VBool true)) /\
   (forall t, returns_without_dispatch (Window.kill host wd w (Some t)) (VBool true))) /\
  (* an argument that is rejected: still no dispatch *)
  ((forall value, quiet (Window.set_opacity host wd w value)) /\
   (forall value, quiet (Window.set_transparent_color host wd to_hex w value)) /\
   (forall msg w_param l_param timeout,
       quiet (Window.send_message host wd to_double w msg w_param l_param timeout))) /\
  (* send: nothing beyond what precedes every send *)
  ((forall keys tr,
       Window.send host wd _set_key_delay w keys tr = (_set_key_delay ;;; ret VNone) tr) /\
   (forall keys tr r tr',
       _set_key_delay tr = (Ok r, tr') ->
       Window.send host wd _set_key_delay w keys tr = (Ok VNone, tr'))).
Proof.
  destruct w as [z]. cbn [_Window.id]. intros ->.
  split; [reflexivity|]. split; [intros; intros tr; reflexivity|].
  split; [|split; [|split; [|split; [|split; [intros keys tr; reflexivity|]]]]].
  - repeat split; intros; intros tr; reflexivity.
  - repeat split; intros; intros tr;
      try match goal with
        | x : bool |- _ => destruct x
        | x : (_ * _)%type |- _ => repeat (destruct x as [x ?])
        end; try reflexivity.
    + unfold Window.set_opacity.
      match goal with H : between _ _ _ = true |- _ => rewrite H end. reflexivity.
    + unfold Window.set_transparent_color.
      match goal with H : to_hex _ _ _ = Ok _ |- _ => rewrite H end. reflexivity.
    + unfold Window.send_message.
      match goal with H : int_times_1000 _ _ = Ok _ |- _ => rewrite H end.
      reflexivity.
  - repeat split; intros; intros tr; reflexivity.
  - split; [|split].
    + intros [v|] tr; [|reflexivity]. unfold Window.set_opacity.
      destruct (between 0 v 255); reflexivity.
    + intros [[[r g] b]|] tr; [|reflexivity]. unfold Window.set_transparent_color.
      destruct (to_hex r g b); reflexivity.
    + intros msg w_param l_param timeout tr. unfold Window.send_message.
      destruct (int_times_1000 to_double timeout) as [ms|[]]; reflexivity.
  - intros keys tr r tr' H. unfold Window.send.
    rewrite (bind_ok _ _ _ _ _ H). reflexivity.
Qed.

Lemma zero_handle_is_inert_witness :
  _Window.id (_Window.Build 0) = 0 /\
  _Window.__bool__ (_Window.Build 0) = false /\
  returns_without_dispatch (Window.title sample_host VNone (_Window.Build 0)) VNone /\
  returns_without_dispatch
    (Window.wait_close sample_host VNone (_Window.Build 0) None) true /\
  int_times_1000 bounded_double (NInt 5) = Ok 5000 /\
  returns_without_dispatch
    (Window.send_message sample_host VNone bounded_double (_Window.Build 0)
       (NInt 16) (NInt 0) (NInt 0) (NInt 5)) VNone.
Proof.
  pose proof (zero_handle_is_inert sample_host VNone (ret VNone)
                no_other_flag bounded_double (fun s => [s])
                (fun _ => Exc (ValueError "not a number")) unit (fun _ => Ok tt)
                (fun _ _ _ => Ok "") (_Window.Build 0) eq_refl)
    as (Hb & _ & (_ & _ & Ht & _) & Hset & (_ & _ & _ & _ & Hc & _) & _).
  split; [reflexivity|]. split; [exact Hb|]. split; [exact Ht|].
  split; [exact (Hc None)|]. split; [reflexivity|].
  repeat match type of Hset with _ /\ _ /\ _ => apply proj2 in Hset end.
  exact (proj1 Hset (NInt 16) (NInt 0) (NInt 0) (NInt 5) 5000 eq_refl).
Defined.

(** Against C1 as stated: on the zero handle [wait_inactive] returns [True],
    which is neither [None] nor falsy. *)
Lemma zero_handle_wait_inactive_returns_true :
  _Window.__bool__ (_Window.Build 0) = false /\
  Window.wait_inactive sample_host VNone (_Window.Build 0) None [] = (Ok true, []) /\
  Window.wait_inactive sample_host VNone (_Window.Build 0) None [] <> (Ok false, []).
Proof. repeat split. discriminate. Qed.

(** ** Getters on a handle that is not zero *)

Lemma quiet_ret {A} (a : A) : quiet (ret a).
Proof. intros tr. reflexivity. Qed.

Lemma quiet_raise {A} e : quiet (@raise A e).
Proof. intros tr. reflexivity. Qed.

Lemma quiet_lift {A} (r : Res A) : quiet (lift r).
Proof. destruct r; [apply quiet_ret | apply quiet_raise]. Qed.

Lemma quiet_bind {A B} (m : M A) (k : A -> M B) :
  quiet m -> (forall a, quiet (k a)) -> quiet (bind m k).
Proof.
  intros Hm Hk tr. specialize (Hm tr). unfold bind.
  destruct (m tr) as [[a|e] tr']; cbn [snd] in Hm; subst tr'.
  - apply Hk.
  - reflexivity.
Qed.

Lemma quiet_if {A} (b : bool) (m1 m2 : M A) :
  quiet m1 -> quiet m2 -> quiet (if b then m1 else m2).
Proof. now destruct b. Qed.

Lemma quiet_getitem d key : quiet (getitem d key).
Proof.
  destruct d; cbn; try apply quiet_raise.
  destruct (lookup key items); [apply quiet_ret | apply quiet_raise].
Qed.

Lemma quiet_IntFlag flag_of_other v : quiet (IntFlag flag_of_other v).
Proof.
  assert (H : quiet (z' <- lift (flag_of_other v) ;; ret (VInt z'))).
  { apply quiet_bind; [apply quiet_lift | intros; apply quiet_ret]. }
  destruct v; cbn; try exact H. destruct (0 <=? z); [apply quiet_ret | exact H].
Qed.

Create HintDb quiet.
#[local] Hint Resolve quiet_ret quiet_raise quiet_lift quiet_if quiet_getitem
  quiet_IntFlag : quiet.
#[local] Hint Extern 2 (quiet (bind _ _)) => apply quiet_bind; [|intros ?] : quiet.

(** After one query, work that dispatches nothing keeps it at one query. *)
Lemma one_query_bind {A B} (m : M A) (k : A -> M B) q :
  one_query m q -> (forall a, quiet (k a)) -> one_query (bind m k) q.
Proof.
  intros Hm Hk tr. specialize (Hm tr). unfold bind.
  destruct (m tr) as [[a|e] tr']; cbn [snd] in Hm |- *.
  - now rewrite Hk.
  - exact Hm.
Qed.

Lemma one_query_catch {A} (m : M A) (handler : Exn -> M A) q :
  one_query m q -> (forall e, quiet (handler e)) -> one_query (catch m handler) q.
Proof.
  intros Hm Hh tr. specialize (Hm tr). unfold catch.
  destruct (m tr) as [[a|e] tr']; cbn [snd] in Hm |- *.
  - exact Hm.
  - now rewrite Hh.
Qed.




Section NonZeroHandle.

Context (host : Host) (wd : PyVal) (w : _Window.t).
Hypothesis host_ok : settings_ok host.
Hypothesis nonzero : _Window.id w <> 0.

Lemma one_query_call cmd args ehw sd :
  is_setting cmd = false ->
  one_query (_Window._call host wd w cmd args ehw sd) (Call cmd args).
Proof.
  intros Hc tr. rewrite Window_call_dispatch by assumption.
  rewrite ahk_call_trace, !queries_app, window_settings_are_settings.
  now rewrite (queries_query _ _ Hc), app_nil_r.
Qed.

Lemma one_query_get subcmd :
  one_query (Window._get host wd w subcmd)
    (Call "WinGet" (VStr subcmd :: _Window.splat (_Window._include w))).
Proof.
  unfold Window._get. apply one_query_bind.
  - now apply one_query_call.
  - intros a. auto with quiet.
Qed.




End NonZeroHandle.

Ltac quiet_tac :=
  repeat first
    [ match goal with
      | |- forall _, _ => intro
      | |- quiet (match ?p with (_, _) => _ end) => destruct p
      | |- quiet (match ?e with Error _ => _ | _ => _ end) => destruct e
      | |- quiet (if ?b then _ else _) => destruct b
      end
    | apply quiet_bind
    | apply quiet_ret
    | apply quiet_raise
    | apply quiet_lift
    | apply quiet_getitem
    | apply quiet_IntFlag ].

Ltac one_query_tac :=
  repeat first
    [ apply one_query_bind
    | apply one_query_catch
    | apply one_query_get; assumption
    | apply one_query_call; [assumption | assumption | reflexivity]
    | progress quiet_tac ].





(** * Further properties *)

(** ** The algebra of narrowing *)

Lemma is_unset_eq {A} (x : Field A) : is_unset x = true -> x = UNSET.
Proof. destruct x; (reflexivity || discriminate). Qed.

Lemma default_unset_r {A} (x : Field A) : converters.default x UNSET = x.
Proof. now destruct x. Qed.

Lemma default_assoc {A} (x y z : Field A) :
  converters.default x (converters.default y z) =
  converters.default (converters.default x y) z.
Proof. now destruct x. Qed.

Lemma default_idem {A} (x y : Field A) :
  converters.default x (converters.default x y) = converters.default x y.
Proof. now destruct x. Qed.

(** [filter] always builds the merged record: the early return of the
    all-unset call gives the same filter. *)
Lemma filter_spec f a :
  Windows.filter f a =
  match Windows.convert_match (Windows.arg_match a) with
  | Ok mode => Ok (narrow f a mode)
  | Exc e => Exc e
  end.
Proof.
  unfold Windows.filter.
  destruct (_ && _) eqn:Hall; [|reflexivity].
  repeat (apply andb_true_iff in Hall as [Hall ?]).
  repeat match goal with
         | H : is_unset _ = true |- _ => apply is_unset_eq in H
         end.
  destruct a, f. cbn in *. subst. reflexivity.
Qed.

Lemma convert_match_merge am bm ma :
  Windows.convert_match am = Ok ma ->
  Windows.convert_match (converters.default bm am) =
  match Windows.convert_match bm with
  | Ok mb => Ok (converters.default mb ma)
  | Exc e => Exc e
  end.
Proof.
  intros Ha. destruct bm as [| |[s|m]]; cbn; try assumption; try reflexivity.
  destruct (TitleMatchMode_of_value (lower s)); reflexivity.
Qed.

Lemma narrow_narrow f a b ma mb :
  narrow (narrow f a ma) b mb = narrow f (merge_args a b) (converters.default mb ma).
Proof. unfold narrow, merge_args. cbn. now rewrite !default_assoc. Qed.

(** X1: two calls of [filter] in a row do what one call with the merged
    arguments does, where an argument of the second call wins over the same
    argument of the first; this includes the [ValueError] of a second call
    with an unknown mode name. *)
Theorem filter_filter_merges (f g : Windows.t) (a b : Windows.Args) :
  Windows.filter f a = Ok g ->
  Windows.filter g b = Windows.filter f (merge_args a b).
Proof.
  rewrite !filter_spec. intros Ha.
  destruct (Windows.convert_match (Windows.arg_match a)) as [ma|e] eqn:Ea;
    [|discriminate].
  injection Ha as <-.
  cbn [merge_args Windows.arg_match].
  rewrite (convert_match_merge _ (Windows.arg_match b) _ Ea).
  destruct (Windows.convert_match (Windows.arg_match b)); [|reflexivity].
  now rewrite narrow_narrow.
Qed.

Lemma filter_filter_merges_witness :
  Windows.filter Windows.windows by_title = Ok untitled /\
  Windows.filter untitled by_class = Windows.filter Windows.windows (merge_args by_title by_class).
Proof.
  split; [reflexivity|].
  exact (filter_filter_merges Windows.windows untitled by_title by_class eq_refl).
Defined.

(** X2: narrowing twice by the same arguments gives the same filter as
    narrowing once. *)
Theorem filter_idempotent (f g : Windows.t) (a : Windows.Args) :
  Windows.filter f a = Ok g -> Windows.filter g a = Ok g.
Proof.
  rewrite !filter_spec. intros Ha.
  destruct (Windows.convert_match (Windows.arg_match a)) as [ma|e] eqn:Ea;
    [|discriminate].
  injection Ha as <-. unfold narrow. cbn. now rewrite !default_idem.
Qed.

Lemma filter_idempotent_witness :
  Windows.filter Windows.all_windows by_both =
  Ok untitled_notepad /\
  Windows.filter untitled_notepad by_both = Ok untitled_notepad.
Proof.
  split; [reflexivity|].
  exact (filter_idempotent Windows.all_windows untitled_notepad by_both eq_refl).
Defined.

Lemma exclude_spec f ti te hw ht :
  Windows.exclude f ti te hw ht =
  {| Windows.title := Windows.title f;
     Windows.class_name := Windows.class_name f;
     Windows.id := Windows.id f;
     Windows.pid := Windows.pid f;
     Windows.exe := Windows.exe f;
     Windows.text := Windows.text f;
     Windows.exclude_title := converters.default ti (Windows.exclude_title f);
     Windows.exclude_text := converters.default te (Windows.exclude_text f);
     Windows.exclude_hidden_windows :=
       converters.default hw (Windows.exclude_hidden_windows f);
     Windows.exclude_hidden_text := converters.default ht (Windows.exclude_hidden_text f);
     Windows.title_mode := Windows.title_mode f;
     Windows.text_mode := Windows.text_mode f |}.
Proof.
  unfold Windows.exclude.
  destruct (_ && _) eqn:Hall; [|reflexivity].
  repeat (apply andb_true_iff in Hall as [Hall ?]).
  repeat match goal with
         | H : is_unset _ = true |- _ => apply is_unset_eq in H
         end.
  subst. now destruct f.
Qed.

(** X3: [filter] and [exclude] do not interfere: narrowing an excluding
    filter is excluding the narrowed one, also when [filter] raises. *)
Theorem filter_exclude_commute
    (f : Windows.t) (a : Windows.Args) (ti te : Field string) (hw ht : Field bool) :
  Windows.filter (Windows.exclude f ti te hw ht) a =
  match Windows.filter f a with
  | Ok g => Ok (Windows.exclude g ti te hw ht)
  | Exc e => Exc e
  end.
Proof.
  rewrite !filter_spec.
  destruct (Windows.convert_match (Windows.arg_match a)); [|reflexivity].
  now rewrite !exclude_spec.
Qed.

(** X4: two calls of [exclude] in a row do what one call does in which an
    argument of the second call wins over the same argument of the first; in
    particular [exclude()] with no argument changes nothing, and [exclude]
    never touches the include fields or the match modes. *)
Theorem exclude_exclude_merges
    (f : Windows.t) (ti te ti' te' : Field string) (hw ht hw' ht' : Field bool) :
  Windows.exclude (Windows.exclude f ti te hw ht) ti' te' hw' ht' =
  Windows.exclude f (converters.default ti' ti) (converters.default te' te)
    (converters.default hw' hw) (converters.default ht' ht) /\
  Windows.exclude f UNSET UNSET UNSET UNSET = f /\
  Windows._include (Windows.exclude f ti te hw ht) = Windows._include f /\
  Windows.title_mode (Windows.exclude f ti te hw ht) = Windows.title_mode f /\
  Windows.text_mode (Windows.exclude f ti te hw ht) = Windows.text_mode f.
Proof.
  split; [|split; [reflexivity|]].
  - rewrite !exclude_spec. cbn. now rewrite !default_assoc.
  - rewrite exclude_spec. repeat split.
Qed.

(** X5: the generated [__eq__] is true exactly when the two filters have the
    same value in each of the twelve fields, and then they hash the same. *)
Theorem Windows_eq_decides (hash : list Obj -> Z) (f g : Windows.t) :
  (Windows.__eq__ f g = true <-> f = g) /\
  (Windows.__eq__ f g = true -> Windows.__hash__ hash f = Windows.__hash__ hash g) /\
  Windows.__eq__ f g = Windows.__eq__ g f.
Proof.
  split; [apply Windows_eq_iff|]. split.
  - intros H. apply Windows_eq_iff in H. now subst.
  - destruct (Windows.__eq__ f g) eqn:E1, (Windows.__eq__ g f) eqn:E2;
      try reflexivity.
    + apply Windows_eq_iff in E1. subst. rewrite (proj2 (Windows_eq_iff g g) eq_refl) in E2.
      discriminate.
    + apply Windows_eq_iff in E2. subst. rewrite (proj2 (Windows_eq_iff f f) eq_refl) in E1.
      discriminate.
Qed.

Lemma Windows_eq_decides_witness :
  Windows.__eq__ Windows.all_windows Windows.windows = false /\
  Windows.__eq__ untitled untitled = true /\
  Windows.__hash__ sample_hash untitled = Windows.__hash__ sample_hash untitled.
Proof.
  pose proof (Windows_eq_decides sample_hash untitled untitled) as (_ & Hh & _).
  split; [reflexivity|]. split; [reflexivity|]. exact (Hh eq_refl).
Defined.

(** X6: [filter] with a mode name succeeds exactly when the lower-case form
    of the name is one of "startswith", "contains", "exact" and "regex";
    any other name raises [ValueError]. *)
Theorem filter_accepts_mode_names (f : Windows.t) (a : Windows.Args) (s : string) :
  ((exists g, Windows.filter f (with_match a (Val (MStr s))) = Ok g) <->
   In (lower s) mode_names) /\
  (~ In (lower s) mode_names ->
   exists msg, Windows.filter f (with_match a (Val (MStr s))) = Exc (ValueError msg)).
Proof.
  rewrite filter_with_match by reflexivity.
  cbn [Windows.convert_match]. unfold TitleMatchMode_of_value, mode_names.
  destruct (String.eqb_spec (lower s) "startswith") as [->|H1];
    [split; [split; [intros _; cbn; tauto|intros _; eexists; reflexivity]
            |intros H; exfalso; apply H; cbn; tauto]|].
  destruct (String.eqb_spec (lower s) "contains") as [->|H2];
    [split; [split; [intros _; cbn; tauto|intros _; eexists; reflexivity]
            |intros H; exfalso; apply H; cbn; tauto]|].
  destruct (String.eqb_spec (lower s) "exact") as [->|H3];
    [split; [split; [intros _; cbn; tauto|intros _; eexists; reflexivity]
            |intros H; exfalso; apply H; cbn; tauto]|].
  destruct (String.eqb_spec (lower s) "regex") as [->|H4];
    [split; [split; [intros _; cbn; tauto|intros _; eexists; reflexivity]
            |intros H; exfalso; apply H; cbn; tauto]|].
  split.
  - split.
    + intros [g Hg]. discriminate Hg.
    + cbn. intros [E|[E|[E|[E|[]]]]]; congruence.
  - intros _. eexists. reflexivity.
Qed.

Lemma filter_accepts_mode_names_witness :
  In (lower "RegEx") mode_names /\
  (exists g, Windows.filter untitled (with_match Windows.no_args (Val (MStr "RegEx"))) = Ok g) /\
  ~ In (lower "fuzzy") mode_names /\
  (exists msg,
      Windows.filter untitled (with_match Windows.no_args (Val (MStr "fuzzy")))
      = Exc (ValueError msg)).
Proof.
  assert (Hin : In (lower "RegEx") mode_names) by (cbn; tauto).
  assert (Hout : ~ In (lower "fuzzy") mode_names)
    by (cbn; intros [E|[E|[E|[E|[]]]]]; discriminate E).
  split; [exact Hin|].
  split; [exact (proj2 (proj1 (filter_accepts_mode_names untitled Windows.no_args "RegEx"))
                   Hin)|].
  split; [exact Hout|].
  exact (proj2 (filter_accepts_mode_names untitled Windows.no_args "fuzzy") Hout).
Defined.


(** ** Queries through the filter *)

Lemma snd_bind_quiet {A B} (m : M A) (k : A -> M B) tr :
  (forall a, quiet (k a)) -> snd (bind m k tr) = snd (m tr).
Proof.
  intros Hk. unfold bind. destruct (m tr) as [[a|e] tr']; [apply Hk|reflexivity].
Qed.

Lemma quiet_of_reply v : quiet (_Window.of_reply v).
Proof. destruct v; cbn; (apply quiet_ret || apply quiet_raise). Qed.

Lemma Windows_call_returns host wd f cmd args sd tr v :
  settings_ok host -> Windows.has_none f = false -> modes_valid f = true ->
  host (tr ++ filter_settings wd f sd) (Call cmd args) = Returns v ->
  Windows._call host wd f cmd args sd tr =
  (Ok v, tr ++ filter_settings wd f sd ++ [Call cmd args]).
Proof.
  intros Hs Hn Hm H. rewrite Windows_call_dispatch by assumption.
  rewrite (ahk_call_returns _ _ _ _ _ H). now rewrite <- app_assoc.
Qed.

(** X7: a match mode that is [None] stops every query that would dispatch:
    [Windows._call] raises [ValueError] after the hidden-window settings and
    never dispatches its command.  [filter(match=None)] gives such a
    filter. *)
Theorem none_mode_raises_before_command
    (host : Host) (wd : PyVal) (f : Windows.t) (cmd : string) (args : list PyVal)
    (sd : bool) (tr : Trace) :
  settings_ok host ->
  Windows.has_none f = false ->
  (Windows.title_mode f = PyNone ->
   Windows._call host wd f cmd args sd tr =
   (Exc (ValueError "unknown title match mode: None"), tr ++ hidden_settings f)) /\
  (Windows.title_mode f <> PyNone -> Windows.text_mode f = PyNone ->
   exists code,
     Windows._call host wd f cmd args sd tr =
     (Exc (ValueError "unknown text match mode: None"),
      tr ++ hidden_settings f ++ [Call "SetTitleMatchMode" [code]])) /\
  (forall a, exists g,
      Windows.filter f (with_match a PyNone) = Ok g /\ Windows.title_mode g = PyNone).
Proof.
  intros Hs Hn. split; [|split].
  - intros Ht. unfold Windows._call, hidden_settings.
    unfold Windows.has_none in Hn. rewrite Hn, Ht.
    destruct (flag_truthy (Windows.exclude_hidden_windows f)); setting;
      (destruct (is_unset (Windows.text f)); cbn [negb];
       [rewrite ret_then
       |destruct (flag_truthy (Windows.exclude_hidden_text f)); setting]);
      cbn; rewrite <- ?app_assoc; reflexivity.
  - intros Ht Hx. unfold Windows._call, hidden_settings.
    unfold Windows.has_none in Hn. rewrite Hn, Hx.
    exists (match Windows.title_mode f with Val m => title_mode_code m | _ => VInt 1 end).
    destruct (flag_truthy (Windows.exclude_hidden_windows f)); setting;
      (destruct (is_unset (Windows.text f)); cbn [negb];
       [rewrite ret_then
       |destruct (flag_truthy (Windows.exclude_hidden_text f)); setting]);
      (destruct (Windows.title_mode f) as [| |[]]; [|congruence|..]; setting);
      cbn; rewrite <- ?app_assoc; reflexivity.
  - intros a. rewrite filter_with_match by reflexivity.
    eexists. split; reflexivity.
Qed.

Lemma none_mode_raises_before_command_witness :
  settings_ok silent_host /\
  Windows.filter untitled (with_match Windows.no_args PyNone) =
  Ok (Windows.Build (Val "Untitled") UNSET UNSET UNSET UNSET UNSET
        UNSET UNSET UNSET UNSET PyNone UNSET) /\
  Windows._call silent_host VNone
    (Windows.Build (Val "Untitled") UNSET UNSET UNSET UNSET UNSET
       UNSET UNSET UNSET UNSET PyNone UNSET) "WinExist" [] false [] =
  (Exc (ValueError "unknown title match mode: None"),
   [Call "DetectHiddenWindows" [VStr "Off"]]).
Proof.
  split; [exact silent_host_settings_ok|]. split; [reflexivity|].
  exact (proj1 (none_mode_raises_before_command silent_host VNone
                  (Windows.Build (Val "Untitled") UNSET UNSET UNSET UNSET UNSET
                     UNSET UNSET UNSET UNSET PyNone UNSET)
                  "WinExist" [] false [] silent_host_settings_ok eq_refl) eq_refl).
Defined.

(** X8: [match_text_slow] sets the text mode and nothing else, the last call
    wins, and the mode is what the next query sends the host: "slow" or
    "fast", right before the delay and the command. *)
Theorem match_text_slow_sets_text_mode
    (host : Host) (wd : PyVal) (f : Windows.t) (is_slow : bool)
    (cmd : string) (args : list PyVal) (sd : bool) (tr : Trace) :
  settings_ok host ->
  Windows.has_none f = false ->
  Windows.title_mode f <> PyNone ->
  (forall b, Windows.match_text_slow (Windows.match_text_slow f b) is_slow =
             Windows.match_text_slow f is_slow) /\
  Windows._query (Windows.match_text_slow f is_slow) = Windows._query f /\
  Windows.title_mode (Windows.match_text_slow f is_slow) = Windows.title_mode f /\
  exists pre,
    snd (Windows._call host wd (Windows.match_text_slow f is_slow) cmd args sd tr) =
    tr ++ pre ++
    [Call "SetTitleMatchMode" [VStr (if is_slow then "slow" else "fast")]] ++
    (if sd then [Call "SetWinDelay" [wd]] else []) ++ [Call cmd args].
Proof.
  intros Hs Hn Ht. split; [reflexivity|]. split; [reflexivity|].
  split; [reflexivity|].
  assert (Hv : modes_valid (Windows.match_text_slow f is_slow) = true).
  { unfold modes_valid. cbn.
    destruct (Windows.title_mode f); [|congruence|]; now destruct is_slow. }
  rewrite Windows_call_trace by assumption.
  unfold filter_settings. cbn [Windows.match_text_slow Windows.text_mode
    Windows.title_mode Windows.text Windows.exclude_hidden_windows
    Windows.exclude_hidden_text].
  exists ([Call "DetectHiddenWindows"
             [VStr (if flag_truthy (Windows.exclude_hidden_windows f)
                    then "Off" else "On")]] ++
          (if is_unset (Windows.text f) then []
           else [Call "DetectHiddenText"
                   [VStr (if flag_truthy (Windows.exclude_hidden_text f)
                          then "Off" else "On")]]) ++
          [Call "SetTitleMatchMode"
             [match Windows.title_mode f with
              | Val m => title_mode_code m
              | _ => VInt 1
              end]]).
  destruct is_slow; rewrite <- !app_assoc; reflexivity.
Qed.

Lemma match_text_slow_sets_text_mode_witness :
  settings_ok silent_host /\
  Windows.has_none untitled = false /\
  Windows.title_mode untitled <> PyNone /\
  exists pre,
    snd (Windows._call silent_host VNone (Windows.match_text_slow untitled true)
           "WinExist" [] false []) =
    [] ++ pre ++ [Call "SetTitleMatchMode" [VStr "slow"]] ++ [] ++ [Call "WinExist" []].
Proof.
  assert (Ht : Windows.title_mode untitled <> PyNone) by discriminate.
  split; [exact silent_host_settings_ok|]. split; [reflexivity|]. split; [exact Ht|].
  exact (proj2 (proj2 (proj2
           (match_text_slow_sets_text_mode silent_host VNone untitled true
              "WinExist" [] false [] silent_host_settings_ok eq_refl Ht)))).
Defined.

(** X9: [exist] and [last] turn the host's reply into a handle: the handle
    that the host reports, and the zero handle when the reply is falsy (the
    empty string, 0 or [None]); either way they return normally. *)
Theorem exist_reads_reply
    (host : Host) (wd : PyVal) (f g : Windows.t) (a : Windows.Args) (tr : Trace) :
  settings_ok host ->
  Windows.filter f a = Ok g ->
  Windows.has_none g = false ->
  modes_valid g = true ->
  let settings := filter_settings wd g false in
  let exist_q := Call "WinExist" (Windows.splat4 (Windows._query g)) in
  let last_q := Call "WinGet" (VStr "IDLast" :: Windows.splat4 (Windows._query g)) in
  (forall v,
      host (tr ++ settings) exist_q = Returns v ->
      (truthy v = false ->
       Windows.exist host wd f a tr = (Ok (_Window.Build 0), tr ++ settings ++ [exist_q])) /\
      (forall z, v = VInt z ->
       Windows.exist host wd f a tr = (Ok (_Window.Build z), tr ++ settings ++ [exist_q]))) /\
  (forall v,
      host (tr ++ settings) last_q = Returns v ->
      (truthy v = false ->
       Windows.last host wd f a tr = (Ok (_Window.Build 0), tr ++ settings ++ [last_q])) /\
      (forall z, v = VInt z ->
       Windows.last host wd f a tr = (Ok (_Window.Build z), tr ++ settings ++ [last_q]))).
Proof.
  intros Hs Hf Hn Hm settings exist_q last_q.
  split; intros v Hv.
  - unfold Windows.exist. rewrite (filtering_ok _ _ _ _ _ Hf).
    rewrite (bind_ok _ _ _ _ _
               (Windows_call_returns host wd g "WinExist" _ false tr v Hs Hn Hm Hv)).
    unfold py_or. split.
    + intros Ht. rewrite Ht. reflexivity.
    + intros z ->. cbn [truthy].
      destruct (Z.eqb_spec z 0) as [->|_]; reflexivity.
  - unfold Windows.last. rewrite (filtering_ok _ _ _ _ _ Hf).
    rewrite (bind_ok _ _ _ _ _
               (Windows_call_returns host wd g "WinGet" _ false tr v Hs Hn Hm Hv)).
    unfold py_or. split.
    + intros Ht. rewrite Ht. reflexivity.
    + intros z ->. cbn [truthy].
      destruct (Z.eqb_spec z 0) as [->|_]; reflexivity.
Qed.

Lemma exist_reads_reply_witness :
  settings_ok sample_host /\
  Windows.filter Windows.windows by_title = Ok untitled /\
  Windows.has_none untitled = false /\
  modes_valid untitled = true /\
  Windows.exist sample_host VNone Windows.windows by_title [] =
  (Ok (_Window.Build 1),
   [Call "DetectHiddenWindows" [VStr "Off"]; Call "SetTitleMatchMode" [VInt 1];
    Call "SetTitleMatchMode" [VStr "fast"];
    Call "WinExist" [VStr "Untitled"; VStr ""; VStr ""; VStr ""]]) /\
  Windows.last sample_host VNone Windows.windows by_title [] =
  (Ok (_Window.Build 0),
   [Call "DetectHiddenWindows" [VStr "Off"]; Call "SetTitleMatchMode" [VInt 1];
    Call "SetTitleMatchMode" [VStr "fast"];
    Call "WinGet" [VStr "IDLast"; VStr "Untitled"; VStr ""; VStr ""; VStr ""]]).
Proof.
  pose proof (exist_reads_reply sample_host VNone Windows.windows untitled by_title []
                sample_host_settings_ok eq_refl eq_refl eq_refl) as [He Hl].
  split; [exact sample_host_settings_ok|].
  split; [reflexivity|]. split; [reflexivity|]. split; [reflexivity|]. split.
  - exact (proj2 (He (VInt 1) eq_refl) 1 eq_refl).
  - exact (proj1 (Hl (VStr "") eq_refl) eq_refl).
Defined.

(** X10: [get_active] on a filter whose whole query is empty asks the host
    for the active window, "A"; on any other filter it passes the query of
    the filter. *)
Theorem get_active_query
    (host : Host) (wd : PyVal) (f g : Windows.t) (a : Windows.Args) (tr : Trace) :
  settings_ok host ->
  Windows.filter f a = Ok g ->
  Windows.has_none g = false ->
  modes_valid g = true ->
  (Windows._query g = ("", "", "", "") ->
   snd (Windows.get_active host wd f a tr) =
   tr ++ filter_settings wd g false ++
   [Call "WinActive" [VStr "A"; VStr ""; VStr ""; VStr ""]]) /\
  (Windows._query g <> ("", "", "", "") ->
   snd (Windows.get_active host wd f a tr) =
   tr ++ filter_settings wd g false ++
   [Call "WinActive" (Windows.splat4 (Windows._query g))]).
Proof.
  intros Hs Hf Hn Hm.
  unfold Windows.get_active. rewrite (filtering_ok _ _ _ _ _ Hf). cbv zeta.
  rewrite snd_bind_quiet by (intros v; apply quiet_of_reply).
  rewrite Windows_call_trace by assumption.
  destruct (Windows._query g) as [[[q1 q2] q3] q4].
  split.
  - intros E. injection E as -> -> -> ->. reflexivity.
  - intros E. destruct q1, q2, q3, q4; try reflexivity. now elim E.
Qed.

Lemma get_active_query_witness :
  settings_ok silent_host /\
  Windows.filter Windows.windows Windows.no_args = Ok Windows.windows /\
  Windows.has_none Windows.windows = false /\
  modes_valid Windows.windows = true /\
  Windows._query Windows.windows = ("", "", "", "") /\
  snd (Windows.get_active silent_host VNone Windows.windows Windows.no_args []) =
  [] ++ filter_settings VNone Windows.windows false ++
  [Call "WinActive" [VStr "A"; VStr ""; VStr ""; VStr ""]] /\
  Windows._query untitled <> ("", "", "", "") /\
  snd (Windows.get_active silent_host VNone Windows.windows by_title []) =
  [] ++ filter_settings VNone untitled false ++
  [Call "WinActive" [VStr "Untitled"; VStr ""; VStr ""; VStr ""]].
Proof.
  assert (Hq : Windows._query untitled <> ("", "", "", "")) by discriminate.
  split; [exact silent_host_settings_ok|].
  split; [reflexivity|]. split; [reflexivity|]. split; [reflexivity|].
  split; [reflexivity|]. split.
  - exact (proj1 (get_active_query silent_host VNone Windows.windows Windows.windows
                    Windows.no_args [] silent_host_settings_ok eq_refl eq_refl eq_refl)
             eq_refl).
  - split; [exact Hq|].
    exact (proj2 (get_active_query silent_host VNone Windows.windows untitled
                    by_title [] silent_host_settings_ok eq_refl eq_refl eq_refl) Hq).
Defined.

Lemma timeout_zero_is_empty t :
  (to_Q t == 0)%Q -> Windows.timeout_or_empty (Some t) = VStr "".
Proof.
  intros H. unfold Windows.timeout_or_empty, py_or.
  destruct t as [z|q]; cbn [opt_num num truthy to_Q] in *.
  - unfold Qeq in H. cbn in H. replace z with 0 by lia. reflexivity.
  - apply Qeq_bool_iff in H. now rewrite H.
Qed.

(** X11: the waits of a filter ([wait], [wait_active], [wait_inactive]) send
    the host one wait command.  When the host reports a timeout (a truthy
    reply) or replies [None] they return the zero handle and ask nothing
    more; otherwise they return what [windows.first()] finds next, the
    window the host has just found.  A timeout of zero is sent like no
    timeout at all, as the empty string. *)
Theorem wait_returns_last_found
    (host : Host) (wd : PyVal) (f g : Windows.t) (a : Windows.Args)
    (cmd : string) (timeout : option PyNum) (tr : Trace) (v : PyVal) :
  settings_ok host ->
  Windows.filter f a = Ok g ->
  Windows.has_none g = false ->
  modes_valid g = true ->
  let q := Call cmd (_Window.splat (Windows._include g) ++
                     [Windows.timeout_or_empty timeout] ++
                     _Window.splat (Windows._exclude g)) in
  let tr' := tr ++ filter_settings wd g true ++ [q] in
  host (tr ++ filter_settings wd g true) q = Returns v ->
  (Windows.wait host wd f a timeout tr = Windows._wait host wd g "WinWait" timeout tr /\
   Windows.wait_active host wd f a timeout tr =
   Windows._wait host wd g "WinWaitActive" timeout tr /\
   Windows.wait_inactive host wd f a timeout tr =
   Windows._wait host wd g "WinWaitNotActive" timeout tr) /\
  (is_None v || truthy v = true ->
   Windows._wait host wd g cmd timeout tr = (Ok (_Window.Build 0), tr')) /\
  (is_None v || truthy v = false ->
   Windows._wait host wd g cmd timeout tr =
   Windows.exist host wd Windows.windows Windows.no_args tr') /\
  Windows.timeout_or_empty None = VStr "" /\
  (forall t, (to_Q t == 0)%Q -> Windows.timeout_or_empty (Some t) = VStr "").
Proof.
  intros Hs Hf Hn Hm q tr' Hv.
  split; [|split; [|split; [|split; [reflexivity|exact timeout_zero_is_empty]]]].
  - unfold Windows.wait, Windows.wait_active, Windows.wait_inactive.
    now rewrite !(filtering_ok _ _ _ _ _ Hf).
  - intros Hb. unfold Windows._wait.
    rewrite (bind_ok _ _ _ _ _
               (Windows_call_returns host wd g cmd _ true tr v Hs Hn Hm Hv)).
    now rewrite Hb.
  - intros Hb. unfold Windows._wait.
    rewrite (bind_ok _ _ _ _ _
               (Windows_call_returns host wd g cmd _ true tr v Hs Hn Hm Hv)).
    now rewrite Hb.
Qed.

Lemma wait_returns_last_found_witness :
  settings_ok sample_host /\
  Windows.filter Windows.windows by_title = Ok untitled /\
  Windows.has_none untitled = false /\
  modes_valid untitled = true /\
  sample_host ([] ++ filter_settings VNone untitled true)
    (Call "WinWait" [VStr "Untitled"; VStr ""; VStr ""; VStr ""; VStr ""])
  = Returns (VStr "") /\
  Windows.wait sample_host VNone Windows.windows by_title (Some (NInt 0)) [] =
  Windows.exist sample_host VNone Windows.windows Windows.no_args
    ([] ++ filter_settings VNone untitled true ++
     [Call "WinWait" [VStr "Untitled"; VStr ""; VStr ""; VStr ""; VStr ""]]).
Proof.
  pose proof (wait_returns_last_found sample_host VNone Windows.windows untitled
                by_title "WinWait" (Some (NInt 0)) [] (VStr "")
                sample_host_settings_ok eq_refl eq_refl eq_refl eq_refl)
    as ((Hw & _) & _ & Hfound & _).
  split; [exact sample_host_settings_ok|].
  split; [reflexivity|]. split; [reflexivity|]. split; [reflexivity|].
  split; [reflexivity|].
  rewrite Hw. exact (Hfound eq_refl).
Defined.

Lemma handles_of_ints (zs : list Z) tr :
  Windows.handles (List.map VInt zs) tr = (Ok (List.map _Window.Build zs), tr).
Proof.
  induction zs as [|z zs IH]; [reflexivity|].
  cbn [List.map Windows.handles _Window.of_reply].
  unfold bind at 1. cbn [ret]. unfold bind at 1. now rewrite IH.
Qed.

(** X12: iterating a filter asks the host once for the list of windows and
    yields one handle per reported id, in the order the host reports them
    (top to bottom); a [None] reply yields no window. *)
Theorem iter_yields_reported_handles
    (host : Host) (wd : PyVal) (f : Windows.t) (tr : Trace) :
  settings_ok host ->
  Windows.has_none f = false ->
  modes_valid f = true ->
  let q := Call "WinGet" (VStr "List" :: Windows.splat4 (Windows._query f)) in
  let tr' := tr ++ filter_settings wd f false ++ [q] in
  (forall items ids,
      host (tr ++ filter_settings wd f false) q = Returns (VDict items) ->
      List.map snd items = List.map VInt ids ->
      Windows.__iter__ host wd f tr = (Ok (List.map _Window.Build ids), tr')) /\
  (host (tr ++ filter_settings wd f false) q = Returns VNone ->
   Windows.__iter__ host wd f tr = (Ok [], tr')).
Proof.
  intros Hs Hn Hm q tr'.
  split.
  - intros items ids Hv Hi. unfold Windows.__iter__.
    rewrite (bind_ok _ _ _ _ _
               (Windows_call_returns host wd f "WinGet" _ false tr _ Hs Hn Hm Hv)).
    cbn [is_None Windows.values]. unfold bind at 1. cbn [ret].
    rewrite Hi. apply handles_of_ints.
  - intros Hv. unfold Windows.__iter__.
    rewrite (bind_ok _ _ _ _ _
               (Windows_call_returns host wd f "WinGet" _ false tr _ Hs Hn Hm Hv)).
    reflexivity.
Qed.

Lemma iter_yields_reported_handles_witness :
  settings_ok (scripted_host
                 [("WinGet", Returns (VDict [("1", VInt 66); ("2", VInt 42)]))]) /\
  Windows.has_none untitled = false /\
  modes_valid untitled = true /\
  Windows.__iter__
    (scripted_host [("WinGet", Returns (VDict [("1", VInt 66); ("2", VInt 42)]))])
    VNone untitled [] =
  (Ok [_Window.Build 66; _Window.Build 42],
   [] ++ filter_settings VNone untitled false ++
   [Call "WinGet" (VStr "List" :: Windows.splat4 (Windows._query untitled))]).
Proof.
  assert (Hs : settings_ok
                 (scripted_host
                    [("WinGet", Returns (VDict [("1", VInt 66); ("2", VInt 42)]))]))
    by (apply scripted_host_settings_ok; reflexivity).
  split; [exact Hs|]. split; [reflexivity|]. split; [reflexivity|].
  exact (proj1 (iter_yields_reported_handles _ VNone untitled [] Hs eq_refl eq_refl)
           [("1", VInt 66); ("2", VInt 42)] [66; 42] eq_refl eq_refl).
Defined.

(** ** More on window handles *)


Lemma eq_int_exclusive v z1 z2 :
  z1 <> z2 -> eq_int v z1 = true -> eq_int v z2 = false.
Proof.
  intros Hz. destruct v as [|b|z|q|p|s|items]; cbn; try discriminate.
  - intros H. apply Z.eqb_eq in H. apply Z.eqb_neq. congruence.
  - intros H. apply Z.eqb_eq in H. apply Z.eqb_neq. congruence.
  - intros H. apply Qeq_bool_iff in H.
    destruct (Qeq_bool q (inject_Z z2)) eqn:E; [|reflexivity].
    apply Qeq_bool_iff in E. exfalso. apply Hz.
    assert (Hq : (inject_Z z1 == inject_Z z2)%Q)
      by (rewrite <- H; exact E).
    unfold Qeq in Hq. cbn in Hq. lia.
Qed.

(** X14: for one reply of the host to the [MinMax] query, at most one of
    [is_minimized], [is_restored] and [is_maximized] is [True]; the three
    are [None] together, exactly when the host replies the empty string or
    [None]. *)
Theorem min_max_states_exclusive
    (host : Host) (wd : PyVal) (w : _Window.t) (tr : Trace) (v : PyVal) :
  settings_ok host ->
  _Window.id w <> 0 ->
  let q := Call "WinGet" (VStr "MinMax" :: _Window.splat (_Window._include w)) in
  let tr' := tr ++ window_settings wd false true ++ [q] in
  host (tr ++ window_settings wd false true) q = Returns v ->
  (eq_empty_str v || is_None v = true ->
   Window.is_minimized host wd w tr = (Ok VNone, tr') /\
   Window.is_restored host wd w tr = (Ok VNone, tr') /\
   Window.is_maximized host wd w tr = (Ok VNone, tr')) /\
  (eq_empty_str v || is_None v = false ->
   exists a b c,
     Window.is_minimized host wd w tr = (Ok (VBool a), tr') /\
     Window.is_restored host wd w tr = (Ok (VBool b), tr') /\
     Window.is_maximized host wd w tr = (Ok (VBool c), tr') /\
     (a = true -> b = false /\ c = false) /\
     (b = true -> a = false /\ c = false) /\
     (c = true -> a = false /\ b = false)).
Proof.
  intros Hs Hw q tr' Hv.
  assert (Hget : Window._get host wd w "MinMax" tr =
                 (Ok (if negb (eq_empty_str v) then v else VNone), tr')).
  { unfold Window._get.
    rewrite (bind_ok _ _ _ _ _
               (call_returns host wd w Hs Hw "WinGet" _ false true tr v Hv)).
    now destruct (eq_empty_str v). }
  unfold Window.is_minimized, Window.is_restored, Window.is_maximized.
  rewrite !(bind_ok _ _ _ _ _ Hget).
  split; intros Hb.
  - apply orb_true_iff in Hb as [Hb|Hb].
    + rewrite Hb. repeat split.
    + destruct v; try discriminate Hb. repeat split.
  - apply orb_false_iff in Hb as [He Hn]. rewrite He. cbn [negb].
    rewrite Hn. cbn [negb].
    exists (eq_int v (-1)), (eq_int v 0), (eq_int v 1).
    split; [reflexivity|]. split; [reflexivity|]. split; [reflexivity|].
    repeat split;
      match goal with
      | H : eq_int _ _ = true |- _ =>
          (eapply eq_int_exclusive; [|exact H]); discriminate
      end.
Qed.

Lemma min_max_states_exclusive_witness :
  settings_ok (scripted_host [("WinGet", Returns (VInt 1))]) /\
  _Window.id (_Window.Build 7) <> 0 /\
  exists a b c,
    Window.is_minimized (scripted_host [("WinGet", Returns (VInt 1))]) VNone
      (_Window.Build 7) [] =
    (Ok (VBool a),
     [] ++ window_settings VNone false true ++
     [Call "WinGet" [VStr "MinMax"; VStr "ahk_id 7"; VStr ""]]) /\
    Window.is_restored (scripted_host [("WinGet", Returns (VInt 1))]) VNone
      (_Window.Build 7) [] =
    (Ok (VBool b),
     [] ++ window_settings VNone false true ++
     [Call "WinGet" [VStr "MinMax"; VStr "ahk_id 7"; VStr ""]]) /\
    Window.is_maximized (scripted_host [("WinGet", Returns (VInt 1))]) VNone
      (_Window.Build 7) [] =
    (Ok (VBool c),
     [] ++ window_settings VNone false true ++
     [Call "WinGet" [VStr "MinMax"; VStr "ahk_id 7"; VStr ""]]) /\
    (a = true -> b = false /\ c = false) /\
    (b = true -> a = false /\ c = false) /\
    (c = true -> a = false /\ b = false).
Proof.
  assert (Hs : settings_ok (scripted_host [("WinGet", Returns (VInt 1))]))
    by (apply scripted_host_settings_ok; reflexivity).
  assert (Hid : _Window.id (_Window.Build 7) <> 0) by discriminate.
  split; [exact Hs|]. split; [exact Hid|].
  exact (proj2 (min_max_states_exclusive _ VNone (_Window.Build 7) [] (VInt 1)
                  Hs Hid eq_refl) eq_refl).
Defined.


(** X15: [toggle_minimized] restores a window that the host reports as
    minimized and minimizes any other; [toggle_maximized] restores a window
    reported as maximized and maximizes any other.  When the host reports no
    state (the empty string or [None]) they do nothing more. *)
Theorem toggles_follow_state
    (host : Host) (wd : PyVal) (w : _Window.t) (tr : Trace) (v : PyVal) :
  settings_ok host ->
  _Window.id w <> 0 ->
  let target := _Window.splat (_Window._include w) in
  let settings := window_settings wd false true in
  let q := Call "WinGet" (VStr "MinMax" :: target) in
  host (tr ++ settings) q = Returns v ->
  (eq_empty_str v || is_None v = true ->
   Window.toggle_minimized host wd w tr = (Ok VNone, tr ++ settings ++ [q]) /\
   Window.toggle_maximized host wd w tr = (Ok VNone, tr ++ settings ++ [q])) /\
  (eq_empty_str v || is_None v = false ->
   snd (Window.toggle_minimized host wd w tr) =
   (tr ++ settings ++ [q]) ++ settings ++
   [Call (if eq_int v (-1) then "WinRestore" else "WinMinimize") target] /\
   snd (Window.toggle_maximized host wd w tr) =
   (tr ++ settings ++ [q]) ++ settings ++
   [Call (if eq_int v 1 then "WinRestore" else "WinMaximize") target]).
Proof.
  intros Hs Hw target settings q Hv.
  pose proof (get_returns host wd w "MinMax" tr v Hs Hw Hv) as Hget.
  fold target settings q in Hget.
  assert (Hmin : Window.is_minimized host wd w tr =
                 (Ok (if eq_empty_str v || is_None v then VNone
                      else VBool (eq_int v (-1))), tr ++ settings ++ [q])).
  { unfold Window.is_minimized. rewrite (bind_ok _ _ _ _ _ Hget).
    destruct (eq_empty_str v); [reflexivity|]. now destruct v. }
  assert (Hmax : Window.is_maximized host wd w tr =
                 (Ok (if eq_empty_str v || is_None v then VNone
                      else VBool (eq_int v 1)), tr ++ settings ++ [q])).
  { unfold Window.is_maximized. rewrite (bind_ok _ _ _ _ _ Hget).
    destruct (eq_empty_str v); [reflexivity|]. now destruct v. }
  unfold Window.toggle_minimized, Window.toggle_maximized.
  rewrite (bind_ok _ _ _ _ _ Hmin), (bind_ok _ _ _ _ _ Hmax).
  split; intros Hb; rewrite Hb.
  - split; reflexivity.
  - cbn [negb is_None truthy].
    unfold Window.set_is_minimized, Window.set_is_maximized,
      Window.minimize, Window.maximize, Window.restore.
    split.
    + destruct (eq_int v (-1)); cbn [negb];
        rewrite snd_bind_ret; now apply Window_call_trace.
    + destruct (eq_int v 1); cbn [negb];
        rewrite snd_bind_ret; now apply Window_call_trace.
Qed.

Lemma toggles_follow_state_witness :
  settings_ok (scripted_host [("WinGet", Returns (VInt (-1)))]) /\
  _Window.id (_Window.Build 7) <> 0 /\
  snd (Window.toggle_minimized (scripted_host [("WinGet", Returns (VInt (-1)))]) VNone
         (_Window.Build 7) []) =
  ([] ++ window_settings VNone false true ++
   [Call "WinGet" [VStr "MinMax"; VStr "ahk_id 7"; VStr ""]]) ++
  window_settings VNone false true ++
  [Call "WinRestore" [VStr "ahk_id 7"; VStr ""]].
Proof.
  assert (Hs : settings_ok (scripted_host [("WinGet", Returns (VInt (-1)))]))
    by (apply scripted_host_settings_ok; reflexivity).
  assert (Hid : _Window.id (_Window.Build 7) <> 0) by discriminate.
  split; [exact Hs|]. split; [exact Hid|].
  exact (proj1 (proj2 (toggles_follow_state _ VNone (_Window.Build 7) [] (VInt (-1))
                         Hs Hid eq_refl) eq_refl)).
Defined.

Lemma land_pow2_eqb z n :
  0 <= n -> (Z.land z (2 ^ n) =? 2 ^ n) = Z.testbit z n.
Proof.
  intros Hn.
  assert (Hl : Z.land z (2 ^ n) = if Z.testbit z n then 2 ^ n else 0).
  { apply Z.bits_inj'. intros m Hm.
    rewrite Z.land_spec, Z.pow2_bits_eqb by assumption.
    destruct (Z.eqb_spec n m) as [->|Hne].
    - rewrite andb_true_r. destruct (Z.testbit z m) eqn:E.
      + now rewrite Z.pow2_bits_true.
      + now rewrite Z.bits_0.
    - rewrite andb_false_r. destruct (Z.testbit z n).
      + rewrite Z.pow2_bits_false by assumption. reflexivity.
      + now rewrite Z.bits_0. }
  rewrite Hl. destruct (Z.testbit z n).
  - apply Z.eqb_refl.
  - apply Z.eqb_neq. pose proof (Z.pow_pos_nonneg 2 n). lia.
Qed.

(** X16: when the host reports the style word [z], not negative, [style]
    returns it,
    [is_visible] is bit 28 of it (WS_VISIBLE) and [is_enabled] is the
    negation of bit 27 (WS_DISABLED). *)
Theorem style_bits
    (host : Host) (wd : PyVal) (flag_of_other : PyVal -> Res Z) (w : _Window.t)
    (tr : Trace) (z : Z) :
  settings_ok host ->
  _Window.id w <> 0 ->
  let q := Call "WinGet" (VStr "Style" :: _Window.splat (_Window._include w)) in
  let tr' := tr ++ window_settings wd false true ++ [q] in
  0 <= z ->
  host (tr ++ window_settings wd false true) q = Returns (VInt z) ->
  Window.style host wd flag_of_other w tr = (Ok (VInt z), tr') /\
  Window.is_visible host wd flag_of_other w tr = (Ok (VBool (Z.testbit z 28)), tr') /\
  Window.is_enabled host wd flag_of_other w tr =
  (Ok (VBool (negb (Z.testbit z 27))), tr').
Proof.
  intros Hs Hw q tr' Hz Hv.
  pose proof (get_returns host wd w "Style" tr (VInt z) Hs Hw Hv) as Hget.
  cbn [eq_empty_str] in Hget.
  assert (Hstyle : Window.style host wd flag_of_other w tr = (Ok (VInt z), tr')).
  { unfold Window.style. rewrite (bind_ok _ _ _ _ _ Hget).
    cbn [is_None negb IntFlag]. apply Z.leb_le in Hz. now rewrite Hz. }
  split; [exact Hstyle|].
  unfold Window.is_visible, Window.is_enabled.
  rewrite !(bind_ok _ _ _ _ _ Hstyle). cbn [is_None negb has_flag lift].
  unfold bind, ret.
  change WindowStyle.VISIBLE with (2 ^ 28).
  change WindowStyle.DISABLED with (2 ^ 27).
  rewrite !land_pow2_eqb by lia. split; reflexivity.
Qed.

Lemma style_bits_witness :
  settings_ok (scripted_host [("WinGet", Returns (VInt 0x14CF0000))]) /\
  _Window.id (_Window.Build 7) <> 0 /\
  0 <= 0x14CF0000 /\
  Window.is_visible (scripted_host [("WinGet", Returns (VInt 0x14CF0000))]) VNone
    no_other_flag (_Window.Build 7) [] =
  (Ok (VBool true),
   [] ++ window_settings VNone false true ++
   [Call "WinGet" [VStr "Style"; VStr "ahk_id 7"; VStr ""]]) /\
  Window.is_enabled (scripted_host [("WinGet", Returns (VInt 0x14CF0000))]) VNone
    no_other_flag (_Window.Build 7) [] =
  (Ok (VBool true),
   [] ++ window_settings VNone false true ++
   [Call "WinGet" [VStr "Style"; VStr "ahk_id 7"; VStr ""]]).
Proof.
  assert (Hs : settings_ok (scripted_host [("WinGet", Returns (VInt 0x14CF0000))]))
    by (apply scripted_host_settings_ok; reflexivity).
  assert (Hid : _Window.id (_Window.Build 7) <> 0) by discriminate.
  split; [exact Hs|]. split; [exact Hid|]. split; [lia|].
  exact (proj2 (style_bits _ VNone no_other_flag (_Window.Build 7) [] 0x14CF0000
                  Hs Hid ltac:(lia) eq_refl)).
Defined.

(** X17: [always_on_top] asks the host for the extended style twice when the
    first reply is a style: the answer is bit 3 (WS_EX_TOPMOST) of the second
    reply.  When the first reply is empty it returns [None] after that one
    query. *)
Theorem always_on_top_asks_twice
    (host : Host) (wd : PyVal) (flag_of_other : PyVal -> Res Z) (w : _Window.t)
    (tr : Trace) :
  settings_ok host ->
  _Window.id w <> 0 ->
  let settings := window_settings wd false true in
  let q := Call "WinGet" (VStr "ExStyle" :: _Window.splat (_Window._include w)) in
  let tr1 := tr ++ settings ++ [q] in
  let tr2 := tr1 ++ settings ++ [q] in
  (host (tr ++ settings) q = Returns (VStr "") ->
   Window.always_on_top host wd flag_of_other w tr = (Ok VNone, tr1)) /\
  (forall z1 z2,
      0 <= z1 -> 0 <= z2 ->
      host (tr ++ settings) q = Returns (VInt z1) ->
      host (tr1 ++ settings) q = Returns (VInt z2) ->
      Window.always_on_top host wd flag_of_other w tr =
      (Ok (VBool (Z.testbit z2 3)), tr2)).
Proof.
  intros Hs Hw settings q tr1 tr2.
  assert (Hex : forall t v,
             host (t ++ settings) q = Returns v ->
             Window.ex_style host wd flag_of_other w t =
             (if eq_empty_str v || is_None v then ret VNone
              else IntFlag flag_of_other v)
               (t ++ settings ++ [q])).
  { intros t v Hv. unfold Window.ex_style.
    rewrite (bind_ok _ _ _ _ _ (get_returns host wd w "ExStyle" t v Hs Hw Hv)).
    destruct (eq_empty_str v); [reflexivity|]. now destruct v. }
  unfold Window.always_on_top.
  split.
  - intros H1. now rewrite (bind_ok _ _ _ _ _ (Hex tr _ H1)).
  - intros z1 z2 Hz1 Hz2 H1 H2.
    apply Z.leb_le in Hz1, Hz2.
    pose proof (Hex tr _ H1) as E1. pose proof (Hex tr1 _ H2) as E2.
    cbn [eq_empty_str is_None orb IntFlag] in E1, E2. rewrite Hz1 in E1.
    rewrite Hz2 in E2.
    rewrite (bind_ok _ _ _ _ _ E1). cbn [is_None negb].
    rewrite (bind_ok _ _ _ _ _ E2). cbn [has_flag lift]. unfold bind, ret.
    change ExWindowStyle.TOPMOST with (2 ^ 3).
    now rewrite land_pow2_eqb by lia.
Qed.

Lemma always_on_top_asks_twice_witness :
  settings_ok (scripted_host [("WinGet", Returns (VInt 0x108))]) /\
  _Window.id (_Window.Build 7) <> 0 /\
  0 <= 0x108 /\
  Window.always_on_top (scripted_host [("WinGet", Returns (VInt 0x108))]) VNone
    no_other_flag (_Window.Build 7) [] =
  (Ok (VBool true),
   ([] ++ window_settings VNone false true ++
    [Call "WinGet" [VStr "ExStyle"; VStr "ahk_id 7"; VStr ""]]) ++
   window_settings VNone false true ++
   [Call "WinGet" [VStr "ExStyle"; VStr "ahk_id 7"; VStr ""]]).
Proof.
  assert (Hs : settings_ok (scripted_host [("WinGet", Returns (VInt 0x108))]))
    by (apply scripted_host_settings_ok; reflexivity).
  assert (Hid : _Window.id (_Window.Build 7) <> 0) by discriminate.
  split; [exact Hs|]. split; [exact Hid|]. split; [lia|].
  exact (proj2 (always_on_top_asks_twice _ VNone no_other_flag (_Window.Build 7) []
                  Hs Hid)
           0x108 0x108 ltac:(lia) ltac:(lia) eq_refl eq_refl).
Defined.

(** X18: [get_control] first asks whether the window exists and returns
    [None] without asking for the control when it does not.  Otherwise it
    returns the control the host reports, [None] when the host raises its
    error 1 (no such control), and lets any other host error through. *)
Theorem get_control_outcomes
    (host : Host) (wd : PyVal) (w : _Window.t) (class_name : string) (tr : Trace) :
  settings_ok host ->
  _Window.id w <> 0 ->
  let target := _Window.splat (_Window._include w) in
  let settings := window_settings wd false true in
  let exist_q := Call "WinExist" target in
  let control_q := Call "ControlGet" ([VStr "Hwnd"; VStr ""; VStr class_name] ++ target) in
  let tr1 := tr ++ settings ++ [exist_q] in
  let tr2 := tr1 ++ settings ++ [control_q] in
  (forall e,
      host (tr ++ settings) exist_q = Returns e -> truthy e = false ->
      Window.get_control host wd w class_name tr = (Ok None, tr1)) /\
  (forall e,
      host (tr ++ settings) exist_q = Returns e -> truthy e = true ->
      (forall z,
          host (tr1 ++ settings) control_q = Returns (VInt z) ->
          Window.get_control host wd w class_name tr = (Ok (Some (_Window.Build z)), tr2)) /\
      (forall m,
          host (tr1 ++ settings) control_q = Raises m ->
          Window.get_control host wd w class_name tr =
          (if eq_int m 1 then Ok None else Exc (Error m), tr2))).
Proof.
  intros Hs Hw target settings exist_q control_q tr1 tr2.
  assert (Hex : forall e,
             host (tr ++ settings) exist_q = Returns e ->
             Window.exists_ host wd w tr = (Ok (truthy e), tr1)).
  { intros e He. unfold Window.exists_.
    now rewrite (bind_ok _ _ _ _ _
                   (call_returns host wd w Hs Hw "WinExist" _ false true tr e He)). }
  unfold Window.get_control.
  split.
  - intros e He Ht. rewrite (bind_ok _ _ _ _ _ (Hex e He)), Ht. reflexivity.
  - intros e He Ht. rewrite (bind_ok _ _ _ _ _ (Hex e He)), Ht. cbn [negb].
    unfold catch. split.
    + intros z Hz.
      rewrite (bind_ok _ _ _ _ _
                 (call_returns host wd w Hs Hw "ControlGet" _ false true tr1 _ Hz)).
      reflexivity.
    + intros m Hm.
      rewrite (bind_exc _ _ _ _ _
                 (call_raises host wd w Hs Hw "ControlGet" _ false true tr1 _ Hm)).
      destruct (eq_int m 1); reflexivity.
Qed.

Lemma get_control_outcomes_witness :
  settings_ok (scripted_host [("WinExist", Returns (VInt 7));
                              ("ControlGet", Raises (VInt 1))]) /\
  _Window.id (_Window.Build 7) <> 0 /\
  Window.get_control
    (scripted_host [("WinExist", Returns (VInt 7)); ("ControlGet", Raises (VInt 1))])
    VNone (_Window.Build 7) "Edit1" [] =
  (Ok None,
   ([] ++ window_settings VNone false true ++
    [Call "WinExist" [VStr "ahk_id 7"; VStr ""]]) ++
   window_settings VNone false true ++
   [Call "ControlGet" [VStr "Hwnd"; VStr ""; VStr "Edit1"; VStr "ahk_id 7"; VStr ""]]).
Proof.
  assert (Hs : settings_ok
                 (scripted_host [("WinExist", Returns (VInt 7));
                                 ("ControlGet", Raises (VInt 1))]))
    by (apply scripted_host_settings_ok; reflexivity).
  assert (Hid : _Window.id (_Window.Build 7) <> 0) by discriminate.
  split; [exact Hs|]. split; [exact Hid|].
  exact (proj2 (proj2 (get_control_outcomes _ VNone (_Window.Build 7) "Edit1" [] Hs Hid)
                  (VInt 7) eq_refl eq_refl) (VInt 1) eq_refl).
Defined.

(** X19: [get_status_bar_text] returns [None] when the window has no status
    bar control.  With a status bar it returns the text the host reports; a
    host error 1 is raised again with the message "status bar cannot be
    accessed", any other host error unchanged; an error of the lookup of the
    control goes through. *)
Theorem status_bar_text_outcomes
    (host : Host) (wd : PyVal) (w : _Window.t) (part : PyNum) (tr : Trace) :
  settings_ok host ->
  _Window.id w <> 0 ->
  let settings := window_settings wd false true in
  let q := Call "StatusBarGetText"
             (VInt (int part) :: _Window.splat (_Window._include w)) in
  (forall tr1,
      Window.get_control host wd w "msctls_statusbar321" tr = (Ok None, tr1) ->
      Window.get_status_bar_text host wd w part tr = (Ok VNone, tr1)) /\
  (forall e tr1,
      Window.get_control host wd w "msctls_statusbar321" tr = (Exc e, tr1) ->
      Window.get_status_bar_text host wd w part tr = (Exc e, tr1)) /\
  (forall c tr1,
      Window.get_control host wd w "msctls_statusbar321" tr = (Ok (Some c), tr1) ->
      (forall v,
          host (tr1 ++ settings) q = Returns v ->
          Window.get_status_bar_text host wd w part tr = (Ok v, tr1 ++ settings ++ [q])) /\
      (forall m,
          host (tr1 ++ settings) q = Raises m ->
          Window.get_status_bar_text host wd w part tr =
          (Exc (Error (if eq_int m 1 then VStr "status bar cannot be accessed" else m)),
           tr1 ++ settings ++ [q]))).
Proof.
  intros Hs Hw settings q.
  unfold Window.get_status_bar_text, Window._status_bar_exists.
  split; [|split].
  - intros tr1 H. rewrite (bind_ok _ _ _ _ _ (bind_ok _ _ _ _ _ H)). reflexivity.
  - intros e tr1 H. rewrite (bind_exc _ _ _ _ _ (bind_exc _ _ _ _ _ H)). reflexivity.
  - intros c tr1 H. rewrite (bind_ok _ _ _ _ _ (bind_ok _ _ _ _ _ H)).
    cbn [ret negb]. unfold catch. split.
    + intros v Hv.
      now rewrite (call_returns host wd w Hs Hw "StatusBarGetText" _ false true tr1 v Hv).
    + intros m Hm.
      rewrite (call_raises host wd w Hs Hw "StatusBarGetText" _ false true tr1 m Hm).
      destruct (eq_int m 1); reflexivity.
Qed.

Lemma status_bar_text_outcomes_witness :
  settings_ok (scripted_host [("WinExist", Returns (VInt 7));
                              ("ControlGet", Returns (VInt 9));
                              ("StatusBarGetText", Raises (VInt 1))]) /\
  _Window.id (_Window.Build 7) <> 0 /\
  fst (Window.get_status_bar_text
         (scripted_host [("WinExist", Returns (VInt 7));
                         ("ControlGet", Returns (VInt 9));
                         ("StatusBarGetText", Raises (VInt 1))])
         VNone (_Window.Build 7) (NInt 1) []) =
  Exc (Error (VStr "status bar cannot be accessed")).
Proof.
  assert (Hs : settings_ok
                 (scripted_host [("WinExist", Returns (VInt 7));
                                 ("ControlGet", Returns (VInt 9));
                                 ("StatusBarGetText", Raises (VInt 1))]))
    by (apply scripted_host_settings_ok; reflexivity).
  assert (Hid : _Window.id (_Window.Build 7) <> 0) by discriminate.
  split; [exact Hs|]. split; [exact Hid|].
  rewrite (proj2 (proj2 (proj2 (status_bar_text_outcomes _ VNone (_Window.Build 7)
                                  (NInt 1) [] Hs Hid))
                    (_Window.Build 9) _ eq_refl) (VInt 1) eq_refl).
  reflexivity.
Defined.

(** X20: the [text] getter returns what the host reports as it is, the empty
    string included; it returns [None] when the host raises its error 1 and
    lets any other host error through. *)
Theorem text_outcomes
    (host : Host) (wd : PyVal) (w : _Window.t) (tr : Trace) :
  settings_ok host ->
  _Window.id w <> 0 ->
  let q := Call "WinGetText" (_Window.splat (_Window._include w)) in
  let tr' := tr ++ window_settings wd false true ++ [q] in
  (forall v,
      host (tr ++ window_settings wd false true) q = Returns v ->
      Window.text host wd w tr = (Ok v, tr')) /\
  (forall m,
      host (tr ++ window_settings wd false true) q = Raises m ->
      Window.text host wd w tr = (if eq_int m 1 then Ok VNone else Exc (Error m), tr')).
Proof.
  intros Hs Hw q tr'. unfold Window.text, catch. split.
  - intros v Hv.
    now rewrite (call_returns host wd w Hs Hw "WinGetText" _ false true tr v Hv).
  - intros m Hm.
    rewrite (call_raises host wd w Hs Hw "WinGetText" _ false true tr m Hm).
    destruct (eq_int m 1); reflexivity.
Qed.

Lemma text_outcomes_witness :
  settings_ok silent_host /\
  _Window.id (_Window.Build 7) <> 0 /\
  Window.text silent_host VNone (_Window.Build 7) [] =
  (Ok (VStr ""),
   [] ++ window_settings VNone false true ++
   [Call "WinGetText" [VStr "ahk_id 7"; VStr ""]]) /\
  Window.text (scripted_host [("WinGetText", Raises (VInt 2))]) VNone
    (_Window.Build 7) [] =
  (Exc (Error (VInt 2)),
   [] ++ window_settings VNone false true ++
   [Call "WinGetText" [VStr "ahk_id 7"; VStr ""]]).
Proof.
  assert (Hs : settings_ok (scripted_host [("WinGetText", Raises (VInt 2))]))
    by (apply scripted_host_settings_ok; reflexivity).
  assert (Hid : _Window.id (_Window.Build 7) <> 0) by discriminate.
  split; [exact silent_host_settings_ok|]. split; [exact Hid|]. split.
  - exact (proj1 (text_outcomes silent_host VNone (_Window.Build 7) []
                    silent_host_settings_ok Hid) (VStr "") eq_refl).
  - exact (proj2 (text_outcomes _ VNone (_Window.Build 7) [] Hs Hid) (VInt 2) eq_refl).
Defined.

(** X21: [close] and [kill] without a timeout send their command and return
    [None]; with a timeout they then ask whether the window still exists and
    return [True] exactly when it does not. *)
Theorem close_reports_gone
    (host : Host) (wd : PyVal) (w : _Window.t) (tr : Trace) :
  settings_ok host ->
  _Window.id w <> 0 ->
  let target := _Window.splat (_Window._include w) in
  let settings := window_settings wd false true in
  (forall v,
      host (tr ++ settings) (Call "WinClose" (target ++ [VNone])) = Returns v ->
      Window.close host wd w None tr =
      (Ok VNone, tr ++ settings ++ [Call "WinClose" (target ++ [VNone])])) /\
  (forall v,
      host (tr ++ settings) (Call "WinKill" (target ++ [VNone])) = Returns v ->
      Window.kill host wd w None tr =
      (Ok VNone, tr ++ settings ++ [Call "WinKill" (target ++ [VNone])])) /\
  (forall t v found,
      host (tr ++ settings) (Call "WinClose" (target ++ [num t])) = Returns v ->
      host ((tr ++ settings ++ [Call "WinClose" (target ++ [num t])]) ++ settings)
        (Call "WinExist" target) = Returns found ->
      Window.close host wd w (Some t) tr =
      (Ok (VBool (negb (truthy found))),
       (tr ++ settings ++ [Call "WinClose" (target ++ [num t])]) ++
       settings ++ [Call "WinExist" target])) /\
  (forall t v found,
      host (tr ++ settings) (Call "WinKill" (target ++ [num t])) = Returns v ->
      host ((tr ++ settings ++ [Call "WinKill" (target ++ [num t])]) ++ settings)
        (Call "WinExist" target) = Returns found ->
      Window.kill host wd w (Some t) tr =
      (Ok (VBool (negb (truthy found))),
       (tr ++ settings ++ [Call "WinKill" (target ++ [num t])]) ++
       settings ++ [Call "WinExist" target])).
Proof.
  intros Hs Hw target settings.
  assert (Hex : forall t e,
             host (t ++ settings) (Call "WinExist" target) = Returns e ->
             Window.exists_ host wd w t =
             (Ok (truthy e), t ++ settings ++ [Call "WinExist" target])).
  { intros t e He. unfold Window.exists_.
    now rewrite (bind_ok _ _ _ _ _
                   (call_returns host wd w Hs Hw "WinExist" _ false true t e He)). }
  unfold Window.close, Window.kill.
  split; [|split; [|split]].
  - intros v Hv.
    now rewrite (bind_ok _ _ _ _ _
                   (call_returns host wd w Hs Hw "WinClose" _ false true tr v Hv)).
  - intros v Hv.
    now rewrite (bind_ok _ _ _ _ _
                   (call_returns host wd w Hs Hw "WinKill" _ false true tr v Hv)).
  - intros t v found Hv Hf.
    rewrite (bind_ok _ _ _ _ _
               (call_returns host wd w Hs Hw "WinClose" _ false true tr v Hv)).
    now rewrite (bind_ok _ _ _ _ _ (Hex _ _ Hf)).
  - intros t v found Hv Hf.
    rewrite (bind_ok _ _ _ _ _
               (call_returns host wd w Hs Hw "WinKill" _ false true tr v Hv)).
    now rewrite (bind_ok _ _ _ _ _ (Hex _ _ Hf)).
Qed.

Lemma close_reports_gone_witness :
  settings_ok silent_host /\
  _Window.id (_Window.Build 7) <> 0 /\
  Window.close silent_host VNone (_Window.Build 7) (Some (NInt 2)) [] =
  (Ok (VBool true),
   ([] ++ window_settings VNone false true ++
    [Call "WinClose" [VStr "ahk_id 7"; VStr ""; VInt 2]]) ++
   window_settings VNone false true ++
   [Call "WinExist" [VStr "ahk_id 7"; VStr ""]]).
Proof.
  assert (Hid : _Window.id (_Window.Build 7) <> 0) by discriminate.
  split; [exact silent_host_settings_ok|]. split; [exact Hid|].
  exact (proj1 (proj2 (proj2 (close_reports_gone silent_host VNone (_Window.Build 7) []
                                silent_host_settings_ok Hid)))
           (NInt 2) (VStr "") (VStr "") eq_refl eq_refl).
Defined.

(** X22: the waits of a handle send the host one wait command with the
    timeout as given ([None] stays [None]) and return [True] exactly when the
    host does not report a timeout; a [None] reply counts as a failure for
    [wait_active] and as a success for the others.  [wait_hidden] and
    [wait_close] send the same command and differ in the hidden-window mode
    set before it: off for [wait_hidden], on for [wait_close]. *)
Theorem handle_waits
    (host : Host) (wd : PyVal) (w : _Window.t) (timeout : option PyNum)
    (tr : Trace) (v : PyVal) :
  settings_ok host ->
  _Window.id w <> 0 ->
  let args := _Window.splat (_Window._include w) ++ [opt_num timeout] in
  let shown := window_settings wd false true in
  let hidden := window_settings wd true true in
  (host (tr ++ shown) (Call "WinWaitActive" args) = Returns v ->
   Window.wait_active host wd w timeout tr =
   (Ok (negb (is_None v) && negb (truthy v)),
    tr ++ shown ++ [Call "WinWaitActive" args])) /\
  (host (tr ++ shown) (Call "WinWaitNotActive" args) = Returns v ->
   Window.wait_inactive host wd w timeout tr =
   (Ok (negb (truthy v)), tr ++ shown ++ [Call "WinWaitNotActive" args])) /\
  (host (tr ++ shown) (Call "WinWaitClose" args) = Returns v ->
   Window.wait_close host wd w timeout tr =
   (Ok (negb (truthy v)), tr ++ shown ++ [Call "WinWaitClose" args])) /\
  (host (tr ++ hidden) (Call "WinWaitClose" args) = Returns v ->
   Window.wait_hidden host wd w timeout tr =
   (Ok (negb (truthy v)), tr ++ hidden ++ [Call "WinWaitClose" args])) /\
  shown = [Call "DetectHiddenWindows" [VStr "On"]; Call "SetWinDelay" [wd]] /\
  hidden = [Call "DetectHiddenWindows" [VStr "Off"]; Call "SetWinDelay" [wd]].
Proof.
  intros Hs Hw args shown hidden.
  unfold Window.wait_active, Window.wait_inactive, Window.wait_close,
    Window.wait_hidden.
  repeat split; try intros Hv.
  - rewrite (bind_ok _ _ _ _ _
               (call_returns host wd w Hs Hw "WinWaitActive" _ false true tr v Hv)).
    now destruct v.
  - rewrite (bind_ok _ _ _ _ _
               (call_returns host wd w Hs Hw "WinWaitNotActive" _ false true tr v Hv)).
    now destruct v.
  - rewrite (bind_ok _ _ _ _ _
               (call_returns host wd w Hs Hw "WinWaitClose" _ false true tr v Hv)).
    now destruct v.
  - rewrite (bind_ok _ _ _ _ _
               (call_returns host wd w Hs Hw "WinWaitClose" _ true true tr v Hv)).
    now destruct v.
Qed.

Lemma handle_waits_witness :
  settings_ok (scripted_host [("WinWaitActive", Returns (VInt 1))]) /\
  _Window.id (_Window.Build 7) <> 0 /\
  Window.wait_active (scripted_host [("WinWaitActive", Returns (VInt 1))]) VNone
    (_Window.Build 7) (Some (NInt 0)) [] =
  (Ok false,
   [] ++ window_settings VNone false true ++
   [Call "WinWaitActive" [VStr "ahk_id 7"; VStr ""; VInt 0]]).
Proof.
  assert (Hs : settings_ok (scripted_host [("WinWaitActive", Returns (VInt 1))]))
    by (apply scripted_host_settings_ok; reflexivity).
  assert (Hid : _Window.id (_Window.Build 7) <> 0) by discriminate.
  split; [exact Hs|]. split; [exact Hid|].
  exact (proj1 (handle_waits _ VNone (_Window.Build 7) (Some (NInt 0)) [] (VInt 1) Hs Hid)
           eq_refl).
Defined.

(** ** Clipboard callbacks *)

(** X23: the clipboard handler calls the callback with the empty string for
    event type 0, without reading the clipboard; for the types 1 and 2 alike
    it first reads the clipboard and calls the callback with that text, and
    does not call it when the read fails; for any other type it returns
    [None] and neither reads nor calls.  When the callback returns, the
    handler returns the truth value of its result. *)
Theorem clipboard_handler_by_type
    (host : Host) (func : PyVal -> M PyVal) (typ : PyVal) (tr : Trace) :
  let read := Call "GetVar" [VStr "Clipboard"] in
  (eq_int typ 0 = true ->
   clipboard._clipboard_handler host func typ tr =
   clipboard._bare_clipboard_handler (func (VStr "")) tr) /\
  (eq_int typ 1 = true \/ eq_int typ 2 = true ->
   (forall text,
       host tr read = Returns text ->
       clipboard._clipboard_handler host func typ tr =
       clipboard._bare_clipboard_handler (func text) (tr ++ [read])) /\
   (forall m,
       host tr read = Raises m ->
       clipboard._clipboard_handler host func typ tr = (Exc (Error m), tr ++ [read]))) /\
  (eq_int typ 0 = false -> eq_int typ 1 = false -> eq_int typ 2 = false ->
   clipboard._clipboard_handler host func typ tr = (Ok VNone, tr)) /\
  (forall f r tr0 tr1,
      f tr0 = (Ok r, tr1) ->
      clipboard._bare_clipboard_handler f tr0 = (Ok (VBool (truthy r)), tr1)).
Proof.
  intros read. unfold clipboard._clipboard_handler, clipboard._bare_clipboard_handler.
  split; [|split; [|split]].
  - intros H. now rewrite H.
  - intros H.
    assert (H0 : eq_int typ 0 = false)
      by (destruct H as [H|H]; (eapply eq_int_exclusive; [|exact H]); discriminate).
    rewrite H0.
    assert (Hsame : (if eq_int typ 1
                     then text <- clipboard.get_clipboard host ;;
                          r <- func text ;; ret (VBool (truthy r))
                     else if eq_int typ 2
                          then text <- clipboard.get_clipboard host ;;
                               r <- func text ;; ret (VBool (truthy r))
                          else ret VNone) =
                    (text <- clipboard.get_clipboard host ;;
                     r <- func text ;; ret (VBool (truthy r)))).
    { destruct H as [H|H]; rewrite H; [reflexivity|].
      now destruct (eq_int typ 1). }
    rewrite Hsame. unfold clipboard.get_clipboard. split.
    + intros text Ht. now rewrite (bind_ok _ _ _ _ _ (ahk_call_returns _ _ _ _ _ Ht)).
    + intros m Hm. now rewrite (bind_exc _ _ _ _ _ (ahk_call_raises _ _ _ _ _ Hm)).
  - intros H0 H1 H2. now rewrite H0, H1, H2.
  - intros f r tr0 tr1 Hf. now rewrite (bind_ok _ _ _ _ _ Hf).
Qed.

Lemma clipboard_handler_by_type_witness :
  (eq_int (VInt 2) 1 = true \/ eq_int (VInt 2) 2 = true) /\
  sample_host [] (Call "GetVar" [VStr "Clipboard"]) = Returns (VStr "copied text") /\
  clipboard._clipboard_handler sample_host has_text (VInt 2) [] =
  clipboard._bare_clipboard_handler (has_text (VStr "copied text"))
    ([] ++ [Call "GetVar" [VStr "Clipboard"]]) /\
  eq_int (VInt 0) 0 = true /\
  clipboard._clipboard_handler sample_host has_text (VInt 0) [] =
  clipboard._bare_clipboard_handler (has_text (VStr "")) [] /\
  clipboard._clipboard_handler sample_host has_text (VInt 3) [] = (Ok VNone, []).
Proof.
  pose proof (clipboard_handler_by_type sample_host has_text (VInt 2) [])
    as (_ & H12 & _).
  pose proof (clipboard_handler_by_type sample_host has_text (VInt 0) [])
    as (H0 & _).
  pose proof (clipboard_handler_by_type sample_host has_text (VInt 3) [])
    as (_ & _ & H3 & _).
  split; [right; reflexivity|]. split; [reflexivity|].
  split; [exact (proj1 (H12 (or_intror eq_refl)) _ eq_refl)|].
  split; [reflexivity|]. split; [exact (H0 eq_refl)|].
  exact (H3 eq_refl eq_refl eq_refl).
Defined.

(** ** Controls *)

(** X24: the getters of a control on a handle that is not zero dispatch one
    query each: [text] returns the host's reply as it is, [_get] returns
    [None] in place of an empty reply; both let a host error through. *)
Theorem control_getters
    (host : Host) (wd : PyVal) (w : _Window.t) (subcmd : string) (value : PyVal)
    (tr : Trace) :
  settings_ok host ->
  _Window.id w <> 0 ->
  let target := _Window.splat (_Window._include w) in
  let settings := window_settings wd false true in
  let text_q := Call "ControlGetText" (VStr "" :: target) in
  let get_q := Call "ControlGet" (VStr subcmd :: value :: VStr "" :: target) in
  one_query (Control.text host wd w) text_q /\
  one_query (Control._get host wd w subcmd value) get_q /\
  (forall v,
      host (tr ++ settings) text_q = Returns v ->
      Control.text host wd w tr = (Ok v, tr ++ settings ++ [text_q])) /\
  (forall v,
      host (tr ++ settings) get_q = Returns v ->
      Control._get host wd w subcmd value tr =
      (Ok (if eq_empty_str v then VNone else v), tr ++ settings ++ [get_q])) /\
  (forall m,
      host (tr ++ settings) get_q = Raises m ->
      Control._get host wd w subcmd value tr = (Exc (Error m), tr ++ settings ++ [get_q])).
Proof.
  intros Hs Hw target settings text_q get_q.
  unfold Control.text, Control._get.
  split; [|split; [|split; [|split]]].
  - one_query_tac.
  - one_query_tac.
  - intros v Hv.
    exact (call_returns host wd w Hs Hw "ControlGetText" _ false true tr v Hv).
  - intros v Hv.
    rewrite (bind_ok _ _ _ _ _
               (call_returns host wd w Hs Hw "ControlGet" _ false true tr v Hv)).
    now destruct (eq_empty_str v).
  - intros m Hm.
    now rewrite (bind_exc _ _ _ _ _
                   (call_raises host wd w Hs Hw "ControlGet" _ false true tr m Hm)).
Qed.

Lemma control_getters_witness :
  settings_ok sample_host /\
  _Window.id (_Window.Build 9) <> 0 /\
  Control._get sample_host VNone (_Window.Build 9) "Checked" (VStr "") [] =
  (Ok VNone,
   [] ++ window_settings VNone false true ++
   [Call "ControlGet" [VStr "Checked"; VStr ""; VStr ""; VStr "ahk_id 9"; VStr ""]]).
Proof.
  assert (Hid : _Window.id (_Window.Build 9) <> 0) by discriminate.
  split; [exact sample_host_settings_ok|]. split; [exact Hid|].
  exact (proj1 (proj2 (proj2 (proj2
           (control_getters sample_host VNone (_Window.Build 9) "Checked" (VStr "") []
              sample_host_settings_ok Hid))))
           (VStr "") eq_refl).
Defined.

(** ** The result of a group action *)

(** X25: a group action without a timeout returns [None]; with a timeout,
    once the host has taken the registration and the action, it asks whether
    a matching window still exists and returns [True] exactly when the host
    reports none. *)
Theorem group_action_reports_gone
    (host : Host) (wd : PyVal) (hash : list Obj -> Z) (f : Windows.t)
    (cmd : string) (timeout : option PyNum) (tr : Trace) (added acted : PyVal) :
  settings_ok host ->
  Windows.__eq__ f Windows.windows && (cmd =? "WinMinimize")%string = false ->
  Windows.has_none f = false ->
  modes_valid f = true ->
  let add := Call "GroupAdd"
               (VStr (Windows.group_name hash f) ::
                _Window.splat (Windows._include f) ++ [VStr ""] ++
                _Window.splat (Windows._exclude f)) in
  let act := Call cmd [VStr ("ahk_group " ++ Windows.group_name hash f)%string;
                       VStr ""; opt_num timeout] in
  let tr1 := tr ++ filter_settings wd f false ++ [add] in
  let tr2 := tr1 ++ filter_settings wd f true ++ [act] in
  let exist_q := Call "WinExist" (Windows.splat4 (Windows._query f)) in
  host (tr ++ filter_settings wd f false) add = Returns added ->
  host (tr1 ++ filter_settings wd f true) act = Returns acted ->
  (timeout = None ->
   Windows._group_action host wd hash f cmd timeout tr = (Ok VNone, tr2)) /\
  (timeout <> None ->
   forall found,
     host (tr2 ++ filter_settings wd f false) exist_q = Returns found ->
     (truthy found = false ->
      Windows._group_action host wd hash f cmd timeout tr =
      (Ok (VBool true), tr2 ++ filter_settings wd f false ++ [exist_q])) /\
     (forall z, found = VInt z -> z <> 0 ->
      Windows._group_action host wd hash f cmd timeout tr =
      (Ok (VBool false), tr2 ++ filter_settings wd f false ++ [exist_q]))).
Proof.
  intros Hs Hc Hn Hm add act tr1 tr2 exist_q Hadd Hact.
  rewrite (group_action_steps host wd hash f cmd timeout tr Hs Hc Hn Hm).
  cbv zeta. fold add tr1. rewrite Hadd. fold act tr2. rewrite Hact.
  split.
  - intros ->. reflexivity.
  - intros Ht found Hf. destruct timeout as [t|]; [|congruence].
    assert (Hex : Windows.exist host wd f Windows.no_args tr2 =
                  _Window.of_reply (py_or found (VInt 0))
                    (tr2 ++ filter_settings wd f false ++ [exist_q])).
    { unfold Windows.exist. rewrite (filtering_ok _ f Windows.no_args f) by reflexivity.
      now rewrite (bind_ok _ _ _ _ _
                     (Windows_call_returns host wd f "WinExist" _ false tr2 found
                        Hs Hn Hm Hf)). }
    unfold py_or in Hex. split.
    + intros Hfalse. rewrite Hfalse in Hex.
      now rewrite (bind_ok _ _ _ _ _ Hex).
    + intros z -> Hz. cbn [truthy] in Hex. apply Z.eqb_neq in Hz.
      rewrite Hz in Hex. cbn [negb _Window.of_reply] in Hex.
      rewrite (bind_ok _ _ _ _ _ Hex).
      unfold ret, _Window.__bool__. cbn [_Window.id]. now rewrite Hz.
Qed.

Lemma group_action_reports_gone_witness :
  settings_ok silent_host /\
  Windows.__eq__ untitled Windows.windows && ("WinClose" =? "WinMinimize")%string = false /\
  Windows.has_none untitled = false /\
  modes_valid untitled = true /\
  Some (NInt 1) <> None /\
  fst (Windows._group_action silent_host VNone sample_hash untitled "WinClose"
         (Some (NInt 1)) []) = Ok (VBool true).
Proof.
  assert (Ht : Some (NInt 1) <> None) by discriminate.
  split; [exact silent_host_settings_ok|].
  split; [reflexivity|]. split; [reflexivity|]. split; [reflexivity|].
  split; [exact Ht|].
  rewrite (proj1 (proj2 (group_action_reports_gone silent_host VNone sample_hash untitled
                           "WinClose" (Some (NInt 1)) [] (VStr "") (VStr "")
                           silent_host_settings_ok eq_refl eq_refl eq_refl
                           eq_refl eq_refl) Ht (VStr "") eq_refl) eq_refl).
  reflexivity.
Defined.
